(** * ZOF: six iterative root finders (app.py and ZOF_CLI.py)

    The two Python files carry the same six solvers: [bisection],
    [regula_falsi], [secant], [newton_raphson], [fixed_point_iteration] and
    [modified_secant].  app.py returns [(root, residual, iterations, rows)],
    ZOF_CLI.py prints each row and returns [(root, residual, iterations)].

    The solvers are embedded once, over an interface [Arith] that lists the
    arithmetic the Python text uses.  Two implementations of the interface
    follow: [IEEE], binary64 floating point (what a Python [float] is), and
    [Exact], the real numbers the specification speaks about.

    An evaluator (f, its derivative, g) is a function from numbers to
    numbers: it returns a number wherever a solver calls it.  A Python
    evaluator that raises at some point (a math domain error, the
    OverflowError of [**]) is outside the embedding, and every statement
    below is about evaluators that raise nothing.

    Around the solvers, ZOF_CLI.py has the prompts [safe_float] and
    [safe_int] and the dialogue [main], and app.py the request handler
    [index]: they are embedded in [Console] and [Web]. *)

From Stdlib Require Import ZArith List String Bool Lia.
From Stdlib Require Import Reals Lra.
From Stdlib Require Import PrimFloat.
From Stdlib Require SpecFloat FloatOps FloatAxioms.
Import ListNotations.

Set Implicit Arguments.

(** ** Python values and control *)

(** The exceptions the solvers can end with.  [ZeroDivisionError None] is the
    one the interpreter raises for [x / 0]; [UnboundLocalError v] is the one it
    raises when the local variable [v] is read before any assignment. *)
Inductive exn : Type :=
| ValueError (msg : string)
| ZeroDivisionError (msg : option string)
| UnboundLocalError (var : string).

(** A call either returns a value or raises. *)
Inductive outcome (T : Type) : Type :=
| Return (v : T)
| Raise (e : exn).

Arguments Return {T} v.
Arguments Raise {T} e.

Definition bind {T U : Type} (c : outcome T) (k : T -> outcome U) : outcome U :=
  match c with
  | Return v => k v
  | Raise e => Raise e
  end.

Notation "x <- c ;; k" := (bind c (fun x => k))
  (at level 61, c at next level, right associativity).

(** Reading a local variable: [None] stands for "not assigned yet". *)
Definition local {T : Type} (var : string) (v : option T) : outcome T :=
  match v with
  | Some x => Return x
  | None => Raise (UnboundLocalError var)
  end.

(** [range(lo, hi)]: the integers [lo, lo+1, ..., hi-1], none when [hi <= lo]. *)
Definition range (lo hi : Z) : list Z :=
  map (fun k => (lo + Z.of_nat k)%Z) (seq 0 (Z.to_nat (hi - lo))).

(** One pass of a loop body either falls through to the next pass with the
    local variables updated, or executes [return v]. *)
Inductive flow (S T : Type) : Type :=
| Next (s : S)
| Done (v : T).

Arguments Next {S T} s.
Arguments Done {S T} v.

(** [for i in idx: body] followed by the statements [after] the loop, inside a
    function whose local variables are [s]. *)
Fixpoint for_each {S T : Type} (idx : list Z) (body : Z -> S -> outcome (flow S T))
    (s : S) (after : S -> outcome T) : outcome T :=
  match idx with
  | [] => after s
  | i :: idx' =>
      r <- body i s ;;
      match r with
      | Done v => Return v
      | Next s' => for_each idx' body s' after
      end
  end.

(** The local variables after the passes for [idx], when every one of them
    fell through (no [return], no exception). *)
Fixpoint after_passes {S T : Type} (idx : list Z) (body : Z -> S -> outcome (flow S T))
    (s : S) : option S :=
  match idx with
  | [] => Some s
  | i :: idx' =>
      match body i s with
      | Return (Next s') => after_passes idx' body s'
      | _ => None
      end
  end.

(** ** The arithmetic the solvers use *)

Class Arith : Type := {
  num : Type;
  zero : num;                      (* the literal 0 *)
  half : num;                      (* the literal 0.5 *)
  two : num;                       (* the literal 2 *)
  add : num -> num -> num;
  sub : num -> num -> num;
  mul : num -> num -> num;
  quot : num -> num -> num;        (* x / y for a divisor that is not zero *)
  absn : num -> num;               (* abs(x) *)
  ltb : num -> num -> bool;        (* x < y *)
  eqb : num -> num -> bool         (* x == y *)
}.

Declare Scope py_scope.
Delimit Scope py_scope with py.
Notation "x + y" := (add x y) : py_scope.
Notation "x - y" := (sub x y) : py_scope.
Notation "x * y" := (mul x y) : py_scope.
Notation "x <? y" := (ltb x y) : py_scope.
Notation "x >? y" := (ltb y x) (only parsing) : py_scope.
Notation "x ==? y" := (eqb x y) (at level 70, no associativity) : py_scope.

(** Python's [x / y]: a zero divisor raises [ZeroDivisionError]. *)
Definition pdiv {A : Arith} (x y : num) : outcome num :=
  if eqb y zero then Raise (ZeroDivisionError None) else Return (quot x y).

Notation "x / y" := (pdiv x y) : py_scope.

(** ** app.py *)

Module App.
Section Solvers.
Context {A : Arith}.
Local Open Scope py_scope.

(** Rows of the trace, as the tuples app.py appends. *)
Definition bracket_row : Type := Z * num * num * num * num * option num.
Definition secant_row : Type := Z * num * num * num * num * num.
Definition newton_row : Type := Z * num * num * num * num * num.
Definition fixed_row : Type := Z * num * num * num.
Definition modsec_row : Type := Z * num * num * num * num.

(** What each solver returns: [(root, residual, iterations, rows)]. *)
Definition result (row : Type) : Type := num * num * Z * list row.

(** Local variables of [bisection] and [regula_falsi].  [v_c_old] is Python's
    [None] or a number; [v_c] is [None] while [c] is not assigned. *)
Record bracket_vars : Type := BracketVars {
  v_a : num;
  v_b : num;
  v_fa : num;
  v_fb : num;
  v_c_old : option num;
  v_c : option num;
  v_rows : list bracket_row
}.

Definition bisection_body (f : num -> num) (tol : num) (i : Z) (s : bracket_vars)
    : outcome (flow bracket_vars (result bracket_row)) :=
  let c := half * (v_a s + v_b s) in
  let fc := f c in
  let err := match v_c_old s with
             | Some c_old => Some (absn (c - c_old))
             | None => None
             end in
  let rows := v_rows s ++ [(i, v_a s, v_b s, c, fc, err)] in
  if (absn fc ==? zero)
     || match v_c_old s with
        | Some c_old => absn (c - c_old) <? tol
        | None => false
        end
     || (quot (absn (v_b s - v_a s)) two <? tol)
  then Return (Done (c, absn fc, i, rows))
  else if v_fa s * fc <? zero
       then Return (Next (BracketVars (v_a s) c (v_fa s) fc (Some c) (Some c) rows))
       else Return (Next (BracketVars c (v_b s) fc (v_fb s) (Some c) (Some c) rows)).

Definition bracket_after (f : num -> num) (max_iter : Z) (s : bracket_vars)
    : outcome (result bracket_row) :=
  c <- local "c" (v_c s) ;;
  Return (c, absn (f c), max_iter, v_rows s).

Definition bisection (f : num -> num) (a b : num) (max_iter : Z) (tol : num)
    : outcome (result bracket_row) :=
  let fa := f a in
  let fb := f b in
  if fa * fb >? zero
  then Raise (ValueError "f(a) and f(b) must have opposite signs.")
  else for_each (range 1 (max_iter + 1)) (bisection_body f tol)
         (BracketVars a b fa fb None None []) (bracket_after f max_iter).

(** The division is the unguarded one of the source: it raises when
    [fb - fa] is zero. *)
Definition regula_falsi_body (f : num -> num) (tol : num) (i : Z) (s : bracket_vars)
    : outcome (flow bracket_vars (result bracket_row)) :=
  c <- (v_a s * v_fb s - v_b s * v_fa s) / (v_fb s - v_fa s) ;;
  let fc := f c in
  let err := match v_c_old s with
             | Some c_old => Some (absn (c - c_old))
             | None => None
             end in
  let rows := v_rows s ++ [(i, v_a s, v_b s, c, fc, err)] in
  if (absn fc ==? zero)
     || match v_c_old s with
        | Some c_old => absn (c - c_old) <? tol
        | None => false
        end
  then Return (Done (c, absn fc, i, rows))
  else if v_fa s * fc <? zero
       then Return (Next (BracketVars (v_a s) c (v_fa s) fc (Some c) (Some c) rows))
       else Return (Next (BracketVars c (v_b s) fc (v_fb s) (Some c) (Some c) rows)).

Definition regula_falsi (f : num -> num) (a b : num) (max_iter : Z) (tol : num)
    : outcome (result bracket_row) :=
  let fa := f a in
  let fb := f b in
  if fa * fb >? zero
  then Raise (ValueError "f(a) and f(b) must have opposite signs.")
  else for_each (range 1 (max_iter + 1)) (regula_falsi_body f tol)
         (BracketVars a b fa fb None None []) (bracket_after f max_iter).

(** Local variables of [secant]; [s_x2] is [None] until a pass assigns [x2]. *)
Record secant_vars : Type := SecantVars {
  s_x0 : num;
  s_x1 : num;
  s_x2 : option num;
  s_rows : list secant_row
}.

Definition secant_body (f : num -> num) (tol : num) (i : Z) (s : secant_vars)
    : outcome (flow secant_vars (result secant_row)) :=
  let f0 := f (s_x0 s) in
  let f1 := f (s_x1 s) in
  if (f1 - f0) ==? zero
  then Raise (ValueError "Zero denominator in Secant.")
  else
    q <- (f1 * (s_x1 s - s_x0 s)) / (f1 - f0) ;;
    let x2 := s_x1 s - q in
    let f2 := f x2 in
    let err := absn (x2 - s_x1 s) in
    let rows := s_rows s ++ [(i, s_x0 s, s_x1 s, x2, f2, err)] in
    if (absn f2 ==? zero) || (err <? tol)
    then Return (Done (x2, absn f2, i, rows))
    else Return (Next (SecantVars (s_x1 s) x2 (Some x2) rows)).

Definition secant_after (f : num -> num) (max_iter : Z) (s : secant_vars)
    : outcome (result secant_row) :=
  x2 <- local "x2" (s_x2 s) ;;
  Return (x2, absn (f x2), max_iter, s_rows s).

Definition secant (f : num -> num) (x0 x1 : num) (max_iter : Z) (tol : num)
    : outcome (result secant_row) :=
  for_each (range 1 (max_iter + 1)) (secant_body f tol)
    (SecantVars x0 x1 None []) (secant_after f max_iter).

(** Local variables of [newton_raphson]. *)
Record newton_vars : Type := NewtonVars {
  n_x0 : num;
  n_x1 : option num;
  n_rows : list newton_row
}.

Definition newton_raphson_body (f df : num -> num) (tol : num) (i : Z)
    (s : newton_vars) : outcome (flow newton_vars (result newton_row)) :=
  let fx := f (n_x0 s) in
  let dfx := df (n_x0 s) in
  if dfx ==? zero
  then Raise (ValueError "Derivative zero in Newton-Raphson.")
  else
    q <- fx / dfx ;;
    let x1 := n_x0 s - q in
    let err := absn (x1 - n_x0 s) in
    let rows := n_rows s ++ [(i, n_x0 s, fx, dfx, x1, err)] in
    if (absn fx ==? zero) || (err <? tol)
    then Return (Done (x1, absn (f x1), i, rows))
    else Return (Next (NewtonVars x1 (Some x1) rows)).

Definition newton_raphson_after (f : num -> num) (max_iter : Z) (s : newton_vars)
    : outcome (result newton_row) :=
  x1 <- local "x1" (n_x1 s) ;;
  Return (x1, absn (f x1), max_iter, n_rows s).

Definition newton_raphson (f df : num -> num) (x0 : num) (max_iter : Z) (tol : num)
    : outcome (result newton_row) :=
  for_each (range 1 (max_iter + 1)) (newton_raphson_body f df tol)
    (NewtonVars x0 None []) (newton_raphson_after f max_iter).

(** Local variables of [fixed_point_iteration]; [x1] and [err] are assigned
    together by a pass, and both are read after the loop. *)
Record fixed_vars : Type := FixedVars {
  p_x0 : num;
  p_x1 : option num;
  p_err : option num;
  p_rows : list fixed_row
}.

Definition fixed_point_iteration_body (g_func : num -> num) (tol : num) (i : Z)
    (s : fixed_vars) : outcome (flow fixed_vars (result fixed_row)) :=
  let x1 := g_func (p_x0 s) in
  let err := absn (x1 - p_x0 s) in
  let rows := p_rows s ++ [(i, p_x0 s, x1, err)] in
  if err <? tol
  then Return (Done (x1, err, i, rows))
  else Return (Next (FixedVars x1 (Some x1) (Some err) rows)).

Definition fixed_point_iteration_after (max_iter : Z) (s : fixed_vars)
    : outcome (result fixed_row) :=
  x1 <- local "x1" (p_x1 s) ;;
  err <- local "err" (p_err s) ;;
  Return (x1, err, max_iter, p_rows s).

Definition fixed_point_iteration (g_func : num -> num) (x0 : num) (max_iter : Z)
    (tol : num) : outcome (result fixed_row) :=
  for_each (range 1 (max_iter + 1)) (fixed_point_iteration_body g_func tol)
    (FixedVars x0 None None []) (fixed_point_iteration_after max_iter).

(** Local variables of [modified_secant]. *)
Record modsec_vars : Type := ModsecVars {
  m_x0 : num;
  m_x1 : option num;
  m_rows : list modsec_row
}.

Definition modified_secant_body (f : num -> num) (delta tol : num) (i : Z)
    (s : modsec_vars) : outcome (flow modsec_vars (result modsec_row)) :=
  let fx := f (m_x0 s) in
  let denom := f (m_x0 s + delta * m_x0 s) - fx in
  if denom ==? zero
  then Raise (ValueError "Denominator zero in Modified Secant.")
  else
    q <- (delta * m_x0 s * fx) / denom ;;
    let x1 := m_x0 s - q in
    let err := absn (x1 - m_x0 s) in
    let rows := m_rows s ++ [(i, m_x0 s, fx, x1, err)] in
    if err <? tol
    then Return (Done (x1, absn (f x1), i, rows))
    else Return (Next (ModsecVars x1 (Some x1) rows)).

Definition modified_secant_after (f : num -> num) (max_iter : Z) (s : modsec_vars)
    : outcome (result modsec_row) :=
  x1 <- local "x1" (m_x1 s) ;;
  Return (x1, absn (f x1), max_iter, m_rows s).

Definition modified_secant (f : num -> num) (x0 delta : num) (max_iter : Z)
    (tol : num) : outcome (result modsec_row) :=
  for_each (range 1 (max_iter + 1)) (modified_secant_body f delta tol)
    (ModsecVars x0 None []) (modified_secant_after f max_iter).

(** The column of a row that holds the new estimate: [c], [x2], [x1]. *)
Definition bracket_candidate (r : bracket_row) : num :=
  let '(_, _, _, c, _, _) := r in c.
Definition secant_candidate (r : secant_row) : num :=
  let '(_, _, _, x2, _, _) := r in x2.
Definition newton_candidate (r : newton_row) : num :=
  let '(_, _, _, _, x1, _) := r in x1.
Definition fixed_candidate (r : fixed_row) : num :=
  let '(_, _, x1, _) := r in x1.
Definition modsec_candidate (r : modsec_row) : num :=
  let '(_, _, _, x1, _) := r in x1.

End Solvers.
End App.

(** ** ZOF_CLI.py

    The same six functions; each prints its row instead of keeping it, and
    returns [(root, residual, iterations)].  Printing is left out: it does not
    change what is returned or raised. *)

Module CLI.
Section Solvers.
Context {A : Arith}.
Local Open Scope py_scope.

Definition result : Type := num * num * Z.

Record bracket_vars : Type := BracketVars {
  v_a : num;
  v_b : num;
  v_fa : num;
  v_fb : num;
  v_c_old : option num;
  v_c : option num
}.

Definition bisection_body (f : num -> num) (tol : num) (i : Z) (s : bracket_vars)
    : outcome (flow bracket_vars result) :=
  let c := half * (v_a s + v_b s) in
  let fc := f c in
  if (absn fc ==? zero)
     || match v_c_old s with
        | Some c_old => absn (c - c_old) <? tol
        | None => false
        end
     || (quot (absn (v_b s - v_a s)) two <? tol)
  then Return (Done (c, absn fc, i))
  else if v_fa s * fc <? zero
       then Return (Next (BracketVars (v_a s) c (v_fa s) fc (Some c) (Some c)))
       else Return (Next (BracketVars c (v_b s) fc (v_fb s) (Some c) (Some c))).

Definition bracket_after (f : num -> num) (max_iter : Z) (s : bracket_vars)
    : outcome result :=
  c <- local "c" (v_c s) ;;
  Return (c, absn (f c), max_iter).

Definition bisection (f : num -> num) (a b : num) (max_iter : Z) (tol : num)
    : outcome result :=
  let fa := f a in
  let fb := f b in
  if fa * fb >? zero
  then Raise (ValueError "f(a) and f(b) must have opposite signs for Bisection.")
  else for_each (range 1 (max_iter + 1)) (bisection_body f tol)
         (BracketVars a b fa fb None None) (bracket_after f max_iter).

Definition regula_falsi_body (f : num -> num) (tol : num) (i : Z) (s : bracket_vars)
    : outcome (flow bracket_vars result) :=
  c <- (v_a s * v_fb s - v_b s * v_fa s) / (v_fb s - v_fa s) ;;
  let fc := f c in
  if (absn fc ==? zero)
     || match v_c_old s with
        | Some c_old => absn (c - c_old) <? tol
        | None => false
        end
  then Return (Done (c, absn fc, i))
  else if v_fa s * fc <? zero
       then Return (Next (BracketVars (v_a s) c (v_fa s) fc (Some c) (Some c)))
       else Return (Next (BracketVars c (v_b s) fc (v_fb s) (Some c) (Some c))).

(** Here, unlike in app.py, [c = a] is assigned before the loop. *)
Definition regula_falsi (f : num -> num) (a b : num) (max_iter : Z) (tol : num)
    : outcome result :=
  let fa := f a in
  let fb := f b in
  if fa * fb >? zero
  then Raise (ValueError "f(a) and f(b) must have opposite signs for Regula Falsi.")
  else for_each (range 1 (max_iter + 1)) (regula_falsi_body f tol)
         (BracketVars a b fa fb None (Some a)) (bracket_after f max_iter).

Record secant_vars : Type := SecantVars {
  s_x0 : num;
  s_x1 : num;
  s_x2 : option num
}.

Definition secant_body (f : num -> num) (tol : num) (i : Z) (s : secant_vars)
    : outcome (flow secant_vars result) :=
  let f0 := f (s_x0 s) in
  let f1 := f (s_x1 s) in
  if (f1 - f0) ==? zero
  then Raise (ZeroDivisionError (Some "Division by zero in Secant denominator."%string))
  else
    q <- (f1 * (s_x1 s - s_x0 s)) / (f1 - f0) ;;
    let x2 := s_x1 s - q in
    let f2 := f x2 in
    let err := absn (x2 - s_x1 s) in
    if (absn f2 ==? zero) || (err <? tol)
    then Return (Done (x2, absn f2, i))
    else Return (Next (SecantVars (s_x1 s) x2 (Some x2))).

Definition secant_after (f : num -> num) (max_iter : Z) (s : secant_vars)
    : outcome result :=
  x2 <- local "x2" (s_x2 s) ;;
  Return (x2, absn (f x2), max_iter).

Definition secant (f : num -> num) (x0 x1 : num) (max_iter : Z) (tol : num)
    : outcome result :=
  for_each (range 1 (max_iter + 1)) (secant_body f tol)
    (SecantVars x0 x1 None) (secant_after f max_iter).

Record newton_vars : Type := NewtonVars {
  n_x0 : num;
  n_x1 : option num
}.

Definition newton_raphson_body (f df : num -> num) (tol : num) (i : Z)
    (s : newton_vars) : outcome (flow newton_vars result) :=
  let fx := f (n_x0 s) in
  let dfx := df (n_x0 s) in
  if dfx ==? zero
  then Raise (ZeroDivisionError
                (Some "Zero derivative encountered in Newton-Raphson."%string))
  else
    q <- fx / dfx ;;
    let x1 := n_x0 s - q in
    let err := absn (x1 - n_x0 s) in
    if (absn fx ==? zero) || (err <? tol)
    then Return (Done (x1, absn (f x1), i))
    else Return (Next (NewtonVars x1 (Some x1))).

Definition newton_raphson_after (f : num -> num) (max_iter : Z) (s : newton_vars)
    : outcome result :=
  x1 <- local "x1" (n_x1 s) ;;
  Return (x1, absn (f x1), max_iter).

Definition newton_raphson (f df : num -> num) (x0 : num) (max_iter : Z) (tol : num)
    : outcome result :=
  for_each (range 1 (max_iter + 1)) (newton_raphson_body f df tol)
    (NewtonVars x0 None) (newton_raphson_after f max_iter).

Record fixed_vars : Type := FixedVars {
  p_x0 : num;
  p_x1 : option num;
  p_err : option num
}.

Definition fixed_point_iteration_body (g_func : num -> num) (tol : num) (i : Z)
    (s : fixed_vars) : outcome (flow fixed_vars result) :=
  let x1 := g_func (p_x0 s) in
  let err := absn (x1 - p_x0 s) in
  if err <? tol
  then Return (Done (x1, err, i))
  else Return (Next (FixedVars x1 (Some x1) (Some err))).

Definition fixed_point_iteration_after (max_iter : Z) (s : fixed_vars)
    : outcome result :=
  x1 <- local "x1" (p_x1 s) ;;
  err <- local "err" (p_err s) ;;
  Return (x1, err, max_iter).

Definition fixed_point_iteration (g_func : num -> num) (x0 : num) (max_iter : Z)
    (tol : num) : outcome result :=
  for_each (range 1 (max_iter + 1)) (fixed_point_iteration_body g_func tol)
    (FixedVars x0 None None) (fixed_point_iteration_after max_iter).

Record modsec_vars : Type := ModsecVars {
  m_x0 : num;
  m_x1 : option num
}.

(** No test of the denominator here: the division itself raises. *)
Definition modified_secant_body (f : num -> num) (delta tol : num) (i : Z)
    (s : modsec_vars) : outcome (flow modsec_vars result) :=
  let f_x0 := f (m_x0 s) in
  q <- (delta * m_x0 s * f_x0) / (f (m_x0 s + delta * m_x0 s) - f_x0) ;;
  let x1 := m_x0 s - q in
  let err := absn (x1 - m_x0 s) in
  if err <? tol
  then Return (Done (x1, absn (f x1), i))
  else Return (Next (ModsecVars x1 (Some x1))).

Definition modified_secant_after (f : num -> num) (max_iter : Z) (s : modsec_vars)
    : outcome result :=
  x1 <- local "x1" (m_x1 s) ;;
  Return (x1, absn (f x1), max_iter).

Definition modified_secant (f : num -> num) (x0 delta : num) (max_iter : Z)
    (tol : num) : outcome result :=
  for_each (range 1 (max_iter + 1)) (modified_secant_body f delta tol)
    (ModsecVars x0 None) (modified_secant_after f max_iter).

End Solvers.
End CLI.

(** ** ZOF_CLI.py: the prompts and [main]

    What is printed is left out here as well; the model keeps the lines that
    are read from the terminal and the way the run ends.  Python's [float],
    [int] and [str.strip] and the calls to sympy are parameters; in the
    parameters for sympy [inl msg] stands for an exception with text [msg].
    The evaluators sympy builds are taken to be total functions, as they are
    everywhere in this development. *)

Module Console.
Section Main.
Context {A : Arith}.
Local Open Scope string_scope.

Variable float_of : string -> option num.        (* float(text); None: it raised *)
Variable int_of : string -> option Z.            (* int(text); None: it raised *)
Variable strip : string -> string.               (* text.strip() *)
(** [sympify] and [lambdify] of an expression and of its derivative, and of
    an expression alone. *)
Variable lambdify_with_derivative :
  string -> string + (num -> num) * (num -> num).
Variable lambdify : string -> string + (num -> num).

(** What the [try] around the solvers catches: an exception of a solver, or
    the [EOFError] of [input]. *)
Inductive caught : Type :=
| FromSolver (e : exn)
| EOFError.

(** How a run of [main] ends. *)
Inductive ending : Type :=
| Result (root final_err : num) (iters : Z)  (* the RESULT block, then return *)
| InvalidFunction (e : exn)                  (* print(e); sys.exit(1) *)
| InvalidG (msg : string)                    (* "Invalid g(x): ..."; sys.exit(1) *)
| InvalidChoice                              (* "Invalid method choice."; sys.exit(1) *)
| ComputationError (e : caught)              (* "Error during computation: ..."; sys.exit(1) *)
| Uncaught                                   (* the EOFError of input leaves main *)
| Asking.                                    (* still prompting when the fuel ran out *)

(** A statement that reads the terminal either goes on with a value or ends
    the run; both leave the lines not read yet. *)
Inductive step (T : Type) : Type :=
| Got (v : T) (rest : list string)
| End (e : ending) (rest : list string).

Arguments Got {T} v rest.
Arguments End {T} e rest.

Definition reads (T : Type) : Type := list string -> step T.

Definition and_then {T U : Type} (c : reads T) (k : T -> reads U) : reads U :=
  fun stdin =>
    match c stdin with
    | Got v rest => k v rest
    | End e rest => End e rest
    end.

(** [input(prompt)]: the next line, or [None] for the [EOFError] at the end
    of the input. *)
Definition input (stdin : list string) : option string * list string :=
  match stdin with
  | [] => (None, [])
  | text :: rest => (Some text, rest)
  end.

Definition get_function_from_string (expr_str : string)
    : outcome ((num -> num) * (num -> num)) :=
  match lambdify_with_derivative expr_str with
  | inr fs => Return fs
  | inl msg => Raise (ValueError ("Invalid function expression: " ++ msg))
  end.

(** [while True: try: return float(input(prompt)) except Exception: print(...)]:
    every exception, the [EOFError] of [input] included, leads to another
    round.  [fuel] bounds the rounds. *)
Fixpoint safe_float (fuel : nat) : reads num :=
  fun stdin =>
    match fuel with
    | O => End Asking stdin
    | S fuel' =>
        match input stdin with
        | (Some text, rest) =>
            match float_of text with
            | Some v => Got v rest
            | None => safe_float fuel' rest
            end
        | (None, rest) => safe_float fuel' rest
        end
    end.

Fixpoint safe_int (fuel : nat) : reads Z :=
  fun stdin =>
    match fuel with
    | O => End Asking stdin
    | S fuel' =>
        match input stdin with
        | (Some text, rest) =>
            match int_of text with
            | Some v => Got v rest
            | None => safe_int fuel' rest
            end
        | (None, rest) => safe_int fuel' rest
        end
    end.

(** The end of [main] after a solver call inside the [try]: the RESULT
    block, or the message of [except Exception]. *)
Definition report (o : outcome CLI.result) : reads Empty_set :=
  fun stdin =>
    match o with
    | Return (root, final_err, iters) => End (Result root final_err iters) stdin
    | Raise e => End (ComputationError (FromSolver e)) stdin
    end.

(** [main] ends the run in every case: it hands no value on.  The method
    number is compared only after max_iter and tol have been read. *)
Definition main (fuel : nat) : reads Empty_set :=
  fun stdin =>
    match input stdin with
    | (None, rest) => End Uncaught rest
    | (Some line, rest) =>
        match get_function_from_string (strip line) with
        | Raise e => End (InvalidFunction e) rest
        | Return (f, df) =>
            and_then (safe_int fuel) (fun choice =>
            and_then (safe_int fuel) (fun max_iter =>
            and_then (safe_float fuel) (fun tol =>
              if (choice =? 1)%Z then
                and_then (safe_float fuel) (fun a =>
                and_then (safe_float fuel) (fun b =>
                  report (CLI.bisection f a b max_iter tol)))
              else if (choice =? 2)%Z then
                and_then (safe_float fuel) (fun a =>
                and_then (safe_float fuel) (fun b =>
                  report (CLI.regula_falsi f a b max_iter tol)))
              else if (choice =? 3)%Z then
                and_then (safe_float fuel) (fun x0 =>
                and_then (safe_float fuel) (fun x1 =>
                  report (CLI.secant f x0 x1 max_iter tol)))
              else if (choice =? 4)%Z then
                and_then (safe_float fuel) (fun x0 =>
                  report (CLI.newton_raphson f df x0 max_iter tol))
              else if (choice =? 5)%Z then
                fun stdin5 =>
                  match input stdin5 with
                  | (None, rest5) => End (ComputationError EOFError) rest5
                  | (Some g_line, rest5) =>
                      match lambdify (strip g_line) with
                      | inl msg => End (InvalidG msg) rest5
                      | inr g_func =>
                          and_then (safe_float fuel) (fun x0 =>
                            report (CLI.fixed_point_iteration g_func x0 max_iter tol))
                            rest5
                      end
                  end
              else if (choice =? 6)%Z then
                and_then (safe_float fuel) (fun x0 =>
                and_then (safe_float fuel) (fun delta =>
                  report (CLI.modified_secant f x0 delta max_iter tol)))
              else End InvalidChoice))) rest
        end
    end.

End Main.

Arguments Got {A T} v rest.
Arguments End {A T} e rest.

End Console.

(** ** app.py: the request handler [index]

    The form of a request is what [request.form.get] answers: the text of a
    field, or [None] for a field that was not sent.  Python's [float], [int],
    [str.strip] and [str] of an exception and the calls to sympy are
    parameters, as for ZOF_CLI.py. *)

Module Web.

(** The exceptions that can occur in [index]. *)
Inductive failure : Type :=
| SolverError (e : exn)                (* raised by a solver *)
| TypeError (fn : string)              (* float(None), int(None) *)
| AttributeError (attr : string)       (* None.strip() *)
| NotANumber (fn text : string)        (* the ValueError of float(text), int(text) *)
| SympyError (msg : string).           (* raised by sympify, diff or lambdify *)

(** A call either gives a value or fails. *)
Inductive tried (T : Type) : Type :=
| Ok (v : T)
| Failed (e : failure).

Arguments Ok {T} v.
Arguments Failed {T} e.

Definition and_then {T U : Type} (c : tried T) (k : T -> tried U) : tried U :=
  match c with
  | Ok v => k v
  | Failed e => Failed e
  end.

Definition solved {T : Type} (o : outcome T) : tried T :=
  match o with
  | Return v => Ok v
  | Raise e => Failed (SolverError e)
  end.

Record request : Type := Request {
  req_method : string;                   (* request.method *)
  req_form : string -> option string     (* request.form.get *)
}.

Section Handler.
Context {A : Arith}.
Local Open Scope string_scope.

Variable float_of : string -> option num.        (* float(text) *)
Variable int_of : string -> option Z.            (* int(text) *)
Variable strip : string -> string.               (* text.strip() *)
Variable str : failure -> string.                (* str(e) *)
Variable lambdify_with_derivative :
  string -> string + (num -> num) * (num -> num).
Variable lambdify : string -> string + (num -> num).

(** A field of a row: the pass number, a float, or [None]. *)
Inductive pyval : Type :=
| PyInt (i : Z)
| PyFloat (x : num)
| PyNone.

Definition py_optional (v : option num) : pyval :=
  match v with
  | Some x => PyFloat x
  | None => PyNone
  end.

(** The tuples of the six traces, field by field. *)
Definition bracket_fields (r : App.bracket_row) : list pyval :=
  let '(i, a, b, c, fc, err) := r in
  [PyInt i; PyFloat a; PyFloat b; PyFloat c; PyFloat fc; py_optional err].
Definition secant_fields (r : App.secant_row) : list pyval :=
  let '(i, x0, x1, x2, f2, err) := r in
  [PyInt i; PyFloat x0; PyFloat x1; PyFloat x2; PyFloat f2; PyFloat err].
Definition newton_fields (r : App.newton_row) : list pyval :=
  let '(i, x0, fx, dfx, x1, err) := r in
  [PyInt i; PyFloat x0; PyFloat fx; PyFloat dfx; PyFloat x1; PyFloat err].
Definition fixed_fields (r : App.fixed_row) : list pyval :=
  let '(i, x0, x1, err) := r in
  [PyInt i; PyFloat x0; PyFloat x1; PyFloat err].
Definition modsec_fields (r : App.modsec_row) : list pyval :=
  let '(i, x0, fx, x1, err) := r in
  [PyInt i; PyFloat x0; PyFloat fx; PyFloat x1; PyFloat err].

(** The dictionary [result] handed to the template. *)
Record result_dict : Type := ResultDict {
  r_method : string;
  r_root : num;
  r_final_err : num;
  r_iters : Z;
  r_rows : list (list pyval);
  r_headers : list string
}.

(** [render_template('index.html', result=..., error=...)].  The early
    return for an invalid function passes no result at all: the template
    then sees none, as with [None]. *)
Record page : Type := Page {
  p_result : option result_dict;
  p_error : option string
}.

(** No [try] here, unlike in ZOF_CLI.py: the caller catches. *)
Definition get_function_from_string (expr_str : string)
    : tried ((num -> num) * (num -> num)) :=
  match lambdify_with_derivative expr_str with
  | inr fs => Ok fs
  | inl msg => Failed (SympyError msg)
  end.

(** [float(request.form.get(name))] and [int(request.form.get(name))]. *)
Definition float_field (form : string -> option string) (name : string)
    : tried num :=
  match form name with
  | None => Failed (TypeError "float")
  | Some text =>
      match float_of text with
      | Some x => Ok x
      | None => Failed (NotANumber "float" text)
      end
  end.

Definition int_field (form : string -> option string) (name : string)
    : tried Z :=
  match form name with
  | None => Failed (TypeError "int")
  | Some text =>
      match int_of text with
      | Some n => Ok n
      | None => Failed (NotANumber "int" text)
      end
  end.

(** [request.form.get(name).strip()]. *)
Definition stripped_field (form : string -> option string) (name : string)
    : tried string :=
  match form name with
  | None => Failed (AttributeError "strip")
  | Some text => Ok (strip text)
  end.

(** [method == name], for a method that may be [None]. *)
Definition is_method (method : option string) (name : string) : bool :=
  match method with
  | Some m => String.eqb m name
  | None => false
  end.

Definition packed {row : Type} (label : string) (headers : list string)
    (fields : row -> list pyval) (v : App.result row) : option result_dict :=
  let '(root, final_err, iters, rows) := v in
  Some (ResultDict label root final_err iters (map fields rows) headers).

(** The body of the second [try]: the branch of the chosen method, or no
    result at all for any other method. *)
Definition compute (method : option string) (form : string -> option string)
    (f df : num -> num) (max_iter : Z) (tol : num) : tried (option result_dict) :=
  if is_method method "bisection" then
    and_then (float_field form "a") (fun a =>
    and_then (float_field form "b") (fun b =>
    and_then (solved (App.bisection f a b max_iter tol)) (fun v =>
      Ok (packed "Bisection" ["Iter"; "a"; "b"; "c"; "f(c)"; "Error"]
            bracket_fields v))))
  else if is_method method "regula" then
    and_then (float_field form "a") (fun a =>
    and_then (float_field form "b") (fun b =>
    and_then (solved (App.regula_falsi f a b max_iter tol)) (fun v =>
      Ok (packed "Regula Falsi" ["Iter"; "a"; "b"; "c"; "f(c)"; "Error"]
            bracket_fields v))))
  else if is_method method "secant" then
    and_then (float_field form "x0") (fun x0 =>
    and_then (float_field form "x1") (fun x1 =>
    and_then (solved (App.secant f x0 x1 max_iter tol)) (fun v =>
      Ok (packed "Secant" ["Iter"; "x0"; "x1"; "x2"; "f(x2)"; "Error"]
            secant_fields v))))
  else if is_method method "newton" then
    and_then (float_field form "x0") (fun x0 =>
    and_then (solved (App.newton_raphson f df x0 max_iter tol)) (fun v =>
      Ok (packed "Newton-Raphson" ["Iter"; "x"; "f(x)"; "f'(x)"; "x_new"; "Error"]
            newton_fields v)))
  else if is_method method "fixed" then
    and_then (stripped_field form "gfunc") (fun g_expr =>
    and_then (match lambdify g_expr with
              | inr g => Ok g
              | inl msg => Failed (SympyError msg)
              end) (fun g_func =>
    and_then (float_field form "x0") (fun x0 =>
    and_then (solved (App.fixed_point_iteration g_func x0 max_iter tol)) (fun v =>
      Ok (packed "Fixed Point" ["Iter"; "x_old"; "x_new"; "Error"]
            fixed_fields v)))))
  else if is_method method "modified_secant" then
    and_then (float_field form "x0") (fun x0 =>
    and_then (float_field form "delta") (fun delta =>
    and_then (solved (App.modified_secant f x0 delta max_iter tol)) (fun v =>
      Ok (packed "Modified Secant" ["Iter"; "x"; "f(x)"; "x_new"; "Error"]
            modsec_fields v))))
  else Ok None.

(** [index]: [Failed] is an exception that leaves the handler. *)
Definition index (req : request) : tried page :=
  if String.eqb (req_method req) "POST" then
    let form := req_form req in
    let method := form "method" in
    and_then (stripped_field form "func") (fun func_expr =>
    and_then (int_field form "max_iter") (fun max_iter =>
    and_then (float_field form "tol") (fun tol =>
      match get_function_from_string func_expr with
      | Failed e => Ok (Page None (Some ("Invalid function: " ++ str e)))
      | Ok (f, df) =>
          match compute method form f df max_iter tol with
          | Ok result => Ok (Page result None)
          | Failed e => Ok (Page None (Some ("Error during computation: " ++ str e)))
          end
      end)))
  else Ok (Page None None).

End Handler.
End Web.

(** ** The two arithmetics *)

(** Python's [float]: IEEE 754 binary64, round to nearest even.  The fields
    are, in order: 0, 0.5, 2, +, -, *, /, abs, <, ==. *)
Definition IEEE : Arith :=
  Build_Arith 0%float 0.5%float 2%float
    PrimFloat.add PrimFloat.sub PrimFloat.mul PrimFloat.div
    PrimFloat.abs PrimFloat.ltb PrimFloat.eqb.

(** Comparisons of real numbers as booleans. *)
Definition Rltb (x y : R) : bool := if Rlt_dec x y then true else false.
Definition Reqb (x y : R) : bool := if Req_dec_T x y then true else false.

(** The real numbers of the specification: no rounding, no overflow. *)
Definition Exact : Arith := {|
  num := R;
  zero := 0%R;
  half := (1 / 2)%R;
  two := 2%R;
  add := Rplus;
  sub := Rminus;
  mul := Rmult;
  quot := Rdiv;
  absn := Rabs;
  ltb := Rltb;
  eqb := Reqb
|}.

(** ** Vocabulary of the statements *)

(** [abs(x) == 0] and [x == 0] are the same test. *)
Class AbsZero (A : Arith) : Prop :=
  absn_eqb_zero : forall x : num, eqb (absn x) zero = eqb x zero.

(** A returned trace agrees with the returned numbers: it has [iterations]
    rows and the estimate stored in its final row is the returned root. *)
Definition trace_agrees {A : Arith} {row : Type} (cand : row -> num)
    (o : outcome (App.result row)) : Prop :=
  match o with
  | Return (root, _, iters, rows) =>
      Z.of_nat (List.length rows) = iters /\
      exists earlier final, rows = earlier ++ [final] /\ cand final = root
  | Raise _ => True
  end.

(** app.py and ZOF_CLI.py end alike: both raise, or both return the same
    root, residual and iteration count. *)
Definition same_result {A : Arith} {row : Type} (o1 : outcome (App.result row))
    (o2 : outcome CLI.result) : Prop :=
  match o1, o2 with
  | Return (root1, res1, iters1, _), Return (root2, res2, iters2) =>
      root1 = root2 /\ res1 = res2 /\ iters1 = iters2
  | Raise _, Raise _ => True
  | _, _ => False
  end.

Section Vocabulary.
Context {A : Arith}.

(** The local variables of the two files hold the same values: [_before]
    on entry to a pass, [_related] after a pass that fell through. *)
Definition bracket_before (s1 : App.bracket_vars) (s2 : CLI.bracket_vars) : Prop :=
  App.v_a s1 = CLI.v_a s2 /\ App.v_b s1 = CLI.v_b s2 /\
  App.v_fa s1 = CLI.v_fa s2 /\ App.v_fb s1 = CLI.v_fb s2 /\
  App.v_c_old s1 = CLI.v_c_old s2.

Definition bracket_related (s1 : App.bracket_vars) (s2 : CLI.bracket_vars) : Prop :=
  bracket_before s1 s2 /\ App.v_c s1 = CLI.v_c s2.

Definition secant_related (s1 : App.secant_vars) (s2 : CLI.secant_vars) : Prop :=
  App.s_x0 s1 = CLI.s_x0 s2 /\ App.s_x1 s1 = CLI.s_x1 s2 /\
  App.s_x2 s1 = CLI.s_x2 s2.

Definition newton_related (s1 : App.newton_vars) (s2 : CLI.newton_vars) : Prop :=
  App.n_x0 s1 = CLI.n_x0 s2 /\ App.n_x1 s1 = CLI.n_x1 s2.

Definition fixed_related (s1 : App.fixed_vars) (s2 : CLI.fixed_vars) : Prop :=
  App.p_x0 s1 = CLI.p_x0 s2 /\ App.p_x1 s1 = CLI.p_x1 s2 /\
  App.p_err s1 = CLI.p_err s2.

Definition modsec_related (s1 : App.modsec_vars) (s2 : CLI.modsec_vars) : Prop :=
  App.m_x0 s1 = CLI.m_x0 s2 /\ App.m_x1 s1 = CLI.m_x1 s2.

(** Invariant of a loop that appends one row in each pass: [idx] are the
    passes still to run, [var] the variable the function returns. *)
Definition trace_inv {S row : Type} (rows_of : S -> list row)
    (var : S -> option num) (cand : row -> num) (max_iter : Z)
    (idx : list Z) (s : S) : Prop :=
  idx = range (Z.of_nat (List.length (rows_of s)) + 1) (max_iter + 1) /\
  ((rows_of s = [] /\ var s = None) \/
   ((Z.of_nat (List.length (rows_of s)) <= max_iter)%Z /\
    exists earlier final,
      rows_of s = earlier ++ [final] /\ var s = Some (cand final))).

(** Invariant of the same loop for the numbering of the rows. *)
Definition numbering_inv {S row : Type} (rows_of : S -> list row)
    (var : S -> option num) (index : row -> Z) (max_iter : Z)
    (idx : list Z) (s : S) : Prop :=
  idx = range (Z.of_nat (List.length (rows_of s)) + 1) (max_iter + 1) /\
  map index (rows_of s) = range 1 (Z.of_nat (List.length (rows_of s)) + 1) /\
  ((rows_of s = [] /\ var s = None) \/
   (Z.of_nat (List.length (rows_of s)) <= max_iter)%Z).

(** The step error recorded in a row of [fixed_point_iteration]. *)
Definition fixed_err (r : App.fixed_row) : num :=
  let '(_, _, _, err) := r in err.

(** What a returned run of [fixed_point_iteration] looks like. *)
Definition fixed_point_outcome (g : num -> num) (tol : num) (max_iter : Z)
    (o : outcome (App.result App.fixed_row)) : Prop :=
  match o with
  | Return (root, res, iters, rows) =>
      exists earlier x_prev,
        rows = earlier ++ [(iters, x_prev, root, res)] /\
        root = g x_prev /\
        res = absn (sub root x_prev) /\
        (ltb res tol = true \/ iters = max_iter) /\
        Forall (fun r => ltb (fixed_err r) tol = false) earlier
  | Raise _ => True
  end.

Definition fixed_point_outcome_cli (g : num -> num) (tol : num) (max_iter : Z)
    (o : outcome CLI.result) : Prop :=
  match o with
  | Return (root, res, iters) =>
      exists x_prev,
        root = g x_prev /\
        res = absn (sub root x_prev) /\
        (ltb res tol = true \/ iters = max_iter)
  | Raise _ => True
  end.

(** Invariant of the loop of [fixed_point_iteration]. *)
Definition fixed_point_inv (g : num -> num) (tol : num) (max_iter : Z)
    (idx : list Z) (s : App.fixed_vars) : Prop :=
  idx = range (Z.of_nat (List.length (App.p_rows s)) + 1) (max_iter + 1) /\
  Forall (fun r => ltb (fixed_err r) tol = false) (App.p_rows s) /\
  ((App.p_rows s = [] /\ App.p_x1 s = None) \/
   exists earlier x_prev x1 err,
     App.p_rows s =
       earlier ++ [(Z.of_nat (List.length (App.p_rows s)), x_prev, x1, err)] /\
     App.p_x1 s = Some x1 /\ App.p_err s = Some err /\
     x1 = g x_prev /\ err = absn (sub x1 x_prev) /\
     (Z.of_nat (List.length (App.p_rows s)) <= max_iter)%Z).

(** The rules in the words of the specification; [prev] is the candidate of
    the pass before, [None] on the first pass. *)
Definition bisection_stop_rule (tol fc c : num) (prev : option num) (a b : num)
    : bool :=
  eqb fc zero
  || match prev with
     | Some p => ltb (absn (sub c p)) tol
     | None => false
     end
  || ltb (quot (absn (sub b a)) two) tol.

Definition regula_falsi_stop_rule (tol fc c : num) (prev : option num) : bool :=
  eqb fc zero
  || match prev with
     | Some p => ltb (absn (sub c p)) tol
     | None => false
     end.

Definition bisection_candidate (s : App.bracket_vars) : num :=
  mul half (add (App.v_a s) (App.v_b s)).

Definition regula_falsi_candidate (s : App.bracket_vars) : num :=
  quot (sub (mul (App.v_a s) (App.v_fb s)) (mul (App.v_b s) (App.v_fa s)))
       (sub (App.v_fb s) (App.v_fa s)).

Definition bracket_new_row (i : Z) (s : App.bracket_vars) (c fc : num)
    : App.bracket_row :=
  (i, App.v_a s, App.v_b s, c, fc,
   match App.v_c_old s with
   | Some c_old => Some (absn (sub c c_old))
   | None => None
   end).

End Vocabulary.

(** A call that returns reports more than [pass] iterations, or [max_iter]:
    it did not return in pass [pass], unless that was the last pass. *)
Definition returns_later {A : Arith} {row : Type} (pass max_iter : Z)
    (o : outcome (App.result row)) : Prop :=
  match o with
  | Return (_, _, iters, _) => (pass < iters)%Z \/ iters = max_iter
  | Raise _ => True
  end.

Section ExactVocabulary.
Local Open Scope R_scope.

(** The returned root, when there is one, lies in [lo, hi]. *)
Definition root_within (lo hi : R)
    (o : outcome (App.result (A := Exact) (App.bracket_row (A := Exact)))) : Prop :=
  match o with
  | Return (root, _, _, _) => lo <= root <= hi
  | Raise _ => True
  end.

(** Endpoints and candidate of a bracket lie in [lo, hi]. *)
Definition in_range (lo hi : R) (s : App.bracket_vars (A := Exact)) : Prop :=
  lo <= App.v_a s <= hi /\ lo <= App.v_b s <= hi /\
  (forall c, App.v_c s = Some c -> lo <= c <= hi).

(** The stored function values are those of the endpoints and differ in sign. *)
Definition sign_change (f : R -> R) (s : App.bracket_vars (A := Exact)) : Prop :=
  App.v_fa s = f (App.v_a s) /\ App.v_fb s = f (App.v_b s) /\
  App.v_fa s * App.v_fb s <= 0.

End ExactVocabulary.

(** Evaluators of the binary64 runs below. *)
Definition cubic (x : float) : float := (x * x * x - 2 * x - 5)%float.
Definition cubic' (x : float) : float := (3 * x * x - 2)%float.
Definition halve (x : float) : float := (0.5 * x)%float.
Definition scaled_line (x : float) : float := (x * 0x1p-1000 - 0x1.2p23)%float.
Definition square (x : float) : float := (x * x)%float.
Definition square_minus_two (x : float) : float := (x * x - 2)%float.
Definition two_roots (x : float) : float := (x * x - 5 * x + 6)%float.

(** The binary64 numbers nearest to 1e-6, 1e-9 and 1e-4: what Python's
    [float] makes of these texts. *)
Definition tol_1e6 : float := 0x1.0c6f7a0b5ed8dp-20%float.
Definition tol_1e9 : float := 0x1.12e0be826d695p-30%float.
Definition bound_1e4 : float := 0x1.a36e2eb1c432dp-14%float.

(** The first component of a row: the pass that wrote it. *)
Definition row6_index {T U V W X : Type} (r : Z * T * U * V * W * X) : Z :=
  let '(i, _, _, _, _, _) := r in i.
Definition row5_index {T U V W : Type} (r : Z * T * U * V * W) : Z :=
  let '(i, _, _, _, _) := r in i.
Definition row4_index {T U V : Type} (r : Z * T * U * V) : Z :=
  let '(i, _, _, _) := r in i.

(** The rows of a returned trace are numbered 1, 2, ..., iterations. *)
Definition trace_numbered {A : Arith} {row : Type} (index : row -> Z)
    (o : outcome (App.result row)) : Prop :=
  match o with
  | Return (_, _, iters, rows) => map index rows = range 1 (iters + 1)
  | Raise _ => True
  end.

(** ** Vocabulary: why a run ended *)

Section StopVocabulary.
Context {A : Arith}.

(** The stopping test of a pass, read off the row the pass appended. *)
Definition bisection_row_stops (tol : num) (r : App.bracket_row) : bool :=
  let '(_, a, b, _, fc, err) := r in
  eqb (absn fc) zero
  || match err with
     | Some e => ltb e tol
     | None => false
     end
  || ltb (quot (absn (sub b a)) two) tol.

Definition regula_falsi_row_stops (tol : num) (r : App.bracket_row) : bool :=
  let '(_, _, _, _, fc, err) := r in
  eqb (absn fc) zero
  || match err with
     | Some e => ltb e tol
     | None => false
     end.

Definition secant_row_stops (tol : num) (r : App.secant_row) : bool :=
  let '(_, _, _, _, f2, err) := r in eqb (absn f2) zero || ltb err tol.

Definition newton_row_stops (tol : num) (r : App.newton_row) : bool :=
  let '(_, _, fx, _, _, err) := r in eqb (absn fx) zero || ltb err tol.

Definition fixed_row_stops (tol : num) (r : App.fixed_row) : bool :=
  let '(_, _, _, err) := r in ltb err tol.

Definition modsec_row_stops (tol : num) (r : App.modsec_row) : bool :=
  let '(_, _, _, _, err) := r in ltb err tol.

(** A returned run made between 1 and max_iter passes; the stopping test
    failed on every row but the last, and it held on the last unless the run
    used up max_iter. *)
Definition stops_at_last {row : Type} (stops : row -> bool) (max_iter : Z)
    (o : outcome (App.result row)) : Prop :=
  match o with
  | Return (_, _, iters, rows) =>
      (1 <= iters <= max_iter)%Z /\
      exists earlier final,
        rows = earlier ++ [final] /\
        Forall (fun r => stops r = false) earlier /\
        (stops final = true \/ iters = max_iter)
  | Raise _ => True
  end.

(** Invariant of a loop whose passes return exactly when [stops] holds on
    the row they append. *)
Definition stops_inv {S row : Type} (rows_of : S -> list row)
    (var : S -> option num) (stops : row -> bool) (max_iter : Z)
    (idx : list Z) (s : S) : Prop :=
  idx = range (Z.of_nat (List.length (rows_of s)) + 1) (max_iter + 1) /\
  Forall (fun r => stops r = false) (rows_of s) /\
  ((rows_of s = [] /\ var s = None) \/
   (1 <= Z.of_nat (List.length (rows_of s)) <= max_iter)%Z).

(** The returned residual is |f(root)|, f evaluated at the returned root. *)
Definition residual_at_root {row : Type} (f : num -> num)
    (o : outcome (App.result row)) : Prop :=
  match o with
  | Return (root, res, _, _) => res = absn (f root)
  | Raise _ => True
  end.

Definition residual_at_root_cli (f : num -> num) (o : outcome CLI.result) : Prop :=
  match o with
  | Return (root, res, _) => res = absn (f root)
  | Raise _ => True
  end.

End StopVocabulary.

(** ** Vocabulary: rows that follow one another *)

(** Every row is linked to the next one. *)
Fixpoint chained {row : Type} (link : row -> row -> Prop) (rows : list row) : Prop :=
  match rows with
  | r :: (r' :: _) as rest => link r r' /\ chained link rest
  | _ => True
  end.

(** A trace starts from the values the caller gave, and each row starts from
    the values the row before handed over.  [row_in] reads the values a row
    started from; [hands r k] says that the pass of row [r] left [k] to the
    next pass. *)
Definition trace_chained {row K : Type} (start : K) (row_in : row -> K)
    (hands : row -> K -> Prop) (rows : list row) : Prop :=
  match rows with
  | [] => True
  | r :: _ => row_in r = start /\ chained (fun r1 r2 => hands r1 (row_in r2)) rows
  end.

Definition returns_chained {A : Arith} {row K : Type} (start : K)
    (row_in : row -> K) (hands : row -> K -> Prop)
    (o : outcome (App.result row)) : Prop :=
  match o with
  | Return (_, _, _, rows) => trace_chained start row_in hands rows
  | Raise _ => True
  end.

(** Invariant of a loop whose passes start from [head_of s]. *)
Definition chain_inv {S row K : Type} (rows_of : S -> list row)
    (head_of : S -> K) (start : K) (row_in : row -> K)
    (hands : row -> K -> Prop) (s : S) : Prop :=
  trace_chained start row_in hands (rows_of s) /\
  ((rows_of s = [] /\ head_of s = start) \/
   exists earlier final, rows_of s = earlier ++ [final] /\ hands final (head_of s)).

Section ChainVocabulary.
Context {A : Arith}.

(** The bracketing methods: a row starts from the bracket (a, b) and hands
    over (a, c) or (c, b). *)
Definition bracket_row_in (r : App.bracket_row) : num * num :=
  let '(_, a, b, _, _, _) := r in (a, b).
Definition bracket_row_hands (r : App.bracket_row) (k : num * num) : Prop :=
  let '(_, a, b, c, _, _) := r in k = (a, c) \/ k = (c, b).
Definition bracket_head (s : App.bracket_vars) : num * num :=
  (App.v_a s, App.v_b s).

(** Secant: a row starts from (x0, x1) and hands over (x1, x2). *)
Definition secant_row_in (r : App.secant_row) : num * num :=
  let '(_, x0, x1, _, _, _) := r in (x0, x1).
Definition secant_row_hands (r : App.secant_row) (k : num * num) : Prop :=
  let '(_, _, x1, x2, _, _) := r in k = (x1, x2).
Definition secant_head (s : App.secant_vars) : num * num :=
  (App.s_x0 s, App.s_x1 s).

(** The other three: a row starts from x0 and hands over x1. *)
Definition newton_row_in (r : App.newton_row) : num :=
  let '(_, x0, _, _, _, _) := r in x0.
Definition newton_row_hands (r : App.newton_row) (k : num) : Prop :=
  let '(_, _, _, _, x1, _) := r in k = x1.

Definition fixed_row_in (r : App.fixed_row) : num :=
  let '(_, x0, _, _) := r in x0.
Definition fixed_row_hands (r : App.fixed_row) (k : num) : Prop :=
  let '(_, _, x1, _) := r in k = x1.

Definition modsec_row_in (r : App.modsec_row) : num :=
  let '(_, x0, _, _, _) := r in x0.
Definition modsec_row_hands (r : App.modsec_row) (k : num) : Prop :=
  let '(_, _, _, x1, _) := r in k = x1.

End ChainVocabulary.

(** ** Vocabulary: the returned root and the zeros of f, over the reals *)

Section RootVocabulary.
Local Open Scope R_scope.




End RootVocabulary.

(** ** Readers and requests of the runs at concrete inputs

    Stand-ins for Python's [float] and [int] and for sympy that know a few
    texts only, and a form filled in for Bisection on [cubic]. *)

Section Samples.
Local Open Scope string_scope.

Definition sample_float (text : string) : option float :=
  if String.eqb text "2" then Some 2%float
  else if String.eqb text "3" then Some 3%float
  else if String.eqb text "0.25" then Some 0.25%float
  else if String.eqb text "0.5" then Some 0.5%float
  else None.

Definition sample_int (text : string) : option Z :=
  if String.eqb text "0" then Some 0%Z
  else if String.eqb text "1" then Some 1%Z
  else if String.eqb text "2" then Some 2%Z
  else if String.eqb text "5" then Some 5%Z
  else if String.eqb text "7" then Some 7%Z
  else if String.eqb text "50" then Some 50%Z
  else None.

Definition sample_strip (text : string) : string := text.

Definition sample_str (e : Web.failure) : string := "exception".

Definition sample_function (text : string)
    : string + (float -> float) * (float -> float) :=
  if String.eqb text "x**3 - 2*x - 5" then inr (cubic, cubic')
  else inl "SympifyError".

Definition sample_g (text : string) : string + (float -> float) :=
  if String.eqb text "0.5*x" then inr halve else inl "SympifyError".

(** A form with the given method and max_iter, the function [cubic], the
    bracket (2, 3) and tol = 0.25; [x0], [x1], [delta] and [gfunc] are filled
    in as well, [extra] is not.  *)
Definition sample_form (method max_iter : string) (name : string) : option string :=
  if String.eqb name "method" then Some method
  else if String.eqb name "func" then Some "x**3 - 2*x - 5"
  else if String.eqb name "max_iter" then Some max_iter
  else if String.eqb name "tol" then Some "0.25"
  else if String.eqb name "a" then Some "2"
  else if String.eqb name "b" then Some "3"
  else if String.eqb name "x0" then Some "2"
  else if String.eqb name "x1" then Some "3"
  else if String.eqb name "delta" then Some "0.5"
  else if String.eqb name "gfunc" then Some "0.5*x"
  else None.

(** A form that was sent without any field. *)
Definition empty_form (name : string) : option string := None.

(** [index] and [main] with the stand-ins, in binary64. *)
Definition sample_index (req : Web.request) : Web.tried (Web.page (A := IEEE)) :=
  Web.index (A := IEEE) sample_float sample_int sample_strip sample_str
    sample_function sample_g req.

Definition sample_main (fuel : nat) : Console.reads (A := IEEE) Empty_set :=
  Console.main (A := IEEE) sample_float sample_int sample_strip
    sample_function sample_g fuel.

End Samples.

(** ** Proof steps *)

(** Splits every [if] and [match] on a test of the goal. *)
Ltac split_tests :=
  repeat match goal with
         | |- context [if ?b then _ else _] => destruct b eqn:?
         | |- context [match ?o with Some _ => _ | None => _ end] =>
             destruct o eqn:?
         end.

(** A pass of app.py appends one row that holds its estimate. *)
Ltac trace_pass :=
  intros; cbv beta delta [App.bisection_body App.regula_falsi_body
    App.secant_body App.newton_raphson_body App.fixed_point_iteration_body
    App.modified_secant_body App.bracket_after App.secant_after
    App.newton_raphson_after App.fixed_point_iteration_after
    App.modified_secant_after pdiv local bind] zeta;
  split_tests; cbn; eauto.

(** A pass of app.py appends one row that holds its number. *)
Ltac number_pass :=
  intros; cbv beta delta [App.bisection_body App.regula_falsi_body
    App.secant_body App.newton_raphson_body App.fixed_point_iteration_body
    App.modified_secant_body App.bracket_after App.secant_after
    App.newton_raphson_after App.fixed_point_iteration_after
    App.modified_secant_after pdiv local bind] zeta;
  split_tests; cbn; try exact I;
  repeat first [split | eexists]; try reflexivity; try discriminate.

(** The same for a pass of app.py beside the pass of ZOF_CLI.py. *)
Ltac sim_pass :=
  cbv beta delta [App.bisection_body App.regula_falsi_body
    App.secant_body App.newton_raphson_body App.fixed_point_iteration_body
    App.modified_secant_body App.bracket_after App.secant_after
    App.newton_raphson_after App.fixed_point_iteration_after
    App.modified_secant_after
    CLI.bisection_body CLI.regula_falsi_body
    CLI.secant_body CLI.newton_raphson_body CLI.fixed_point_iteration_body
    CLI.modified_secant_body CLI.bracket_after CLI.secant_after
    CLI.newton_raphson_after CLI.fixed_point_iteration_after
    CLI.modified_secant_after pdiv local bind] zeta;
  cbn [App.v_a App.v_b App.v_fa App.v_fb App.v_c_old App.v_c App.v_rows
       App.s_x0 App.s_x1 App.s_x2 App.s_rows App.n_x0 App.n_x1 App.n_rows
       App.p_x0 App.p_x1 App.p_err App.p_rows App.m_x0 App.m_x1 App.m_rows
       CLI.v_a CLI.v_b CLI.v_fa CLI.v_fb CLI.v_c_old CLI.v_c
       CLI.s_x0 CLI.s_x1 CLI.s_x2 CLI.n_x0 CLI.n_x1
       CLI.p_x0 CLI.p_x1 CLI.p_err CLI.m_x0 CLI.m_x1];
  split_tests; cbn; repeat split; auto.

(** Decide the tests of a run over the reals at concrete numbers. *)
Ltac r_arith :=
  unfold Rabs in *;
  repeat match goal with
         | H : context [Rcase_abs ?x] |- _ => destruct (Rcase_abs x)
         | |- context [Rcase_abs ?x] => destruct (Rcase_abs x)
         end;
  lra.

Ltac r_tests :=
  unfold Rltb, Reqb;
  repeat match goal with
         | |- context [Rlt_dec ?x ?y] =>
             destruct (Rlt_dec x y); try (exfalso; r_arith)
         | |- context [Req_dec_T ?x ?y] =>
             destruct (Req_dec_T x y); try (exfalso; r_arith)
         end.

(** A pass of app.py appends one row, and returns exactly when the stopping
    test holds on that row. *)
Ltac stop_pass :=
  intros; cbv beta delta [App.bisection_body App.regula_falsi_body
    App.secant_body App.newton_raphson_body App.fixed_point_iteration_body
    App.modified_secant_body App.bracket_after App.secant_after
    App.newton_raphson_after App.fixed_point_iteration_after
    App.modified_secant_after pdiv local bind] zeta;
  repeat match goal with
         | |- context [match ?o with Some _ => _ | None => _ end] =>
             destruct o eqn:?
         end;
  repeat match goal with
         | |- context [if ?b then _ else _] => destruct b eqn:?
         end;
  cbn; try exact I;
  repeat first [split | eexists]; try reflexivity; try discriminate;
  try (cbn; assumption).

(** What a pass or the end of a function returns as the residual. *)
Ltac residual_pass :=
  intros; cbv beta delta [App.bisection_body App.regula_falsi_body
    App.secant_body App.newton_raphson_body
    App.modified_secant_body App.bracket_after App.secant_after
    App.newton_raphson_after App.modified_secant_after
    CLI.bisection_body CLI.regula_falsi_body
    CLI.secant_body CLI.newton_raphson_body
    CLI.modified_secant_body CLI.bracket_after CLI.secant_after
    CLI.newton_raphson_after CLI.modified_secant_after
    pdiv local bind] zeta;
  split_tests; cbn; auto.

(** A pass of app.py writes the values it started from into its row and
    leaves the values of the next pass in the local variables. *)
Ltac chain_pass :=
  intros; cbv beta delta [App.bisection_body App.regula_falsi_body
    App.secant_body App.newton_raphson_body App.fixed_point_iteration_body
    App.modified_secant_body App.bracket_after App.secant_after
    App.newton_raphson_after App.fixed_point_iteration_after
    App.modified_secant_after pdiv local bind] zeta;
  split_tests; cbn; try exact I;
  repeat first [split | eexists]; try reflexivity; cbn; auto.

(** ** Loops *)

Lemma range_cons (lo hi : Z) :
  (lo < hi)%Z -> range lo hi = lo :: range (lo + 1) hi.
Proof.
  intros H. unfold range.
  replace (Z.to_nat (hi - lo)) with (S (Z.to_nat (hi - (lo + 1)))) by lia.
  cbn [seq map]. f_equal; [lia|].
  rewrite <- seq_shift, map_map.
  apply map_ext. intros k. lia.
Qed.

Lemma range_nil (lo hi : Z) :
  (hi <= lo)%Z -> range lo hi = [].
Proof.
  intros H. unfold range.
  replace (Z.to_nat (hi - lo)) with 0%nat by lia. reflexivity.
Qed.

Lemma range_cons_inv (lo hi i : Z) (idx : list Z) :
  range lo hi = i :: idx -> i = lo /\ idx = range (lo + 1) hi /\ (lo < hi)%Z.
Proof.
  intros H. destruct (Z_lt_dec lo hi) as [Hlt|Hge].
  - rewrite (range_cons Hlt) in H. injection H as <- <-. auto.
  - rewrite range_nil in H by lia. discriminate.
Qed.

Lemma range_nil_inv (lo hi : Z) :
  range lo hi = [] -> (hi <= lo)%Z.
Proof.
  intros H. destruct (Z_lt_dec lo hi) as [Hlt|Hge]; [|lia].
  rewrite (range_cons Hlt) in H. discriminate.
Qed.

Lemma range_app (lo mid hi : Z) :
  (lo <= mid <= hi)%Z -> range lo hi = range lo mid ++ range mid hi.
Proof.
  intros H.
  remember (Z.to_nat (mid - lo)) as n eqn:Hn.
  revert lo H Hn. induction n as [|n IH]; intros lo H Hn.
  - assert (lo = mid) by lia. subst mid.
    rewrite (@range_nil lo lo) by lia. reflexivity.
  - rewrite (@range_cons lo hi) by lia. rewrite (@range_cons lo mid) by lia.
    cbn [app]. f_equal. apply IH; lia.
Qed.

Section ForEach.
Context {S T : Type}.
Variable body : Z -> S -> outcome (flow S T).
Variable after : S -> outcome T.

Lemma for_each_split (idx1 idx2 : list Z) (s s' : S) :
  after_passes idx1 body s = Some s' ->
  for_each (idx1 ++ idx2) body s after = for_each idx2 body s' after.
Proof.
  revert s. induction idx1 as [|i idx1 IH]; intros s H; cbn in *.
  - now injection H as ->.
  - destruct (body i s) as [[s1|v]|e]; try discriminate. cbn. now apply IH.
Qed.

Lemma after_passes_snoc_inv (idx : list Z) (i : Z) (s s2 : S) :
  after_passes (idx ++ [i]) body s = Some s2 ->
  exists s1, after_passes idx body s = Some s1 /\ body i s1 = Return (Next s2).
Proof.
  revert s. induction idx as [|j idx IH]; intros s H; cbn in *.
  - destruct (body i s) as [[s1|v]|e] eqn:E; try discriminate.
    injection H as ->. eauto.
  - destruct (body j s) as [[s1|v]|e]; try discriminate. now apply IH.
Qed.

Lemma after_passes_snoc (idx : list Z) (i : Z) (s s1 s2 : S) :
  after_passes idx body s = Some s1 ->
  body i s1 = Return (Next s2) ->
  after_passes (idx ++ [i]) body s = Some s2.
Proof.
  revert s. induction idx as [|j idx IH]; intros s H Hb; cbn in *.
  - injection H as ->. now rewrite Hb.
  - destruct (body j s) as [[s'|v]|e]; try discriminate. now apply IH.
Qed.

(** Hoare-style rule for a loop: an invariant over the indices still to run
    and the local variables. *)
Lemma for_each_rule (I : list Z -> S -> Prop) (Q : outcome T -> Prop) :
  (forall i idx s, I (i :: idx) s ->
     match body i s with
     | Return (Next s') => I idx s'
     | Return (Done v) => Q (Return v)
     | Raise e => Q (Raise e)
     end) ->
  (forall s, I [] s -> Q (after s)) ->
  forall idx s, I idx s -> Q (for_each idx body s after).
Proof.
  intros Hbody Hafter. induction idx as [|i idx IH]; intros s HI; cbn.
  - now apply Hafter.
  - specialize (Hbody i idx s HI).
    destruct (body i s) as [[s'|v]|e]; cbn; auto.
Qed.

End ForEach.

Section ReturnsUnder.
Context {S T : Type}.
Variable body : Z -> S -> outcome (flow S T).
Variable after : S -> outcome T.
Variables inv assigned : S -> Prop.

(** Under the invariant no pass raises, and a pass that falls through
    assigns the variables read after the loop. *)
Hypothesis body_total : forall i s, inv s ->
  match body i s with
  | Return (Next s') => inv s' /\ assigned s'
  | Return (Done _) => True
  | Raise _ => False
  end.

Hypothesis after_total : forall s, assigned s -> exists v, after s = Return v.


End ReturnsUnder.

(** ** Trace and returned numbers (app.py) *)

Section TraceInvariant.
Context {A : Arith} {S row : Type}.
Variable rows_of : S -> list row.
Variable var : S -> option num.
Variable cand : row -> num.
Variable body : Z -> S -> outcome (flow S (App.result row)).
Variable after : S -> outcome (App.result row).
Variable max_iter : Z.

(** A pass appends exactly one row; what it returns, or leaves in the
    variable read after the loop, is that row's estimate. *)
Hypothesis body_appends : forall i s,
  match body i s with
  | Return (Next s') =>
      exists r, rows_of s' = rows_of s ++ [r] /\ var s' = Some (cand r)
  | Return (Done (root, _, iters, rows)) =>
      iters = i /\ exists r, rows = rows_of s ++ [r] /\ cand r = root
  | Raise _ => True
  end.

Hypothesis after_reads : forall s,
  match after s with
  | Return (root, _, iters, rows) =>
      iters = max_iter /\ rows = rows_of s /\ var s = Some root
  | Raise _ => True
  end.

Lemma for_each_trace_agrees (s0 : S) :
  rows_of s0 = [] -> var s0 = None ->
  trace_agrees cand (for_each (range 1 (max_iter + 1)) body s0 after).
Proof.
  intros Hrows Hvar.
  apply (for_each_rule body after (trace_inv rows_of var cand max_iter)
           (trace_agrees cand)).
  - intros i idx s [Hidx Hshape].
    symmetry in Hidx. apply range_cons_inv in Hidx as (Hi & Hidx & Hlt).
    pose proof (body_appends i s) as Hb.
    destruct (body i s) as [[s'|[[[root res] iters] rows]]|e]; cbn; auto.
    + destruct Hb as (r & Hr & Hv). split.
      * rewrite Hr, length_app. cbn [List.length]. rewrite Hidx. f_equal. lia.
      * right. split.
        -- rewrite Hr, length_app. cbn [List.length]. lia.
        -- exists (rows_of s), r. auto.
    + destruct Hb as (-> & r & -> & <-). split.
      * rewrite length_app. cbn [List.length]. lia.
      * exists (rows_of s), r. auto.
  - intros s [Hidx Hshape].
    symmetry in Hidx. apply range_nil_inv in Hidx.
    pose proof (after_reads s) as Ha.
    destruct (after s) as [[[[root res] iters] rows]|e]; cbn; auto.
    destruct Ha as (-> & -> & Hv).
    destruct Hshape as [[_ Hnone]|(Hle & earlier & final & Hr & Hsome)].
    + congruence.
    + split; [lia|]. exists earlier, final. split; [assumption|congruence].
  - split.
    + rewrite Hrows. reflexivity.
    + left. auto.
Qed.

End TraceInvariant.

Section TraceTheorem.
Context {A : Arith}.

(** C3. Whenever a solver of app.py returns (it converged or it used up
    max_iter), the trace has as many rows as the returned iteration count and
    the estimate in its final row is the returned root. *)
Theorem trace_matches_result (f df g : num -> num) (a b x0 x1 delta : num)
    (max_iter : Z) (tol : num) :
  trace_agrees App.bracket_candidate (App.bisection f a b max_iter tol) /\
  trace_agrees App.bracket_candidate (App.regula_falsi f a b max_iter tol) /\
  trace_agrees App.secant_candidate (App.secant f x0 x1 max_iter tol) /\
  trace_agrees App.newton_candidate (App.newton_raphson f df x0 max_iter tol) /\
  trace_agrees App.fixed_candidate (App.fixed_point_iteration g x0 max_iter tol) /\
  trace_agrees App.modsec_candidate (App.modified_secant f x0 delta max_iter tol).
Proof.
  repeat split.
  - unfold App.bisection. destruct (ltb zero (mul (f a) (f b))); cbn; [exact I|].
    apply for_each_trace_agrees with (rows_of := App.v_rows) (var := App.v_c);
      try reflexivity; trace_pass.
  - unfold App.regula_falsi. destruct (ltb zero (mul (f a) (f b))); cbn; [exact I|].
    apply for_each_trace_agrees with (rows_of := App.v_rows) (var := App.v_c);
      try reflexivity; trace_pass.
  - apply for_each_trace_agrees with (rows_of := App.s_rows) (var := App.s_x2);
      try reflexivity; trace_pass.
  - apply for_each_trace_agrees with (rows_of := App.n_rows) (var := App.n_x1);
      try reflexivity; trace_pass.
  - apply for_each_trace_agrees with (rows_of := App.p_rows) (var := App.p_x1);
      try reflexivity; trace_pass.
  - apply for_each_trace_agrees with (rows_of := App.m_rows) (var := App.m_x1);
      try reflexivity; trace_pass.
Qed.

End TraceTheorem.

(** ** Numbering of the rows *)

Section TraceNumbering.
Context {A : Arith} {S row : Type}.
Variable rows_of : S -> list row.
Variable var : S -> option num.
Variable index : row -> Z.
Variable body : Z -> S -> outcome (flow S (App.result row)).
Variable after : S -> outcome (App.result row).
Variable max_iter : Z.

Hypothesis body_numbers : forall i s,
  match body i s with
  | Return (Next s') =>
      exists r, rows_of s' = rows_of s ++ [r] /\ index r = i /\ var s' <> None
  | Return (Done (_, _, iters, rows)) =>
      iters = i /\ exists r, rows = rows_of s ++ [r] /\ index r = i
  | Raise _ => True
  end.

Hypothesis after_reads : forall s,
  match after s with
  | Return (_, _, iters, rows) =>
      iters = max_iter /\ rows = rows_of s /\ var s <> None
  | Raise _ => True
  end.

Lemma map_index_snoc (rows : list row) (r : row) :
  map index rows = range 1 (Z.of_nat (List.length rows) + 1) ->
  index r = (Z.of_nat (List.length rows) + 1)%Z ->
  map index (rows ++ [r]) =
  range 1 (Z.of_nat (List.length (rows ++ [r])) + 1).
Proof.
  intros Hmap Hr. rewrite map_app, Hmap, length_app. cbn [List.length map].
  rewrite (@range_app 1 (Z.of_nat (List.length rows) + 1)
             (Z.of_nat (List.length rows + 1) + 1)) by lia.
  f_equal. rewrite (@range_cons (Z.of_nat (List.length rows) + 1)) by lia.
  rewrite range_nil by lia. now rewrite Hr.
Qed.

Lemma for_each_trace_numbered (s0 : S) :
  rows_of s0 = [] -> var s0 = None ->
  trace_numbered index (for_each (range 1 (max_iter + 1)) body s0 after).
Proof.
  intros Hrows Hvar.
  apply (for_each_rule body after (numbering_inv rows_of var index max_iter)
           (trace_numbered index)).
  - intros i idx s (Hidx & Hmap & Hshape).
    symmetry in Hidx. apply range_cons_inv in Hidx as (Hi & Hidx & Hlt).
    pose proof (body_numbers i s) as Hb.
    destruct (body i s) as [[s'|[[[root res] iters] rows]]|e]; cbn; auto.
    + destruct Hb as (r & Hr & Hindex & Hv). unfold numbering_inv.
      rewrite Hr. repeat split.
      * rewrite length_app. cbn [List.length]. rewrite Hidx. f_equal. lia.
      * apply (@map_index_snoc (rows_of s) r Hmap). lia.
      * right. rewrite length_app. cbn [List.length]. lia.
    + destruct Hb as (-> & r & -> & Hindex).
      rewrite (@map_index_snoc (rows_of s) r Hmap) by lia.
      rewrite length_app. cbn [List.length]. do 2 f_equal. lia.
  - intros s (Hidx & Hmap & Hshape).
    symmetry in Hidx. apply range_nil_inv in Hidx.
    pose proof (after_reads s) as Ha.
    destruct (after s) as [[[[root res] iters] rows]|e]; cbn; auto.
    destruct Ha as (-> & -> & Hv).
    destruct Hshape as [[_ Hnone]|Hle]; [congruence|].
    rewrite Hmap. do 2 f_equal. lia.
  - unfold numbering_inv. rewrite Hrows. cbn. auto.
Qed.

End TraceNumbering.

Section TraceNumberingTheorem.
Context {A : Arith}.

(** The rows of every returned trace are numbered 1, 2, ..., up to the
    returned iteration count. *)
Theorem trace_rows_numbered (f df g : num -> num) (a b x0 x1 delta : num)
    (max_iter : Z) (tol : num) :
  trace_numbered row6_index (App.bisection f a b max_iter tol) /\
  trace_numbered row6_index (App.regula_falsi f a b max_iter tol) /\
  trace_numbered row6_index (App.secant f x0 x1 max_iter tol) /\
  trace_numbered row6_index (App.newton_raphson f df x0 max_iter tol) /\
  trace_numbered row4_index (App.fixed_point_iteration g x0 max_iter tol) /\
  trace_numbered row5_index (App.modified_secant f x0 delta max_iter tol).
Proof.
  repeat split.
  - unfold App.bisection. destruct (ltb zero (mul (f a) (f b))); cbn; [exact I|].
    apply for_each_trace_numbered with (rows_of := App.v_rows) (var := App.v_c);
      try reflexivity; number_pass.
  - unfold App.regula_falsi. destruct (ltb zero (mul (f a) (f b))); cbn; [exact I|].
    apply for_each_trace_numbered with (rows_of := App.v_rows) (var := App.v_c);
      try reflexivity; number_pass.
  - apply for_each_trace_numbered with (rows_of := App.s_rows) (var := App.s_x2);
      try reflexivity; number_pass.
  - apply for_each_trace_numbered with (rows_of := App.n_rows) (var := App.n_x1);
      try reflexivity; number_pass.
  - apply for_each_trace_numbered with (rows_of := App.p_rows) (var := App.p_x1);
      try reflexivity; number_pass.
  - apply for_each_trace_numbered with (rows_of := App.m_rows) (var := App.m_x1);
      try reflexivity; number_pass.
Qed.

End TraceNumberingTheorem.

(** ** app.py against ZOF_CLI.py *)

Section Simulation.
Context {A : Arith} {row S1 S2 : Type}.
Variable body1 : Z -> S1 -> outcome (flow S1 (App.result row)).
Variable body2 : Z -> S2 -> outcome (flow S2 CLI.result).
Variable after1 : S1 -> outcome (App.result row).
Variable after2 : S2 -> outcome CLI.result.
(** [before] relates the local variables on entry to a pass, [related] after
    a pass that fell through. *)
Variables before related : S1 -> S2 -> Prop.

Hypothesis related_before : forall s1 s2, related s1 s2 -> before s1 s2.

Hypothesis body_sim : forall i s1 s2, before s1 s2 ->
  match body1 i s1, body2 i s2 with
  | Return (Next s1'), Return (Next s2') => related s1' s2'
  | Return (Done v1), Return (Done v2) => same_result (Return v1) (Return v2)
  | Raise _, Raise _ => True
  | _, _ => False
  end.

Hypothesis after_sim : forall s1 s2, related s1 s2 ->
  same_result (after1 s1) (after2 s2).

Lemma for_each_sim_related (idx : list Z) (s1 : S1) (s2 : S2) :
  related s1 s2 ->
  same_result (for_each idx body1 s1 after1) (for_each idx body2 s2 after2).
Proof.
  revert s1 s2. induction idx as [|i idx IH]; intros s1 s2 H; cbn [for_each].
  - now apply after_sim.
  - pose proof (body_sim i (related_before H)) as Hb.
    destruct (body1 i s1) as [[s1'|v1]|e1], (body2 i s2) as [[s2'|v2]|e2];
      cbn [bind]; try contradiction; auto.
Qed.

Lemma for_each_sim (i : Z) (idx : list Z) (s1 : S1) (s2 : S2) :
  before s1 s2 ->
  same_result (for_each (i :: idx) body1 s1 after1)
              (for_each (i :: idx) body2 s2 after2).
Proof.
  intros H. cbn [for_each].
  pose proof (body_sim i H) as Hb.
  destruct (body1 i s1) as [[s1'|v1]|e1], (body2 i s2) as [[s2'|v2]|e2];
    cbn [bind]; try contradiction; auto.
  now apply for_each_sim_related.
Qed.

End Simulation.

Section Equivalence.
Context {A : Arith}.

Lemma bisection_body_sim (f : num -> num) (tol : num) (i : Z)
    (s1 : App.bracket_vars) (s2 : CLI.bracket_vars) :
  bracket_before s1 s2 ->
  match App.bisection_body f tol i s1, CLI.bisection_body f tol i s2 with
  | Return (Next s1'), Return (Next s2') => bracket_related s1' s2'
  | Return (Done v1), Return (Done v2) => same_result (Return v1) (Return v2)
  | Raise _, Raise _ => True
  | _, _ => False
  end.
Proof.
  destruct s1, s2. unfold bracket_related, bracket_before. cbn.
  intros (-> & -> & -> & -> & ->). sim_pass.
Qed.

Lemma regula_falsi_body_sim (f : num -> num) (tol : num) (i : Z)
    (s1 : App.bracket_vars) (s2 : CLI.bracket_vars) :
  bracket_before s1 s2 ->
  match App.regula_falsi_body f tol i s1, CLI.regula_falsi_body f tol i s2 with
  | Return (Next s1'), Return (Next s2') => bracket_related s1' s2'
  | Return (Done v1), Return (Done v2) => same_result (Return v1) (Return v2)
  | Raise _, Raise _ => True
  | _, _ => False
  end.
Proof.
  destruct s1, s2. unfold bracket_related, bracket_before. cbn.
  intros (-> & -> & -> & -> & ->). sim_pass.
Qed.

Lemma bracket_after_sim (f : num -> num) (max_iter : Z)
    (s1 : App.bracket_vars) (s2 : CLI.bracket_vars) :
  bracket_related s1 s2 ->
  same_result (App.bracket_after f max_iter s1) (CLI.bracket_after f max_iter s2).
Proof.
  destruct s1, s2. unfold bracket_related, bracket_before. cbn.
  intros (_ & ->). sim_pass.
Qed.

Lemma secant_body_sim (f : num -> num) (tol : num) (i : Z)
    (s1 : App.secant_vars) (s2 : CLI.secant_vars) :
  secant_related s1 s2 ->
  match App.secant_body f tol i s1, CLI.secant_body f tol i s2 with
  | Return (Next s1'), Return (Next s2') => secant_related s1' s2'
  | Return (Done v1), Return (Done v2) => same_result (Return v1) (Return v2)
  | Raise _, Raise _ => True
  | _, _ => False
  end.
Proof.
  destruct s1, s2. unfold secant_related. cbn.
  intros (-> & -> & ->). sim_pass.
Qed.

Lemma newton_raphson_body_sim (f df : num -> num) (tol : num) (i : Z)
    (s1 : App.newton_vars) (s2 : CLI.newton_vars) :
  newton_related s1 s2 ->
  match App.newton_raphson_body f df tol i s1,
        CLI.newton_raphson_body f df tol i s2 with
  | Return (Next s1'), Return (Next s2') => newton_related s1' s2'
  | Return (Done v1), Return (Done v2) => same_result (Return v1) (Return v2)
  | Raise _, Raise _ => True
  | _, _ => False
  end.
Proof.
  destruct s1, s2. unfold newton_related. cbn.
  intros (-> & ->). sim_pass.
Qed.

Lemma fixed_point_iteration_body_sim (g : num -> num) (tol : num) (i : Z)
    (s1 : App.fixed_vars) (s2 : CLI.fixed_vars) :
  fixed_related s1 s2 ->
  match App.fixed_point_iteration_body g tol i s1,
        CLI.fixed_point_iteration_body g tol i s2 with
  | Return (Next s1'), Return (Next s2') => fixed_related s1' s2'
  | Return (Done v1), Return (Done v2) => same_result (Return v1) (Return v2)
  | Raise _, Raise _ => True
  | _, _ => False
  end.
Proof.
  destruct s1, s2. unfold fixed_related. cbn.
  intros (-> & -> & ->). sim_pass.
Qed.

(** app.py tests the denominator and raises [ValueError]; ZOF_CLI.py divides
    and the division raises [ZeroDivisionError]: the same inputs fail. *)
Lemma modified_secant_body_sim (f : num -> num) (delta tol : num) (i : Z)
    (s1 : App.modsec_vars) (s2 : CLI.modsec_vars) :
  modsec_related s1 s2 ->
  match App.modified_secant_body f delta tol i s1,
        CLI.modified_secant_body f delta tol i s2 with
  | Return (Next s1'), Return (Next s2') => modsec_related s1' s2'
  | Return (Done v1), Return (Done v2) => same_result (Return v1) (Return v2)
  | Raise _, Raise _ => True
  | _, _ => False
  end.
Proof.
  destruct s1, s2. unfold modsec_related. cbn.
  intros (-> & ->). sim_pass.
Qed.

(** C9. With the same evaluators and inputs and max_iter >= 1, each solver of
    app.py and its namesake of ZOF_CLI.py either both raise or both return,
    and then with the same root, the same residual and the same iteration
    count. *)
Theorem app_cli_agree (f df g : num -> num) (a b x0 x1 delta : num)
    (max_iter : Z) (tol : num) :
  (1 <= max_iter)%Z ->
  same_result (App.bisection f a b max_iter tol)
              (CLI.bisection f a b max_iter tol) /\
  same_result (App.regula_falsi f a b max_iter tol)
              (CLI.regula_falsi f a b max_iter tol) /\
  same_result (App.secant f x0 x1 max_iter tol)
              (CLI.secant f x0 x1 max_iter tol) /\
  same_result (App.newton_raphson f df x0 max_iter tol)
              (CLI.newton_raphson f df x0 max_iter tol) /\
  same_result (App.fixed_point_iteration g x0 max_iter tol)
              (CLI.fixed_point_iteration g x0 max_iter tol) /\
  same_result (App.modified_secant f x0 delta max_iter tol)
              (CLI.modified_secant f x0 delta max_iter tol).
Proof.
  intros Hpos.
  unfold App.bisection, CLI.bisection, App.regula_falsi, CLI.regula_falsi,
    App.secant, CLI.secant, App.newton_raphson, CLI.newton_raphson,
    App.fixed_point_iteration, CLI.fixed_point_iteration,
    App.modified_secant, CLI.modified_secant.
  rewrite (@range_cons 1 (max_iter + 1)) by lia.
  repeat split.
  - destruct (ltb zero (mul (f a) (f b))); cbn [same_result]; [exact I|].
    apply for_each_sim with (before := bracket_before) (related := bracket_related).
    + intros s1 s2 H; apply H.
    + intros; now apply bisection_body_sim.
    + intros; now apply bracket_after_sim.
    + repeat split.
  - destruct (ltb zero (mul (f a) (f b))); cbn [same_result]; [exact I|].
    apply for_each_sim with (before := bracket_before) (related := bracket_related).
    + intros s1 s2 H; apply H.
    + intros; now apply regula_falsi_body_sim.
    + intros; now apply bracket_after_sim.
    + repeat split.
  - apply for_each_sim with (before := secant_related) (related := secant_related);
      auto.
    + intros; now apply secant_body_sim.
    + intros [] [] (_ & _ & H); cbn in H; subst; sim_pass.
    + repeat split.
  - apply for_each_sim with (before := newton_related) (related := newton_related);
      auto.
    + intros; now apply newton_raphson_body_sim.
    + intros [] [] (_ & H); cbn in H; subst; sim_pass.
    + repeat split.
  - apply for_each_sim with (before := fixed_related) (related := fixed_related);
      auto.
    + intros; now apply fixed_point_iteration_body_sim.
    + intros [] [] (_ & H1 & H2); cbn in H1, H2; subst; sim_pass.
    + repeat split.
  - apply for_each_sim with (before := modsec_related) (related := modsec_related);
      auto.
    + intros; now apply modified_secant_body_sim.
    + intros [] [] (_ & H); cbn in H; subst; sim_pass.
    + repeat split.
Qed.

End Equivalence.

(** ** Zero denominators *)

Section Degenerate.
Context {A : Arith}.

Lemma run_reaches {S T : Type} (body : Z -> S -> outcome (flow S T))
    (after : S -> outcome T) (max_iter k : Z) (s0 s : S) :
  (0 <= k < max_iter)%Z ->
  after_passes (range 1 (k + 1)) body s0 = Some s ->
  for_each (range 1 (max_iter + 1)) body s0 after =
  for_each ((k + 1)%Z :: range (k + 2) (max_iter + 1)) body s after.
Proof.
  intros Hk Hs.
  rewrite (@range_app 1 (k + 1) (max_iter + 1)) by lia.
  rewrite (for_each_split body after _ _ _ Hs).
  rewrite (@range_cons (k + 1) (max_iter + 1)) by lia.
  do 3 f_equal. lia.
Qed.

(** C8. Let a run of Secant, Newton-Raphson or Modified Secant reach pass
    k+1 (the k passes before it fell through).  If the denominator of that
    pass, f(x1) - f(x0), df(x0) or f(x0 + delta*x0) - f(x0), is exactly zero,
    the whole call raises: it returns no root and no rows. *)
Theorem zero_denominator_raises (f df : num -> num) (x0 x1 delta : num)
    (max_iter : Z) (tol : num) (k : Z) :
  (0 <= k < max_iter)%Z ->
  (forall s,
     after_passes (range 1 (k + 1)) (App.secant_body f tol)
       (App.SecantVars x0 x1 None []) = Some s ->
     eqb (sub (f (App.s_x1 s)) (f (App.s_x0 s))) zero = true ->
     App.secant f x0 x1 max_iter tol =
     Raise (ValueError "Zero denominator in Secant.")) /\
  (forall s,
     after_passes (range 1 (k + 1)) (CLI.secant_body f tol)
       (CLI.SecantVars x0 x1 None) = Some s ->
     eqb (sub (f (CLI.s_x1 s)) (f (CLI.s_x0 s))) zero = true ->
     CLI.secant f x0 x1 max_iter tol =
     Raise (ZeroDivisionError (Some "Division by zero in Secant denominator."%string))) /\
  (forall s,
     after_passes (range 1 (k + 1)) (App.newton_raphson_body f df tol)
       (App.NewtonVars x0 None []) = Some s ->
     eqb (df (App.n_x0 s)) zero = true ->
     App.newton_raphson f df x0 max_iter tol =
     Raise (ValueError "Derivative zero in Newton-Raphson.")) /\
  (forall s,
     after_passes (range 1 (k + 1)) (CLI.newton_raphson_body f df tol)
       (CLI.NewtonVars x0 None) = Some s ->
     eqb (df (CLI.n_x0 s)) zero = true ->
     CLI.newton_raphson f df x0 max_iter tol =
     Raise (ZeroDivisionError
              (Some "Zero derivative encountered in Newton-Raphson."%string))) /\
  (forall s,
     after_passes (range 1 (k + 1)) (App.modified_secant_body f delta tol)
       (App.ModsecVars x0 None []) = Some s ->
     eqb (sub (f (add (App.m_x0 s) (mul delta (App.m_x0 s)))) (f (App.m_x0 s)))
       zero = true ->
     App.modified_secant f x0 delta max_iter tol =
     Raise (ValueError "Denominator zero in Modified Secant.")) /\
  (forall s,
     after_passes (range 1 (k + 1)) (CLI.modified_secant_body f delta tol)
       (CLI.ModsecVars x0 None) = Some s ->
     eqb (sub (f (add (CLI.m_x0 s) (mul delta (CLI.m_x0 s)))) (f (CLI.m_x0 s)))
       zero = true ->
     CLI.modified_secant f x0 delta max_iter tol = Raise (ZeroDivisionError None)).
Proof.
  intros Hk. repeat split; intros s Hs Hzero.
  - unfold App.secant. rewrite (run_reaches _ _ _ Hk Hs). cbn [for_each].
    unfold App.secant_body. now rewrite Hzero.
  - unfold CLI.secant. rewrite (run_reaches _ _ _ Hk Hs). cbn [for_each].
    unfold CLI.secant_body. now rewrite Hzero.
  - unfold App.newton_raphson. rewrite (run_reaches _ _ _ Hk Hs). cbn [for_each].
    unfold App.newton_raphson_body. now rewrite Hzero.
  - unfold CLI.newton_raphson. rewrite (run_reaches _ _ _ Hk Hs). cbn [for_each].
    unfold CLI.newton_raphson_body. now rewrite Hzero.
  - unfold App.modified_secant. rewrite (run_reaches _ _ _ Hk Hs). cbn [for_each].
    unfold App.modified_secant_body. now rewrite Hzero.
  - unfold CLI.modified_secant. rewrite (run_reaches _ _ _ Hk Hs). cbn [for_each].
    unfold CLI.modified_secant_body, pdiv. now rewrite Hzero.
Qed.

End Degenerate.

(** ** Fixed-point iteration *)

Section FixedPoint.
Context {A : Arith}.
Variable g : num -> num.
Variable tol : num.
Variable max_iter : Z.

Lemma fixed_point_iteration_shape (x0 : num) :
  fixed_point_outcome g tol max_iter (App.fixed_point_iteration g x0 max_iter tol).
Proof.
  unfold App.fixed_point_iteration.
  apply (for_each_rule _ _ (fixed_point_inv g tol max_iter)
           (fixed_point_outcome g tol max_iter)).
  - intros i idx s (Hidx & Hall & Hshape).
    symmetry in Hidx. apply range_cons_inv in Hidx as (Hi & Hidx & Hlt).
    unfold App.fixed_point_iteration_body.
    destruct (ltb (absn (sub (g (App.p_x0 s)) (App.p_x0 s))) tol) eqn:Hstop.
    + cbn. exists (App.p_rows s), (App.p_x0 s). auto 6.
    + unfold fixed_point_inv. cbn [App.p_rows App.p_x1 App.p_err].
      rewrite length_app. cbn [List.length]. repeat split.
      * rewrite Hidx. f_equal. lia.
      * apply Forall_app. split; [assumption|]. constructor; [exact Hstop|constructor].
      * right. exists (App.p_rows s), (App.p_x0 s), (g (App.p_x0 s)),
          (absn (sub (g (App.p_x0 s)) (App.p_x0 s))).
        repeat split; try lia. repeat f_equal. lia.
  - intros s (Hidx & Hall & Hshape).
    symmetry in Hidx. apply range_nil_inv in Hidx.
    unfold App.fixed_point_iteration_after.
    destruct Hshape as [[_ Hnone]|(earlier & x_prev & x1 & err & Hr & H1 & H2 & Hg & He & Hle)].
    + rewrite Hnone. exact I.
    + rewrite H1, H2. cbn.
      assert (Hlen : Z.of_nat (List.length (App.p_rows s)) = max_iter) by lia.
      rewrite Hlen in Hr.
      exists earlier, x_prev. repeat split; auto.
      rewrite Hr in Hall. apply Forall_app in Hall. apply Hall.
  - repeat split; [constructor|]. left. auto.
Qed.

Lemma fixed_point_iteration_shape_cli (x0 : num) :
  fixed_point_outcome_cli g tol max_iter
    (CLI.fixed_point_iteration g x0 max_iter tol).
Proof.
  unfold CLI.fixed_point_iteration.
  apply (for_each_rule _ _
           (fun _ s =>
              (CLI.p_x1 s = None) \/
              exists x_prev, CLI.p_x1 s = Some (g x_prev) /\
                CLI.p_err s = Some (absn (sub (g x_prev) x_prev)))
           (fixed_point_outcome_cli g tol max_iter)).
  - intros i idx s _. unfold CLI.fixed_point_iteration_body.
    destruct (ltb (absn (sub (g (CLI.p_x0 s)) (CLI.p_x0 s))) tol) eqn:Hstop; cbn.
    + exists (CLI.p_x0 s). auto.
    + right. exists (CLI.p_x0 s). auto.
  - intros s [Hnone|(x_prev & H1 & H2)]; unfold CLI.fixed_point_iteration_after.
    + rewrite Hnone. exact I.
    + rewrite H1, H2. cbn. exists x_prev. auto.
  - left. reflexivity.
Qed.

(** C7. A returned run of Fixed-Point Iteration ends with the row
    (iterations, x0, x1, err) where x1 = g(x0) is the returned root and
    err = |x1 - x0| is the returned "residual": the step error, for a run that
    converged and for one that used up max_iter alike.  It returned before
    max_iter only with err < tol, and no earlier pass had err < tol: the step
    error is the only stopping test. *)
Theorem fixed_point_reports_step_error (x0 : num) :
  fixed_point_outcome g tol max_iter
    (App.fixed_point_iteration g x0 max_iter tol) /\
  fixed_point_outcome_cli g tol max_iter
    (CLI.fixed_point_iteration g x0 max_iter tol).
Proof.
  split.
  - apply fixed_point_iteration_shape.
  - apply fixed_point_iteration_shape_cli.
Qed.

End FixedPoint.

(** ** Stopping rules of the bracketing methods *)

Section StopRules.
Context {A : Arith}.

(** A pass that falls through leaves its candidate in [c_old]. *)
Lemma bisection_body_next (f : num -> num) (tol : num) (i : Z)
    (s s' : App.bracket_vars) :
  App.bisection_body f tol i s = Return (Next s') ->
  App.v_c_old s' = Some (bisection_candidate s).
Proof.
  unfold App.bisection_body, bisection_candidate.
  split_tests; intros H; inversion H; reflexivity.
Qed.

Lemma regula_falsi_body_next (f : num -> num) (tol : num) (i : Z)
    (s s' : App.bracket_vars) :
  App.regula_falsi_body f tol i s = Return (Next s') ->
  App.v_c_old s' = Some (regula_falsi_candidate s).
Proof.
  unfold App.regula_falsi_body, regula_falsi_candidate, pdiv, bind.
  split_tests; intros H; inversion H; reflexivity.
Qed.

Lemma first_pass_has_no_previous (body : Z -> App.bracket_vars ->
      outcome (flow App.bracket_vars (App.result App.bracket_row)))
    (s0 s : App.bracket_vars) (k : Z) :
  (forall i s1 s2, body i s1 = Return (Next s2) -> App.v_c_old s2 <> None) ->
  App.v_c_old s0 = None ->
  (0 <= k)%Z ->
  after_passes (range 1 (k + 1)) body s0 = Some s ->
  (App.v_c_old s = None <-> k = 0%Z).
Proof.
  intros Hnext H0 Hk Hs.
  destruct (Z.eq_dec k 0) as [->|Hne].
  - rewrite range_nil in Hs by lia. cbn in Hs. injection Hs as <-. tauto.
  - rewrite (@range_app 1 k (k + 1)) in Hs by lia.
    rewrite (@range_cons k (k + 1)), (@range_nil (k + 1) (k + 1)) in Hs by lia.
    apply after_passes_snoc_inv in Hs as (s1 & _ & Hb).
    apply Hnext in Hb. tauto.
Qed.

(** One pass, by the rule in the words of the specification. *)
Lemma bisection_body_rule {L : AbsZero A} (f : num -> num) (tol : num) (i : Z)
    (s : App.bracket_vars) :
  let c := bisection_candidate s in
  if bisection_stop_rule tol (f c) c (App.v_c_old s) (App.v_a s) (App.v_b s)
  then App.bisection_body f tol i s =
       Return (Done (c, absn (f c), i,
                     App.v_rows s ++ [bracket_new_row i s c (f c)]))
  else exists s', App.bisection_body f tol i s = Return (Next s') /\
                  App.v_c_old s' = Some c.
Proof.
  cbv zeta. unfold bisection_stop_rule, App.bisection_body, bracket_new_row.
  fold (bisection_candidate s). rewrite absn_eqb_zero.
  split_tests; eauto.
Qed.

Lemma regula_falsi_body_rule {L : AbsZero A} (f : num -> num) (tol : num) (i : Z)
    (s : App.bracket_vars) :
  let c := regula_falsi_candidate s in
  eqb (sub (App.v_fb s) (App.v_fa s)) zero = false ->
  if regula_falsi_stop_rule tol (f c) c (App.v_c_old s)
  then App.regula_falsi_body f tol i s =
       Return (Done (c, absn (f c), i,
                     App.v_rows s ++ [bracket_new_row i s c (f c)]))
  else exists s', App.regula_falsi_body f tol i s = Return (Next s') /\
                  App.v_c_old s' = Some c.
Proof.
  cbv zeta. intros Hden.
  unfold regula_falsi_stop_rule, App.regula_falsi_body, bracket_new_row, pdiv.
  rewrite Hden. cbn [bind]. fold (regula_falsi_candidate s).
  rewrite absn_eqb_zero.
  split_tests; eauto.
Qed.

Section CountedReturn.
Context {S row : Type}.
Variable body : Z -> S -> outcome (flow S (App.result row)).
Variable after : S -> outcome (App.result row).
Variable max_iter : Z.

(** A pass that returns reports its own number, the end of the function
    reports max_iter. *)
Hypothesis body_counts : forall i s,
  match body i s with
  | Return (Done (_, _, iters, _)) => iters = i
  | _ => True
  end.

Hypothesis after_counts : forall s,
  match after s with
  | Return (_, _, iters, _) => iters = max_iter
  | Raise _ => True
  end.

Lemma for_each_returns_later (pass lo : Z) (s : S) :
  (pass < lo)%Z ->
  returns_later pass max_iter (for_each (range lo (max_iter + 1)) body s after).
Proof.
  intros Hlo.
  apply (for_each_rule body after
           (fun idx _ => exists l, (pass < l)%Z /\ idx = range l (max_iter + 1))
           (returns_later pass max_iter)).
  - intros i idx s1 (l & Hl & Hidx).
    symmetry in Hidx. apply range_cons_inv in Hidx as (Hi & Hidx & Hlt).
    pose proof (body_counts i s1) as Hb.
    destruct (body i s1) as [[s'|[[[root res] iters] rows]]|e]; cbn; auto.
    + exists (l + 1)%Z. split; [lia|assumption].
    + left. lia.
  - intros s1 _. pose proof (after_counts s1) as Ha.
    destruct (after s1) as [[[[root res] iters] rows]|e]; cbn; auto.
  - exists lo. auto.
Qed.

End CountedReturn.

(** What pass k+1 does to the whole call, when the k passes before it fell
    through: if it returns, the call returns the same; if it falls through,
    so do the first k+1 passes, and the call reports more than k+1 iterations
    (or max_iter). *)
Lemma pass_decides (body : Z -> App.bracket_vars ->
      outcome (flow App.bracket_vars (App.result App.bracket_row)))
    (f : num -> num) (max_iter k : Z) (s0 s : App.bracket_vars) :
  (0 <= k < max_iter)%Z ->
  (forall i s1, match body i s1 with
                | Return (Done (_, _, iters, _)) => iters = i
                | _ => True
                end) ->
  after_passes (range 1 (k + 1)) body s0 = Some s ->
  (forall v, body (k + 1)%Z s = Return (Done v) ->
     for_each (range 1 (max_iter + 1)) body s0 (App.bracket_after f max_iter) =
     Return v) /\
  (forall s', body (k + 1)%Z s = Return (Next s') ->
     after_passes (range 1 (k + 2)) body s0 = Some s' /\
     returns_later (k + 1) max_iter
       (for_each (range 1 (max_iter + 1)) body s0 (App.bracket_after f max_iter))).
Proof.
  intros Hk Hcount Hs. split.
  - intros v Hb. rewrite (run_reaches _ _ _ Hk Hs). cbn [for_each].
    now rewrite Hb.
  - intros s' Hb. split.
    + rewrite (@range_app 1 (k + 1) (k + 2)) by lia.
      rewrite (@range_cons (k + 1) (k + 2)), (@range_nil (k + 1 + 1) (k + 2)) by lia.
      now apply after_passes_snoc with (s1 := s).
    + rewrite (run_reaches _ _ _ Hk Hs). cbn [for_each]. rewrite Hb. cbn [bind].
      apply for_each_returns_later; [exact Hcount| |lia].
      intros s1. unfold App.bracket_after, local.
      destruct (App.v_c s1); cbn; auto.
Qed.

(** C2. Let [bisection] be called on a valid bracket (f(a)*f(b) > 0 is
    false), and let the run reach pass k+1 <= max_iter, the k passes before it
    having fallen through; let c be the midpoint of the bracket of that pass.
    If f(c) == 0, or there is a previous candidate and |c - previous| < tol, or
    |b - a| / 2 < tol, the call returns (c, |f(c)|, k+1, rows), the last row
    being that of this pass.  Otherwise the pass falls through, c becomes the
    previous candidate, and the call does not return with the count k+1: it
    reports more iterations, or max_iter when this was the last pass.  The same
    holds for [regula_falsi], with c the false-position point of a pass whose
    division succeeds, and without the test of the bracket width.  A pass has
    no previous candidate exactly when it is the first one (k = 0). *)
Theorem stop_rule {L : AbsZero A} (f : num -> num) (a b tol : num)
    (max_iter k : Z) :
  (0 <= k < max_iter)%Z ->
  ltb zero (mul (f a) (f b)) = false ->
  (forall s,
     after_passes (range 1 (k + 1)) (App.bisection_body f tol)
       (App.BracketVars a b (f a) (f b) None None []) = Some s ->
     let c := bisection_candidate s in
     (App.v_c_old s = None <-> k = 0%Z) /\
     if bisection_stop_rule tol (f c) c (App.v_c_old s) (App.v_a s) (App.v_b s)
     then App.bisection f a b max_iter tol =
          Return (c, absn (f c), (k + 1)%Z,
                  App.v_rows s ++ [bracket_new_row (k + 1) s c (f c)])
     else (exists s',
             after_passes (range 1 (k + 2)) (App.bisection_body f tol)
               (App.BracketVars a b (f a) (f b) None None []) = Some s' /\
             App.v_c_old s' = Some c) /\
          returns_later (k + 1) max_iter (App.bisection f a b max_iter tol)) /\
  (forall s,
     after_passes (range 1 (k + 1)) (App.regula_falsi_body f tol)
       (App.BracketVars a b (f a) (f b) None None []) = Some s ->
     eqb (sub (App.v_fb s) (App.v_fa s)) zero = false ->
     let c := regula_falsi_candidate s in
     (App.v_c_old s = None <-> k = 0%Z) /\
     if regula_falsi_stop_rule tol (f c) c (App.v_c_old s)
     then App.regula_falsi f a b max_iter tol =
          Return (c, absn (f c), (k + 1)%Z,
                  App.v_rows s ++ [bracket_new_row (k + 1) s c (f c)])
     else (exists s',
             after_passes (range 1 (k + 2)) (App.regula_falsi_body f tol)
               (App.BracketVars a b (f a) (f b) None None []) = Some s' /\
             App.v_c_old s' = Some c) /\
          returns_later (k + 1) max_iter (App.regula_falsi f a b max_iter tol)).
Proof.
  intros Hk Hvalid. split.
  - intros s Hs c. split.
    + apply (@first_pass_has_no_previous (App.bisection_body f tol)
               (App.BracketVars a b (f a) (f b) None None []));
        [|reflexivity|lia|exact Hs].
      intros j s2 s3 Hb. now rewrite (bisection_body_next _ _ _ _ Hb).
    + assert (Hcount : forall i s1,
                match App.bisection_body f tol i s1 with
                | Return (Done (_, _, iters, _)) => iters = i
                | _ => True
                end).
      { intros i s1. unfold App.bisection_body. split_tests; reflexivity. }
      destruct (@pass_decides (App.bisection_body f tol) f max_iter k _ s
                  Hk Hcount Hs) as [Hdone Hnext].
      pose proof (bisection_body_rule f tol (k + 1) s) as Hrule.
      cbv zeta in Hrule. fold c in Hrule.
      unfold App.bisection. rewrite Hvalid.
      destruct (bisection_stop_rule tol (f c) c (App.v_c_old s) (App.v_a s)
                  (App.v_b s)).
      * now apply Hdone.
      * destruct Hrule as (s' & Hb & Hold).
        destruct (Hnext s' Hb) as [Hafter Hlater]. eauto.
  - intros s Hs Hden c. split.
    + apply (@first_pass_has_no_previous (App.regula_falsi_body f tol)
               (App.BracketVars a b (f a) (f b) None None []));
        [|reflexivity|lia|exact Hs].
      intros j s2 s3 Hb. now rewrite (regula_falsi_body_next _ _ _ _ Hb).
    + assert (Hcount : forall i s1,
                match App.regula_falsi_body f tol i s1 with
                | Return (Done (_, _, iters, _)) => iters = i
                | _ => True
                end).
      { intros i s1. unfold App.regula_falsi_body, pdiv, bind.
        split_tests; reflexivity. }
      destruct (@pass_decides (App.regula_falsi_body f tol) f max_iter k _ s
                  Hk Hcount Hs) as [Hdone Hnext].
      pose proof (regula_falsi_body_rule f tol (k + 1) s Hden) as Hrule.
      cbv zeta in Hrule. fold c in Hrule.
      unfold App.regula_falsi. rewrite Hvalid.
      destruct (regula_falsi_stop_rule tol (f c) c (App.v_c_old s)).
      * now apply Hdone.
      * destruct Hrule as (s' & Hb & Hold).
        destruct (Hnext s' Hb) as [Hafter Hlater]. eauto.
Qed.

End StopRules.

(** ** Facts of the two arithmetics *)

Section Binary64Facts.
Import SpecFloat FloatOps FloatAxioms.

Lemma Prim2SF_zero : Prim2SF 0%float = S754_zero false.
Proof. reflexivity. Qed.

Lemma Prim2SF_infinity : Prim2SF infinity = S754_infinity false.
Proof. reflexivity. Qed.

Lemma AbsZero_IEEE : AbsZero IEEE.
Proof.
  intros x. cbn. rewrite !eqb_spec, abs_spec, Prim2SF_zero.
  destruct (Prim2SF x) as [s|s| |s m e]; try reflexivity; now destruct s.
Qed.

(** A finite binary64 number is a zero or has a mantissa and an exponent. *)
Lemma is_finite_cases (x : float) :
  is_finite x = true ->
  (exists s, Prim2SF x = S754_zero s) \/
  (exists s m e, Prim2SF x = S754_finite s m e).
Proof.
  unfold is_finite, is_nan, is_infinity.
  rewrite !eqb_spec, abs_spec, Prim2SF_infinity.
  destruct (Prim2SF x) as [s|s| |s m e]; eauto.
  - destruct s; cbn; intros H; discriminate.
  - cbn; intros H; discriminate.
Qed.

Lemma add_zero_mul_zero (delta : float) :
  is_finite delta = true -> (0 + delta * 0)%float = 0%float.
Proof.
  intros H. apply Prim2SF_inj.
  rewrite add_spec, mul_spec, Prim2SF_zero.
  destruct (is_finite_cases _ H) as [(s & ->)|(s & m & e & ->)];
    now destruct s.
Qed.

Lemma shl_align_same (m : positive) (e : Z) : shl_align m e e = (m, e).
Proof. unfold shl_align. now rewrite Z.sub_diag. Qed.

Lemma sub_self_is_zero (y : float) :
  is_finite y = true -> (y - y =? 0)%float = true.
Proof.
  intros H. rewrite eqb_spec, sub_spec, Prim2SF_zero.
  destruct (is_finite_cases _ H) as [(s & ->)|(s & m & e & ->)].
  - now destruct s.
  - unfold SF64sub, SFsub. rewrite Z.min_id, shl_align_same.
    cbn [fst]. rewrite Z.sub_diag. reflexivity.
Qed.

End Binary64Facts.

Section ExactFacts.
Local Open Scope R_scope.

Lemma Rltb_true (x y : R) : Rltb x y = true <-> x < y.
Proof. unfold Rltb. destruct (Rlt_dec x y); split; intros; try lra; congruence. Qed.

Lemma Rltb_false (x y : R) : Rltb x y = false <-> y <= x.
Proof. unfold Rltb. destruct (Rlt_dec x y); split; intros; try lra; congruence. Qed.

Lemma Reqb_true (x y : R) : Reqb x y = true <-> x = y.
Proof. unfold Reqb. destruct (Req_dec_T x y); split; intros; congruence. Qed.

Lemma Reqb_false (x y : R) : Reqb x y = false <-> x <> y.
Proof. unfold Reqb. destruct (Req_dec_T x y); split; intros; congruence. Qed.

Lemma AbsZero_Exact : AbsZero Exact.
Proof.
  intros x. cbn. unfold Reqb.
  destruct (Req_dec_T (Rabs x) 0) as [H|H], (Req_dec_T x 0) as [H'|H'];
    try reflexivity.
  - exfalso. now apply (Rabs_no_R0 x).
  - exfalso. apply H. rewrite H'. apply Rabs_R0.
Qed.


End ExactFacts.

(** ** Modified Secant started at zero *)

Section ZeroGuess.
Context {A : Arith}.

(** When perturbing [x0] gives [x0] back and [f(x0) - f(x0)] tests equal to
    zero, the first pass already fails, in both files. *)
Lemma modified_secant_degenerate_start (f : num -> num) (x0 delta tol : num)
    (max_iter : Z) :
  (1 <= max_iter)%Z ->
  add x0 (mul delta x0) = x0 ->
  eqb (sub (f x0) (f x0)) zero = true ->
  App.modified_secant f x0 delta max_iter tol =
    Raise (ValueError "Denominator zero in Modified Secant.") /\
  CLI.modified_secant f x0 delta max_iter tol = Raise (ZeroDivisionError None).
Proof.
  intros Hpos Hsame Hzero.
  unfold App.modified_secant, CLI.modified_secant.
  rewrite (@range_cons 1 (max_iter + 1)) by lia. cbn [for_each].
  unfold App.modified_secant_body, CLI.modified_secant_body, pdiv.
  cbn [App.m_x0 CLI.m_x0]. rewrite Hsame, Hzero. split; reflexivity.
Qed.

End ZeroGuess.

(** C10, as amended. Modified Secant called with x0 = 0 and max_iter >= 1
    never returns when delta and f(0) are finite: x0 + delta*x0 is x0 again,
    the denominator f(x0 + delta*x0) - f(x0) is exactly zero, and the first
    pass raises (ValueError in app.py, the division's ZeroDivisionError in
    ZOF_CLI.py).  Over the reals, where every number is finite, this holds for
    every f, delta and tol; in binary64 for every finite delta and every f
    whose value at 0 is finite. *)
Theorem modified_secant_zero_guess (max_iter : Z) :
  (1 <= max_iter)%Z ->
  (forall (f : R -> R) (delta tol : R),
     App.modified_secant (A := Exact) f 0%R delta max_iter tol =
       Raise (ValueError "Denominator zero in Modified Secant.") /\
     CLI.modified_secant (A := Exact) f 0%R delta max_iter tol =
       Raise (ZeroDivisionError None)) /\
  (forall (f : float -> float) (delta tol : float),
     is_finite delta = true ->
     is_finite (f 0%float) = true ->
     App.modified_secant (A := IEEE) f 0%float delta max_iter tol =
       Raise (ValueError "Denominator zero in Modified Secant.") /\
     CLI.modified_secant (A := IEEE) f 0%float delta max_iter tol =
       Raise (ZeroDivisionError None)).
Proof.
  intros Hpos. split.
  - intros f delta tol.
    apply (modified_secant_degenerate_start (A := Exact)); [exact Hpos| |]; cbn.
    + ring.
    + apply Reqb_true. ring.
  - intros f delta tol Hdelta Hf.
    apply (modified_secant_degenerate_start (A := IEEE)); [exact Hpos| |]; cbn.
    + now apply add_zero_mul_zero.
    + now apply sub_self_is_zero.
Qed.

(** ** Newton-Raphson: the residual that is tested *)

Section NewtonOldPoint.
Context {A : Arith}.



End NewtonOldPoint.


(** ** No check of max_iter and tol *)

Section NoValidation.
Context {A : Arith}.


End NoValidation.

(** ** Boundary values of max_iter *)

Section Boundaries.
Context {A : Arith}.

(** With max_iter = 1 a solver that does not fail returns after exactly one
    pass, with one row, whether or not its stopping test holds. *)
Theorem one_pass_one_row (f df g : num -> num) (a b x0 x1 delta tol : num) :
  (ltb zero (mul (f a) (f b)) = false ->
   let c := mul half (add a b) in
   App.bisection f a b 1 tol =
     Return (c, absn (f c), 1%Z, [(1%Z, a, b, c, f c, None)])) /\
  (ltb zero (mul (f a) (f b)) = false ->
   eqb (sub (f b) (f a)) zero = false ->
   let c := quot (sub (mul a (f b)) (mul b (f a))) (sub (f b) (f a)) in
   App.regula_falsi f a b 1 tol =
     Return (c, absn (f c), 1%Z, [(1%Z, a, b, c, f c, None)])) /\
  (eqb (sub (f x1) (f x0)) zero = false ->
   let x2 := sub x1 (quot (mul (f x1) (sub x1 x0)) (sub (f x1) (f x0))) in
   App.secant f x0 x1 1 tol =
     Return (x2, absn (f x2), 1%Z,
             [(1%Z, x0, x1, x2, f x2, absn (sub x2 x1))])) /\
  (eqb (df x0) zero = false ->
   let x1 := sub x0 (quot (f x0) (df x0)) in
   App.newton_raphson f df x0 1 tol =
     Return (x1, absn (f x1), 1%Z,
             [(1%Z, x0, f x0, df x0, x1, absn (sub x1 x0))])) /\
  (let x1 := g x0 in
   App.fixed_point_iteration g x0 1 tol =
     Return (x1, absn (sub x1 x0), 1%Z, [(1%Z, x0, x1, absn (sub x1 x0))])) /\
  (eqb (sub (f (add x0 (mul delta x0))) (f x0)) zero = false ->
   let x1 := sub x0 (quot (mul (mul delta x0) (f x0))
                          (sub (f (add x0 (mul delta x0))) (f x0))) in
   App.modified_secant f x0 delta 1 tol =
     Return (x1, absn (f x1), 1%Z, [(1%Z, x0, f x0, x1, absn (sub x1 x0))])).
Proof.
  unfold App.bisection, App.regula_falsi, App.secant, App.newton_raphson,
    App.fixed_point_iteration, App.modified_secant.
  change (range 1 (1 + 1)) with [1%Z]. cbn [for_each].
  unfold App.bisection_body, App.regula_falsi_body, App.secant_body,
    App.newton_raphson_body, App.fixed_point_iteration_body,
    App.modified_secant_body, pdiv.
  cbn [App.v_a App.v_b App.v_fa App.v_fb App.v_c_old App.v_c App.v_rows
       App.s_x0 App.s_x1 App.s_x2 App.s_rows App.n_x0 App.n_x1 App.n_rows
       App.p_x0 App.p_x1 App.p_err App.p_rows App.m_x0 App.m_x1 App.m_rows].
  repeat split; cbv zeta; intros;
    repeat match goal with H : _ = false |- _ => rewrite H; clear H end;
    cbn [bind]; split_tests; reflexivity.
Qed.

(** With max_iter <= 0 and a bracket that passes the sign test, the two
    files differ for Regula Falsi: ZOF_CLI.py assigned c = a before the loop
    and returns it, app.py did not and fails. *)
Theorem regula_falsi_zero_passes (f : num -> num) (a b tol : num) (max_iter : Z) :
  (max_iter <= 0)%Z ->
  ltb zero (mul (f a) (f b)) = false ->
  CLI.regula_falsi f a b max_iter tol = Return (a, absn (f a), max_iter) /\
  App.regula_falsi f a b max_iter tol = Raise (UnboundLocalError "c").
Proof.
  intros Hle Hsign. unfold CLI.regula_falsi, App.regula_falsi.
  rewrite Hsign, (@range_nil 1 (max_iter + 1)) by lia. split; reflexivity.
Qed.

End Boundaries.

(** ** A negative tolerance *)

Lemma abs_not_below_negative_binary64 (x tol : float) :
  PrimFloat.ltb tol 0%float = true ->
  PrimFloat.ltb (PrimFloat.abs x) tol = false.
Proof.
  rewrite !FloatAxioms.ltb_spec, FloatAxioms.abs_spec, Prim2SF_zero.
  destruct (FloatOps.Prim2SF tol) as [st|st| |st mt et];
    destruct (FloatOps.Prim2SF x) as [sx|sx| |sx mx ex];
    try destruct st; try discriminate; reflexivity.
Qed.

Lemma abs_not_below_negative_exact (x tol : R) :
  (tol < 0)%R -> Rltb (Rabs x) tol = false.
Proof.
  intros H. apply Rltb_false. pose proof (Rabs_pos x). lra.
Qed.

(** When no step error is below tol, Fixed-Point Iteration runs all its
    passes. *)
Lemma fixed_point_iteration_never_below {A : Arith} (g : num -> num)
    (x0 tol : num) (max_iter : Z) :
  (1 <= max_iter)%Z ->
  (forall x, ltb (absn x) tol = false) ->
  exists root res rows,
    App.fixed_point_iteration g x0 max_iter tol =
      Return (root, res, max_iter, rows).
Proof.
  intros Hpos Hnever. unfold App.fixed_point_iteration.
  assert (Hgen : forall idx s,
             (idx <> [] \/ (App.p_x1 s <> None /\ App.p_err s <> None)) ->
             exists root res rows,
               for_each idx (App.fixed_point_iteration_body g tol) s
                 (App.fixed_point_iteration_after max_iter) =
               Return (root, res, max_iter, rows)).
  { induction idx as [|i idx IH]; intros s Hs.
    - destruct Hs as [Hs|[Hs1 Hs2]]; [congruence|].
      cbn. unfold App.fixed_point_iteration_after.
      destruct (App.p_x1 s); [|congruence]. destruct (App.p_err s); [|congruence].
      cbn. eauto.
    - cbn [for_each]. unfold App.fixed_point_iteration_body.
      rewrite Hnever. cbn [bind]. apply IH. right. cbn. split; discriminate. }
  apply Hgen. left. rewrite (@range_cons 1 (max_iter + 1)) by lia. discriminate.
Qed.

(** With a negative tol Fixed-Point Iteration never converges: for an
    evaluator g that returns a number wherever it is called (one that raises
    is not an evaluator of this embedding), the call returns only after
    max_iter passes, over the reals and in binary64. *)
Theorem negative_tol_exhausts (max_iter : Z) :
  (1 <= max_iter)%Z ->
  (forall (g : R -> R) (x0 tol : R), (tol < 0)%R ->
     exists root res rows,
       App.fixed_point_iteration (A := Exact) g x0 max_iter tol =
         Return (root, res, max_iter, rows)) /\
  (forall (g : float -> float) (x0 tol : float),
     PrimFloat.ltb tol 0%float = true ->
     exists root res rows,
       App.fixed_point_iteration (A := IEEE) g x0 max_iter tol =
         Return (root, res, max_iter, rows)).
Proof.
  intros Hpos. split.
  - intros g x0 tol Hneg.
    apply (fixed_point_iteration_never_below (A := Exact)); [exact Hpos|].
    intros x. now apply abs_not_below_negative_exact.
  - intros g x0 tol Hneg.
    apply (fixed_point_iteration_never_below (A := IEEE)); [exact Hpos|].
    intros x. now apply abs_not_below_negative_binary64.
Qed.

(** ** Bracketing methods over the reals *)

Section ExactBracket.
Local Open Scope R_scope.

Lemma false_position_weight (fa fb : R) :
  fa * fb <= 0 -> fb - fa <> 0 ->
  0 <= - fa / (fb - fa) <= 1.
Proof.
  intros Hsign Hden.
  set (D := fb - fa) in *.
  assert (HD2 : 0 < D * D) by (apply Rsqr_pos_lt in Hden; exact Hden).
  assert (Ht : - fa / D = (- fa * D) * / (D * D)) by (field; exact Hden).
  assert (Hinv : 0 < / (D * D)) by now apply Rinv_0_lt_compat.
  rewrite Ht. split.
  - apply Rmult_le_pos; [unfold D; nra|lra].
  - apply (Rmult_le_reg_r (D * D)); [exact HD2|].
    rewrite Rmult_assoc, Rinv_l by lra. unfold D. nra.
Qed.

(** The false-position point of a bracket with a sign change lies in it. *)
Lemma false_position_between (a b fa fb : R) :
  fa * fb <= 0 -> fb - fa <> 0 ->
  Rmin a b <= (a * fb - b * fa) / (fb - fa) <= Rmax a b.
Proof.
  intros Hsign Hden.
  pose proof (false_position_weight Hsign Hden) as Ht.
  set (t := - fa / (fb - fa)) in *.
  replace ((a * fb - b * fa) / (fb - fa)) with (a + t * (b - a))
    by (unfold t; field; exact Hden).
  unfold Rmin, Rmax. destruct (Rle_dec a b); nra.
Qed.

Lemma false_position_left_root (a b fb : R) :
  fb - 0 <> 0 -> (a * fb - b * 0) / (fb - 0) = a.
Proof. intros H. field. lra. Qed.

Lemma same_sign_transfer (fa fb fc : R) :
  fa * fb <= 0 -> 0 <= fa * fc -> fa <> 0 -> fc <> 0 -> fc * fb <= 0.
Proof.
  intros Hab Hac Ha Hc.
  assert (H2 : 0 < fa * fa) by (apply Rsqr_pos_lt in Ha; exact Ha).
  assert (Hpos : 0 < fa * fc).
  { destruct Hac as [Hac|Hac]; [exact Hac|].
    symmetry in Hac. apply Rmult_integral in Hac. tauto. }
  destruct (Rle_dec (fc * fb) 0) as [H|H]; [exact H|].
  exfalso. assert (0 < fc * fb) by lra. nra.
Qed.

Variable f : R -> R.
Variable tol : R.
Variables lo hi : R.

Lemma bisection_body_in_range (i : Z) (s : App.bracket_vars (A := Exact)) :
  in_range lo hi s ->
  match App.bisection_body (A := Exact) f tol i s with
  | Return (Next s') => in_range lo hi s'
  | Return (Done v) => root_within lo hi (Return v)
  | Raise e => True
  end.
Proof.
  intros (Ha & Hb & Hc). unfold App.bisection_body. cbn [absn eqb ltb mul add
    sub half zero two quot Exact].
  split_tests; cbn; unfold in_range; cbn; repeat split; try lra;
    match goal with H : Some _ = Some _ |- _ => injection H as <-; lra end.
Qed.

Lemma regula_falsi_body_in_range (i : Z) (s : App.bracket_vars (A := Exact)) :
  in_range lo hi s /\ sign_change f s ->
  match App.regula_falsi_body (A := Exact) f tol i s with
  | Return (Next s') => in_range lo hi s' /\ sign_change f s'
  | Return (Done v) => root_within lo hi (Return v)
  | Raise e => True
  end.
Proof.
  intros ((Ha & Hb & Hc) & (Hfa & Hfb & Hsign)).
  unfold App.regula_falsi_body, pdiv.
  cbn [absn eqb ltb mul add sub half zero two quot Exact].
  destruct (Reqb (App.v_fb s - App.v_fa s) 0) eqn:Hden; cbn [bind]; [exact I|].
  apply Reqb_false in Hden.
  pose proof (false_position_between (App.v_a s) (App.v_b s) Hsign Hden) as Hbetween.
  set (c := (App.v_a s * App.v_fb s - App.v_b s * App.v_fa s) /
            (App.v_fb s - App.v_fa s)) in *.
  assert (Hin : lo <= c <= hi).
  { revert Hbetween. unfold Rmin, Rmax.
    destruct (Rle_dec (App.v_a s) (App.v_b s)); lra. }
  destruct (Reqb (Rabs (f c)) 0 || _) eqn:Hstop; [exact Hin|].
  apply orb_false_elim in Hstop as [Hfc _].
  apply Reqb_false in Hfc.
  assert (Hfc0 : f c <> 0) by (intros E; apply Hfc; rewrite E; apply Rabs_R0).
  destruct (Rltb (App.v_fa s * f c) 0) eqn:Hlt.
  - apply Rltb_true in Hlt.
    unfold in_range, sign_change. cbn. repeat split; try lra;
      match goal with H : Some _ = Some _ |- _ => injection H as <-; lra end.
  - apply Rltb_false in Hlt.
    assert (Hfa0 : App.v_fa s <> 0).
    { intros E. apply Hfc0.
      assert (Hc0 : c = App.v_a s).
      { unfold c. rewrite E. apply false_position_left_root.
        rewrite E in Hden. exact Hden. }
      rewrite Hc0, <- Hfa. exact E. }
    pose proof (same_sign_transfer Hsign Hlt Hfa0 Hfc0) as Hnew.
    unfold in_range, sign_change. cbn. repeat split; try lra;
      match goal with H : Some _ = Some _ |- _ => injection H as <-; lra end.
Qed.

Lemma bracket_after_in_range (max_iter : Z) (s : App.bracket_vars (A := Exact)) :
  in_range lo hi s ->
  root_within lo hi (App.bracket_after (A := Exact) f max_iter s).
Proof.
  intros (_ & _ & Hc). unfold App.bracket_after.
  destruct (App.v_c s) as [c|]; cbn; [|exact I]. now apply Hc.
Qed.


End ExactBracket.

Section ExactBracketTheorems.
Local Open Scope R_scope.

(** C4, as amended. In exact real arithmetic: for every evaluator f and
    every bracket (a,b) with f(a)*f(b) <= 0, a root estimate returned by
    Bisection or by Regula Falsi lies in [min(a,b), max(a,b)]. *)
Theorem returned_root_in_bracket (f : R -> R) (a b : R) (max_iter : Z) (tol : R) :
  f a * f b <= 0 ->
  root_within (Rmin a b) (Rmax a b) (App.bisection (A := Exact) f a b max_iter tol) /\
  root_within (Rmin a b) (Rmax a b)
    (App.regula_falsi (A := Exact) f a b max_iter tol).
Proof.
  intros Hsign.
  assert (Hstart : in_range (Rmin a b) (Rmax a b)
                     (App.BracketVars (A := Exact) a b (f a) (f b) None None [])).
  { unfold in_range, Rmin, Rmax. cbn.
    destruct (Rle_dec a b); repeat split; try lra; discriminate. }
  unfold App.bisection, App.regula_falsi. cbn [ltb mul zero Exact].
  destruct (Rltb 0 (f a * f b)); [split; exact I|]. split.
  - apply (for_each_rule _ _ (fun _ s => in_range (Rmin a b) (Rmax a b) s)
             (root_within (Rmin a b) (Rmax a b))).
    + intros i idx s Hs. pose proof (bisection_body_in_range f tol i Hs) as Hb.
      destruct (App.bisection_body (A := Exact) f tol i s) as [[s'|v]|e]; auto.
    + intros s Hs. now apply bracket_after_in_range.
    + exact Hstart.
  - apply (for_each_rule _ _
             (fun _ s => in_range (Rmin a b) (Rmax a b) s /\ sign_change f s)
             (root_within (Rmin a b) (Rmax a b))).
    + intros i idx s Hs.
      pose proof (regula_falsi_body_in_range tol i Hs) as Hb.
      destruct (App.regula_falsi_body (A := Exact) f tol i s) as [[s'|v]|e]; auto.
    + intros s [Hs _]. now apply bracket_after_in_range.
    + split; [exact Hstart|]. unfold sign_change. cbn. auto.
Qed.


End ExactBracketTheorems.

(** ** Why a run ended *)

Section StopsAtLast.
Context {A : Arith} {S row : Type}.
Variable rows_of : S -> list row.
Variable var : S -> option num.
Variable stops : row -> bool.
Variable body : Z -> S -> outcome (flow S (App.result row)).
Variable after : S -> outcome (App.result row).
Variable max_iter : Z.

(** A pass appends one row; it returns when the test holds on that row and
    falls through when it does not. *)
Hypothesis body_tests : forall i s,
  match body i s with
  | Return (Next s') =>
      exists r, rows_of s' = rows_of s ++ [r] /\ stops r = false /\ var s' <> None
  | Return (Done (_, _, iters, rows)) =>
      iters = i /\ exists r, rows = rows_of s ++ [r] /\ stops r = true
  | Raise _ => True
  end.

Hypothesis after_reads : forall s,
  match after s with
  | Return (_, _, iters, rows) =>
      iters = max_iter /\ rows = rows_of s /\ var s <> None
  | Raise _ => True
  end.

Lemma for_each_stops_at_last (s0 : S) :
  rows_of s0 = [] -> var s0 = None ->
  stops_at_last stops max_iter (for_each (range 1 (max_iter + 1)) body s0 after).
Proof.
  intros Hrows Hvar.
  apply (for_each_rule body after (stops_inv rows_of var stops max_iter)
           (stops_at_last stops max_iter)).
  - intros i idx s (Hidx & Hall & Hshape).
    symmetry in Hidx. apply range_cons_inv in Hidx as (Hi & Hidx & Hlt).
    pose proof (body_tests i s) as Hb.
    destruct (body i s) as [[s'|[[[root res] iters] rows]]|e]; cbn; auto.
    + destruct Hb as (r & Hr & Hstop & Hv). unfold stops_inv.
      rewrite Hr, length_app. cbn [List.length]. split; [|split].
      * rewrite Hidx. f_equal. lia.
      * apply Forall_app. split; [assumption|]. constructor; [exact Hstop|constructor].
      * right. lia.
    + destruct Hb as (-> & r & -> & Hstop). split; [lia|].
      exists (rows_of s), r. auto.
  - intros s (Hidx & Hall & Hshape).
    symmetry in Hidx. apply range_nil_inv in Hidx.
    pose proof (after_reads s) as Ha.
    destruct (after s) as [[[[root res] iters] rows]|e]; cbn; auto.
    destruct Ha as (-> & -> & Hv).
    destruct Hshape as [[_ Hnone]|Hle]; [congruence|].
    split; [lia|].
    destruct (rows_of s) as [|r0 rest] eqn:E using rev_ind.
    + cbn in Hle. lia.
    + exists rest, r0. apply Forall_app in Hall as [Hall _]. auto.
  - unfold stops_inv. rewrite Hrows. cbn. repeat split; auto.
Qed.

End StopsAtLast.

Section StopsTheorem.
Context {A : Arith}.

(** A solver of app.py that returns made between 1 and max_iter passes, and
    its trace tells why it ended: the stopping test of the method is false on
    every row but the last, and true on the last row unless the run used up
    max_iter.  The test is read off the row: f(c) == 0, err < tol or
    |b - a| / 2 < tol for Bisection; the first two for Regula Falsi;
    f(x2) == 0 or err < tol for Secant; f(x) == 0 or err < tol for
    Newton-Raphson; err < tol for Fixed-Point and Modified Secant. *)
Theorem trace_stops_at_first_hit (f df g : num -> num) (a b x0 x1 delta : num)
    (max_iter : Z) (tol : num) :
  stops_at_last (bisection_row_stops tol) max_iter
    (App.bisection f a b max_iter tol) /\
  stops_at_last (regula_falsi_row_stops tol) max_iter
    (App.regula_falsi f a b max_iter tol) /\
  stops_at_last (secant_row_stops tol) max_iter
    (App.secant f x0 x1 max_iter tol) /\
  stops_at_last (newton_row_stops tol) max_iter
    (App.newton_raphson f df x0 max_iter tol) /\
  stops_at_last (fixed_row_stops tol) max_iter
    (App.fixed_point_iteration g x0 max_iter tol) /\
  stops_at_last (modsec_row_stops tol) max_iter
    (App.modified_secant f x0 delta max_iter tol).
Proof.
  repeat split.
  - unfold App.bisection. destruct (ltb zero (mul (f a) (f b))); cbn; [exact I|].
    apply for_each_stops_at_last with (rows_of := App.v_rows) (var := App.v_c);
      try reflexivity; stop_pass.
  - unfold App.regula_falsi. destruct (ltb zero (mul (f a) (f b))); cbn; [exact I|].
    apply for_each_stops_at_last with (rows_of := App.v_rows) (var := App.v_c);
      try reflexivity; stop_pass.
  - apply for_each_stops_at_last with (rows_of := App.s_rows) (var := App.s_x2);
      try reflexivity; stop_pass.
  - apply for_each_stops_at_last with (rows_of := App.n_rows) (var := App.n_x1);
      try reflexivity; stop_pass.
  - apply for_each_stops_at_last with (rows_of := App.p_rows) (var := App.p_x1);
      try reflexivity; stop_pass.
  - apply for_each_stops_at_last with (rows_of := App.m_rows) (var := App.m_x1);
      try reflexivity; stop_pass.
Qed.

(** The five solvers that are given f report |f(root)| as the residual, f
    evaluated at the very root they return, in both files and whether the run
    converged or used up max_iter (Fixed-Point Iteration alone reports the
    step error). *)
Theorem residual_is_abs_f_at_root (f df : num -> num) (a b x0 x1 delta : num)
    (max_iter : Z) (tol : num) :
  (residual_at_root f (App.bisection f a b max_iter tol) /\
   residual_at_root f (App.regula_falsi f a b max_iter tol) /\
   residual_at_root f (App.secant f x0 x1 max_iter tol) /\
   residual_at_root f (App.newton_raphson f df x0 max_iter tol) /\
   residual_at_root f (App.modified_secant f x0 delta max_iter tol)) /\
  (residual_at_root_cli f (CLI.bisection f a b max_iter tol) /\
   residual_at_root_cli f (CLI.regula_falsi f a b max_iter tol) /\
   residual_at_root_cli f (CLI.secant f x0 x1 max_iter tol) /\
   residual_at_root_cli f (CLI.newton_raphson f df x0 max_iter tol) /\
   residual_at_root_cli f (CLI.modified_secant f x0 delta max_iter tol)).
Proof.
  unfold App.bisection, App.regula_falsi, CLI.bisection, CLI.regula_falsi,
    App.secant, App.newton_raphson, App.modified_secant,
    CLI.secant, CLI.newton_raphson, CLI.modified_secant.
  destruct (ltb zero (mul (f a) (f b)));
    cbn [residual_at_root residual_at_root_cli];
    repeat split;
    try (apply (for_each_rule _ _ (fun _ _ => True));
         [residual_pass|residual_pass|exact I]).
Qed.

End StopsTheorem.

(** ** Rows that follow one another *)

Lemma chained_snoc {row : Type} (link : row -> row -> Prop)
    (earlier : list row) (final r : row) :
  chained link (earlier ++ [final]) -> link final r ->
  chained link ((earlier ++ [final]) ++ [r]).
Proof.
  intros Hch Hlink. induction earlier as [|r0 earlier IH].
  - cbn. auto.
  - destruct earlier as [|r1 earlier].
    + cbn in *. tauto.
    + cbn [app chained] in *. destruct Hch as [H0 Hch]. split; [exact H0|].
      now apply IH.
Qed.

Lemma trace_chained_snoc {row K : Type} (start : K) (row_in : row -> K)
    (hands : row -> K -> Prop) (rows : list row) (k : K) (r : row) :
  trace_chained start row_in hands rows ->
  ((rows = [] /\ k = start) \/
   exists earlier final, rows = earlier ++ [final] /\ hands final k) ->
  row_in r = k ->
  trace_chained start row_in hands (rows ++ [r]).
Proof.
  intros Hch Hshape Hin.
  destruct Hshape as [[-> ->]|(earlier & final & -> & Hhands)].
  - cbn. auto.
  - assert (Hne : exists r0 rest, earlier ++ [final] = r0 :: rest).
    { destruct earlier; cbn; eauto. }
    destruct Hne as (r0 & rest & E).
    unfold trace_chained in *. rewrite E in *. cbn [app].
    destruct Hch as [H0 Hch]. split; [exact H0|].
    change (r0 :: rest ++ [r]) with ((r0 :: rest) ++ [r]).
    rewrite <- E in *. apply chained_snoc; [exact Hch|]. now rewrite Hin.
Qed.

Section Chain.
Context {A : Arith} {S row K : Type}.
Variable rows_of : S -> list row.
Variable head_of : S -> K.
Variable start : K.
Variable row_in : row -> K.
Variable hands : row -> K -> Prop.
Variable body : Z -> S -> outcome (flow S (App.result row)).
Variable after : S -> outcome (App.result row).

(** A pass writes the values it starts from into its row; when it falls
    through, the row hands over the values of the next pass. *)
Hypothesis body_hands : forall i s,
  match body i s with
  | Return (Next s') =>
      exists r, rows_of s' = rows_of s ++ [r] /\ row_in r = head_of s /\
                hands r (head_of s')
  | Return (Done (_, _, _, rows)) =>
      exists r, rows = rows_of s ++ [r] /\ row_in r = head_of s
  | Raise _ => True
  end.

Hypothesis after_reads : forall s,
  match after s with
  | Return (_, _, _, rows) => rows = rows_of s
  | Raise _ => True
  end.

Lemma for_each_chained (idx : list Z) (s0 : S) :
  rows_of s0 = [] -> head_of s0 = start ->
  returns_chained start row_in hands (for_each idx body s0 after).
Proof.
  intros Hrows Hhead.
  apply (for_each_rule body after
           (fun _ s => chain_inv rows_of head_of start row_in hands s)
           (returns_chained start row_in hands)).
  - intros i idx' s (Hch & Hshape).
    pose proof (body_hands i s) as Hb.
    destruct (body i s) as [[s'|[[[root res] iters] rows]]|e]; cbn; auto.
    + destruct Hb as (r & Hr & Hin & Hout). unfold chain_inv. rewrite Hr. split.
      * now apply trace_chained_snoc with (k := head_of s).
      * right. eauto.
    + destruct Hb as (r & -> & Hin).
      now apply trace_chained_snoc with (k := head_of s).
  - intros s (Hch & _). pose proof (after_reads s) as Ha.
    destruct (after s) as [[[[root res] iters] rows]|e]; cbn; auto.
    now subst rows.
  - unfold chain_inv. rewrite Hrows. cbn. auto.
Qed.

End Chain.

Section ChainTheorem.
Context {A : Arith}.

(** The rows of a returned trace follow one another.  The first row starts
    from the values the caller gave: the bracket (a, b), the guesses
    (x0, x1), or x0.  Each later row starts from what the row before left:
    for Bisection and Regula Falsi the bracket (a, c) or (c, b) of the row
    before, for Secant the pair (x1, x2), for Newton-Raphson, Fixed-Point and
    Modified Secant the new estimate. *)
Theorem trace_is_chained (f df g : num -> num) (a b x0 x1 delta : num)
    (max_iter : Z) (tol : num) :
  returns_chained (a, b) bracket_row_in bracket_row_hands
    (App.bisection f a b max_iter tol) /\
  returns_chained (a, b) bracket_row_in bracket_row_hands
    (App.regula_falsi f a b max_iter tol) /\
  returns_chained (x0, x1) secant_row_in secant_row_hands
    (App.secant f x0 x1 max_iter tol) /\
  returns_chained x0 newton_row_in newton_row_hands
    (App.newton_raphson f df x0 max_iter tol) /\
  returns_chained x0 fixed_row_in fixed_row_hands
    (App.fixed_point_iteration g x0 max_iter tol) /\
  returns_chained x0 modsec_row_in modsec_row_hands
    (App.modified_secant f x0 delta max_iter tol).
Proof.
  repeat split.
  - unfold App.bisection. destruct (ltb zero (mul (f a) (f b))); cbn; [exact I|].
    apply for_each_chained with (rows_of := App.v_rows) (head_of := bracket_head);
      try reflexivity; chain_pass.
  - unfold App.regula_falsi. destruct (ltb zero (mul (f a) (f b))); cbn; [exact I|].
    apply for_each_chained with (rows_of := App.v_rows) (head_of := bracket_head);
      try reflexivity; chain_pass.
  - apply for_each_chained with (rows_of := App.s_rows) (head_of := secant_head);
      try reflexivity; chain_pass.
  - apply for_each_chained with (rows_of := App.n_rows) (head_of := App.n_x0);
      try reflexivity; chain_pass.
  - apply for_each_chained with (rows_of := App.p_rows) (head_of := App.p_x0);
      try reflexivity; chain_pass.
  - apply for_each_chained with (rows_of := App.m_rows) (head_of := App.m_x0);
      try reflexivity; chain_pass.
Qed.

End ChainTheorem.

(** ** Loops that cannot fail *)

Section ReturnsTheorem.
Context {A : Arith}.


End ReturnsTheorem.

(** ** Bisection and a zero at the left end, over the reals *)

Section LeftEndZero.
Local Open Scope R_scope.


End LeftEndZero.

(** ** Regula Falsi: the division *)

Section Binary64Zeros.
Import SpecFloat FloatOps FloatAxioms.

(** A binary64 number that tests equal to 0 is one of the two zeros. *)
Lemma eqb_zero_cases (x : float) :
  (x =? 0)%float = true -> exists s, Prim2SF x = S754_zero s.
Proof.
  rewrite eqb_spec, Prim2SF_zero.
  destruct (Prim2SF x) as [s|s| |s m e]; eauto;
    first [discriminate | destruct s; discriminate].
Qed.

(** Two zeros pass the bracket test and differ by a zero. *)
Lemma zeros_pass_then_fail (x y : float) :
  (x =? 0)%float = true -> (y =? 0)%float = true ->
  (0 <? x * y)%float = false /\ (y - x =? 0)%float = true.
Proof.
  intros Hx Hy.
  destruct (@eqb_zero_cases _ Hx) as (sx & Ex).
  destruct (@eqb_zero_cases _ Hy) as (sy & Ey).
  rewrite ltb_spec, eqb_spec, mul_spec, sub_spec, Prim2SF_zero, Ex, Ey.
  destruct sx, sy; split; reflexivity.
Qed.

(** Adding [0 * x] to a finite [x] gives [x] back, bit for bit. *)
Lemma add_zero_times_self (x : float) :
  is_finite x = true -> (x + 0 * x)%float = x.
Proof.
  intros H. apply Prim2SF_inj.
  rewrite add_spec, mul_spec, Prim2SF_zero.
  destruct (is_finite_cases _ H) as [(s & ->)|(s & m & e & ->)];
    now destruct s.
Qed.

End Binary64Zeros.

Section DegenerateStarts.
Context {A : Arith}.

Lemma secant_degenerate_start (f : num -> num) (x0 x1 tol : num) (max_iter : Z) :
  (1 <= max_iter)%Z ->
  eqb (sub (f x1) (f x0)) zero = true ->
  App.secant f x0 x1 max_iter tol = Raise (ValueError "Zero denominator in Secant.") /\
  CLI.secant f x0 x1 max_iter tol =
    Raise (ZeroDivisionError (Some "Division by zero in Secant denominator."%string)).
Proof.
  intros Hpos Hzero. unfold App.secant, CLI.secant.
  rewrite (@range_cons 1 (max_iter + 1)) by lia. cbn [for_each].
  unfold App.secant_body, CLI.secant_body.
  cbn [App.s_x0 App.s_x1 CLI.s_x0 CLI.s_x1]. rewrite Hzero. split; reflexivity.
Qed.

Lemma regula_falsi_degenerate_start (f : num -> num) (a b tol : num)
    (max_iter : Z) :
  (1 <= max_iter)%Z ->
  ltb zero (mul (f a) (f b)) = false ->
  eqb (sub (f b) (f a)) zero = true ->
  App.regula_falsi f a b max_iter tol = Raise (ZeroDivisionError None) /\
  CLI.regula_falsi f a b max_iter tol = Raise (ZeroDivisionError None).
Proof.
  intros Hpos Htest Hzero. unfold App.regula_falsi, CLI.regula_falsi.
  rewrite Htest, (@range_cons 1 (max_iter + 1)) by lia. cbn [for_each].
  unfold App.regula_falsi_body, CLI.regula_falsi_body, pdiv.
  cbn [App.v_a App.v_b App.v_fa App.v_fb CLI.v_a CLI.v_b CLI.v_fa CLI.v_fb].
  rewrite Hzero. split; reflexivity.
Qed.

End DegenerateStarts.

(** The unguarded division of Regula Falsi, with max_iter >= 1.  When both
    ends of the bracket are zeros of f the bracket test passes and the first
    pass divides by f(b) - f(a) = 0: the call ends with the interpreter's
    ZeroDivisionError, in both files, over the reals and in binary64 (where
    a zero is +0 or -0). *)
Theorem regula_falsi_division (max_iter : Z) :
  (1 <= max_iter)%Z ->
  (forall (f : R -> R) (a b tol : R),
     f a = 0%R -> f b = 0%R ->
     App.regula_falsi (A := Exact) f a b max_iter tol =
       Raise (ZeroDivisionError None) /\
     CLI.regula_falsi (A := Exact) f a b max_iter tol =
       Raise (ZeroDivisionError None)) /\
  (forall (f : float -> float) (a b tol : float),
     (f a =? 0)%float = true ->
     (f b =? 0)%float = true ->
     App.regula_falsi (A := IEEE) f a b max_iter tol =
       Raise (ZeroDivisionError None) /\
     CLI.regula_falsi (A := IEEE) f a b max_iter tol =
       Raise (ZeroDivisionError None)).
Proof.
  intros Hpos. split.
  - intros f a b tol Ha Hb.
    apply (regula_falsi_degenerate_start (A := Exact)); [exact Hpos| |]; cbn.
    + apply Rltb_false. rewrite Ha, Hb. lra.
    + apply Reqb_true. rewrite Ha, Hb. lra.
  - intros f a b tol Ha Hb.
    destruct (@zeros_pass_then_fail _ _ Ha Hb) as [Htest Hzero].
    now apply (regula_falsi_degenerate_start (A := IEEE)).
Qed.

(** ** Starts that fail in the first pass *)

(** Secant started with x0 = x1 fails in its first pass when max_iter >= 1:
    the denominator f(x1) - f(x0) is zero (ValueError in app.py,
    ZeroDivisionError in ZOF_CLI.py).  Over the reals for every f; in
    binary64 for every f whose value at the guess is finite. *)
Theorem secant_equal_guesses (max_iter : Z) :
  (1 <= max_iter)%Z ->
  (forall (f : R -> R) (x tol : R),
     App.secant (A := Exact) f x x max_iter tol =
       Raise (ValueError "Zero denominator in Secant.") /\
     CLI.secant (A := Exact) f x x max_iter tol =
       Raise (ZeroDivisionError
                (Some "Division by zero in Secant denominator."%string))) /\
  (forall (f : float -> float) (x tol : float),
     is_finite (f x) = true ->
     App.secant (A := IEEE) f x x max_iter tol =
       Raise (ValueError "Zero denominator in Secant.") /\
     CLI.secant (A := IEEE) f x x max_iter tol =
       Raise (ZeroDivisionError
                (Some "Division by zero in Secant denominator."%string))).
Proof.
  intros Hpos. split.
  - intros f x tol.
    apply (secant_degenerate_start (A := Exact)); [exact Hpos|]. cbn.
    apply Reqb_true. ring.
  - intros f x tol Hf.
    apply (secant_degenerate_start (A := IEEE)); [exact Hpos|]. cbn.
    now apply sub_self_is_zero.
Qed.

(** Modified Secant called with delta = 0 fails in its first pass when
    max_iter >= 1, whatever the guess: the perturbed point x0 + 0*x0 is x0, so
    the denominator is zero (ValueError in app.py, the division's
    ZeroDivisionError in ZOF_CLI.py).  Over the reals for every f and x0; in
    binary64 for every finite x0 and every f whose value at x0 is finite. *)
Theorem modified_secant_zero_delta (max_iter : Z) :
  (1 <= max_iter)%Z ->
  (forall (f : R -> R) (x0 tol : R),
     App.modified_secant (A := Exact) f x0 0%R max_iter tol =
       Raise (ValueError "Denominator zero in Modified Secant.") /\
     CLI.modified_secant (A := Exact) f x0 0%R max_iter tol =
       Raise (ZeroDivisionError None)) /\
  (forall (f : float -> float) (x0 tol : float),
     is_finite x0 = true ->
     is_finite (f x0) = true ->
     App.modified_secant (A := IEEE) f x0 0%float max_iter tol =
       Raise (ValueError "Denominator zero in Modified Secant.") /\
     CLI.modified_secant (A := IEEE) f x0 0%float max_iter tol =
       Raise (ZeroDivisionError None)).
Proof.
  intros Hpos. split.
  - intros f x0 tol.
    apply (modified_secant_degenerate_start (A := Exact)); [exact Hpos| |]; cbn.
    + ring.
    + apply Reqb_true. ring.
  - intros f x0 tol Hx Hf.
    apply (modified_secant_degenerate_start (A := IEEE)); [exact Hpos| |]; cbn.
    + now apply add_zero_times_self.
    + now apply sub_self_is_zero.
Qed.

(** ** Fixed-point iteration of a contraction *)

Section Contraction.
Local Open Scope R_scope.


End Contraction.

(** ** No pass at all *)

Section WithoutPasses.
Context {A : Arith}.


Lemma app_without_passes (f df g : num -> num) (a b x0 x1 delta tol : num)
    (max_iter : Z) :
  (max_iter <= 0)%Z ->
  (ltb zero (mul (f a) (f b)) = false ->
   App.bisection f a b max_iter tol = Raise (UnboundLocalError "c") /\
   App.regula_falsi f a b max_iter tol = Raise (UnboundLocalError "c")) /\
  App.secant f x0 x1 max_iter tol = Raise (UnboundLocalError "x2") /\
  App.newton_raphson f df x0 max_iter tol = Raise (UnboundLocalError "x1") /\
  App.fixed_point_iteration g x0 max_iter tol = Raise (UnboundLocalError "x1") /\
  App.modified_secant f x0 delta max_iter tol = Raise (UnboundLocalError "x1").
Proof.
  intros Hle.
  unfold App.bisection, App.regula_falsi, App.secant, App.newton_raphson,
    App.fixed_point_iteration, App.modified_secant.
  rewrite (@range_nil 1 (max_iter + 1)) by lia. cbn.
  split; [intros Hsign; rewrite Hsign; split; reflexivity|repeat split].
Qed.

End WithoutPasses.

(** ** The prompts of ZOF_CLI.py *)

Section ConsoleFacts.
Context {A : Arith}.
Variable float_of : string -> option num.
Variable int_of : string -> option Z.
Variable strip : string -> string.
Variable lambdify_with_derivative :
  string -> string + (num -> num) * (num -> num).
Variable lambdify : string -> string + (num -> num).

Lemma safe_float_skips (bad : list string) (good : string) (rest : list string)
    (v : num) (fuel : nat) :
  Forall (fun text => float_of text = None) bad ->
  float_of good = Some v ->
  (List.length bad < fuel)%nat ->
  Console.safe_float float_of fuel (bad ++ good :: rest) = Console.Got v rest.
Proof.
  intros Hbad Hgood. revert fuel.
  induction Hbad as [|text bad Htext Hbad IH]; intros fuel Hfuel.
  - destruct fuel as [|fuel]; [cbn in Hfuel; lia|]. cbn. now rewrite Hgood.
  - destruct fuel as [|fuel]; [cbn in Hfuel; lia|]. cbn. rewrite Htext.
    apply IH. cbn in Hfuel. lia.
Qed.

Lemma safe_int_skips (bad : list string) (good : string) (rest : list string)
    (v : Z) (fuel : nat) :
  Forall (fun text => int_of text = None) bad ->
  int_of good = Some v ->
  (List.length bad < fuel)%nat ->
  Console.safe_int int_of fuel (bad ++ good :: rest) = Console.Got v rest.
Proof.
  intros Hbad Hgood. revert fuel.
  induction Hbad as [|text bad Htext Hbad IH]; intros fuel Hfuel.
  - destruct fuel as [|fuel]; [cbn in Hfuel; lia|]. cbn. now rewrite Hgood.
  - destruct fuel as [|fuel]; [cbn in Hfuel; lia|]. cbn. rewrite Htext.
    apply IH. cbn in Hfuel. lia.
Qed.

Lemma safe_float_starved (stdin : list string) (fuel : nat) :
  Forall (fun text => float_of text = None) stdin ->
  Console.safe_float float_of fuel stdin =
  Console.End Console.Asking (skipn fuel stdin).
Proof.
  revert stdin. induction fuel as [|fuel IH]; intros stdin Hbad.
  - reflexivity.
  - destruct Hbad as [|text stdin Htext Hbad]; cbn.
    + rewrite (IH [] (Forall_nil _)). now rewrite skipn_nil.
    + rewrite Htext. now apply IH.
Qed.

Lemma safe_int_starved (stdin : list string) (fuel : nat) :
  Forall (fun text => int_of text = None) stdin ->
  Console.safe_int int_of fuel stdin =
  Console.End Console.Asking (skipn fuel stdin).
Proof.
  revert stdin. induction fuel as [|fuel IH]; intros stdin Hbad.
  - reflexivity.
  - destruct Hbad as [|text stdin Htext Hbad]; cbn.
    + rewrite (IH [] (Forall_nil _)). now rewrite skipn_nil.
    + rewrite Htext. now apply IH.
Qed.

(** The prompts end a run in one way only: by running out of fuel. *)
Lemma safe_float_ends (fuel : nat) (stdin rest : list string) (e : Console.ending) :
  Console.safe_float float_of fuel stdin = Console.End e rest ->
  e = Console.Asking.
Proof.
  revert stdin. induction fuel as [|fuel IH]; intros stdin; cbn.
  - intros H. now inversion H.
  - destruct stdin as [|text stdin]; cbn; [apply IH|].
    destruct (float_of text); [discriminate|apply IH].
Qed.

Lemma safe_int_ends (fuel : nat) (stdin rest : list string) (e : Console.ending) :
  Console.safe_int int_of fuel stdin = Console.End e rest ->
  e = Console.Asking.
Proof.
  revert stdin. induction fuel as [|fuel IH]; intros stdin; cbn.
  - intros H. now inversion H.
  - destruct stdin as [|text stdin]; cbn; [apply IH|].
    destruct (int_of text); [discriminate|apply IH].
Qed.

Lemma safe_int_first (text : string) (rest : list string) (n : Z) (fuel : nat) :
  int_of text = Some n ->
  Console.safe_int int_of (S fuel) (text :: rest) = Console.Got n rest.
Proof. intros H. cbn. now rewrite H. Qed.

Lemma safe_float_first (text : string) (rest : list string) (v : num) (fuel : nat) :
  float_of text = Some v ->
  Console.safe_float float_of (S fuel) (text :: rest) = Console.Got v rest.
Proof. intros H. cbn. now rewrite H. Qed.

Lemma and_then_end {T U : Type} (c : Console.reads T) (k : T -> Console.reads U)
    (stdin rest : list string) (e : Console.ending) :
  Console.and_then c k stdin = Console.End e rest ->
  c stdin = Console.End e rest \/
  exists v mid, c stdin = Console.Got v mid /\ k v mid = Console.End e rest.
Proof.
  unfold Console.and_then. destruct (c stdin) as [v mid|e' rest']; intros H.
  - right. exists v, mid. auto.
  - left. now inversion H.
Qed.

(** [safe_float] and [safe_int] skip the lines that [float] or [int]
    refuses and return the first one that is accepted: when the input is the
    refused lines [bad], then [good], then [rest], and there is fuel for more
    than [length bad] rounds, they return the value of [good] and leave
    [rest] unread. *)
Theorem safe_readers_skip_invalid (bad : list string) (good : string)
    (rest : list string) (fuel : nat) :
  (List.length bad < fuel)%nat ->
  (forall v, Forall (fun text => float_of text = None) bad ->
             float_of good = Some v ->
             Console.safe_float float_of fuel (bad ++ good :: rest) =
             Console.Got v rest) /\
  (forall n, Forall (fun text => int_of text = None) bad ->
             int_of good = Some n ->
             Console.safe_int int_of fuel (bad ++ good :: rest) =
             Console.Got n rest).
Proof.
  intros Hfuel. split; intros v Hbad Hgood.
  - now apply safe_float_skips.
  - now apply safe_int_skips.
Qed.

(** [safe_float] and [safe_int] never give up: when no line of the input
    is accepted (the input may be at its end from the start), they are still
    asking after any number of rounds.  The [EOFError] of [input] is caught
    like any other exception, so the end of the input does not end the loop. *)
Theorem safe_readers_never_give_up (stdin : list string) :
  (Forall (fun text => float_of text = None) stdin ->
   forall fuel,
     Console.safe_float float_of fuel stdin =
     Console.End Console.Asking (skipn fuel stdin)) /\
  (Forall (fun text => int_of text = None) stdin ->
   forall fuel,
     Console.safe_int int_of fuel stdin =
     Console.End Console.Asking (skipn fuel stdin)).
Proof.
  split; intros Hbad fuel.
  - now apply safe_float_starved.
  - now apply safe_int_starved.
Qed.

(** ** [main] of ZOF_CLI.py *)

(** Takes apart an ending of [main]: the prompts end a run by [Asking]
    only, a solver call by [Result] or [ComputationError]. *)
Ltac main_ending H :=
  repeat first
    [ discriminate H
    | apply and_then_end in H as [H|(? & ? & _ & H)];
      [first [apply safe_int_ends in H | apply safe_float_ends in H];
       discriminate H|]
    | match type of H with
      | (if ?b then _ else _) _ = _ => destruct b
      | Console.report ?o _ = _ =>
          unfold Console.report in H; destruct o as [[[? ?] ?]|?]
      | match Console.input ?l with _ => _ end = _ =>
          destruct l; cbn [Console.input] in H
      | match lambdify ?g with _ => _ end = _ => destruct (lambdify g)
      end ].

(** A method number outside 1..6 is refused only after max_iter and tol
    have been asked for: with the four lines (function, number, max_iter,
    tol) [main] ends with "Invalid method choice." and leaves the rest of the
    input unread; with the function and the number alone it goes on asking
    and never says so. *)
Theorem main_invalid_choice (line c m t : string) (rest : list string)
    (f df : num -> num) (choice : Z) :
  lambdify_with_derivative (strip line) = inr (f, df) ->
  int_of c = Some choice ->
  (choice < 1 \/ 6 < choice)%Z ->
  (forall fuel max_iter tol,
     int_of m = Some max_iter -> float_of t = Some tol ->
     Console.main float_of int_of strip lambdify_with_derivative lambdify
       (S fuel) (line :: c :: m :: t :: rest) =
     Console.End Console.InvalidChoice rest) /\
  (forall fuel, exists left,
     Console.main float_of int_of strip lambdify_with_derivative lambdify
       fuel [line; c] = Console.End Console.Asking left).
Proof.
  intros Hf Hc Hrange. split.
  - intros fuel max_iter tol Hm Ht.
    unfold Console.main, Console.get_function_from_string, Console.and_then.
    cbn [Console.input]. rewrite Hf.
    rewrite (safe_int_first _ fuel Hc), (safe_int_first _ fuel Hm),
      (safe_float_first _ fuel Ht).
    repeat match goal with
           | |- context [(choice =? ?n)%Z] =>
               replace (choice =? n)%Z with false by (symmetry; apply Z.eqb_neq; lia)
           end.
    reflexivity.
  - intros fuel.
    unfold Console.main, Console.get_function_from_string, Console.and_then.
    cbn [Console.input]. rewrite Hf.
    destruct fuel as [|fuel]; [cbn; eauto|].
    rewrite (safe_int_first _ fuel Hc).
    rewrite (safe_int_starved (stdin := []) (S fuel) (Forall_nil _)). eauto.
Qed.

(** The end of the input, prompt by prompt.  At the first prompt, f(x), the
    EOFError leaves [main] uncaught, and that is the only way an exception
    leaves [main]: a run that ends uncaught had no input at all.  At the
    prompt for g(x) of method 5 the EOFError is caught by the try around the
    solvers: "Error during computation".  At a prompt for a number the run
    never ends: with the function line alone [main] is still asking after
    any number of rounds. *)
Theorem main_end_of_input :
  (forall fuel,
     Console.main float_of int_of strip lambdify_with_derivative lambdify fuel [] =
     Console.End Console.Uncaught []) /\
  (forall fuel stdin rest,
     Console.main float_of int_of strip lambdify_with_derivative lambdify fuel stdin =
     Console.End Console.Uncaught rest -> stdin = []) /\
  (forall fuel line c m t f df max_iter tol,
     lambdify_with_derivative (strip line) = inr (f, df) ->
     int_of c = Some 5%Z -> int_of m = Some max_iter -> float_of t = Some tol ->
     Console.main float_of int_of strip lambdify_with_derivative lambdify
       (S fuel) [line; c; m; t] =
     Console.End (Console.ComputationError Console.EOFError) []) /\
  (forall fuel line f df,
     lambdify_with_derivative (strip line) = inr (f, df) ->
     Console.main float_of int_of strip lambdify_with_derivative lambdify
       fuel [line] = Console.End Console.Asking []).
Proof.
  split; [reflexivity|]. split; [|split].
  - intros fuel stdin rest H.
    destruct stdin as [|line stdin]; [reflexivity|]. exfalso.
    unfold Console.main, Console.get_function_from_string in H.
    cbn [Console.input] in H.
    destruct (lambdify_with_derivative (strip line)) as [msg|[f df]];
      [discriminate H|].
    main_ending H.
  - intros fuel line c m t f df max_iter tol Hf Hc Hm Ht.
    unfold Console.main, Console.get_function_from_string, Console.and_then.
    cbn [Console.input]. rewrite Hf.
    rewrite (safe_int_first _ fuel Hc), (safe_int_first _ fuel Hm),
      (safe_float_first _ fuel Ht).
    reflexivity.
  - intros fuel line f df Hf.
    unfold Console.main, Console.get_function_from_string, Console.and_then.
    cbn [Console.input]. rewrite Hf.
    rewrite (safe_int_starved (stdin := []) fuel (Forall_nil _)).
    now rewrite skipn_nil.
Qed.


End ConsoleFacts.

(** ** [index] of app.py *)

Section WebFacts.
Context {A : Arith}.
Variable float_of : string -> option num.
Variable int_of : string -> option Z.
Variable strip : string -> string.
Variable str : Web.failure -> string.
Variable lambdify_with_derivative :
  string -> string + (num -> num) * (num -> num).
Variable lambdify : string -> string + (num -> num).

Lemma and_then_ok {T U : Type} (c : Web.tried T) (k : T -> Web.tried U) (u : U) :
  Web.and_then c k = Web.Ok u -> exists v, c = Web.Ok v /\ k v = Web.Ok u.
Proof. destruct c as [v|e]; cbn; [eauto|discriminate]. Qed.

Lemma and_then_failed {T U : Type} (c : Web.tried T) (k : T -> Web.tried U)
    (e : Web.failure) :
  Web.and_then c k = Web.Failed e ->
  c = Web.Failed e \/ exists v, c = Web.Ok v /\ k v = Web.Failed e.
Proof. destruct c as [v|e']; cbn; [eauto|intros H; left; now inversion H]. Qed.

Lemma packed_rectangular {row : Type} (label : string) (headers : list string)
    (fields : row -> list Web.pyval) (v : App.result row) (r : Web.result_dict) :
  (forall x, List.length (fields x) = List.length headers) ->
  Web.packed label headers fields v = Some r ->
  Forall (fun cells => List.length cells = List.length (Web.r_headers r))
    (Web.r_rows r).
Proof.
  intros Hfields. destruct v as [[[root final_err] iters] rows]. cbn.
  intros H. injection H as <-. cbn.
  apply Forall_forall. intros cells Hin.
  apply in_map_iff in Hin as (x & <- & _). apply Hfields.
Qed.

(** The table of a rendered result is rectangular: whatever the request,
    every row of the result has as many fields as there are column headers
    (six for Bisection, Regula Falsi, Secant and Newton-Raphson, four for
    Fixed Point, five for Modified Secant). *)
Theorem index_table_is_rectangular (req : Web.request) (p : Web.page)
    (r : Web.result_dict) :
  Web.index float_of int_of strip str lambdify_with_derivative lambdify req =
    Web.Ok p ->
  Web.p_result p = Some r ->
  Forall (fun cells => List.length cells = List.length (Web.r_headers r))
    (Web.r_rows r).
Proof.
  unfold Web.index. destruct (String.eqb (Web.req_method req) "POST").
  2: { intros H. injection H as <-. discriminate. }
  intros H Hr.
  apply and_then_ok in H as (func_expr & _ & H).
  apply and_then_ok in H as (max_iter & _ & H).
  apply and_then_ok in H as (tol & _ & H).
  destruct (Web.get_function_from_string lambdify_with_derivative func_expr)
    as [[f df]|e].
  2: { injection H as <-. discriminate. }
  destruct (Web.compute float_of strip lambdify (Web.req_form req "method")
              (Web.req_form req) f df max_iter tol) as [result|e] eqn:Hc.
  2: { injection H as <-. discriminate. }
  injection H as <-. cbn in Hr. subst result.
  unfold Web.compute in Hc.
  repeat match type of Hc with
         | (if ?b then _ else _) = _ => destruct b
         end;
    try discriminate Hc;
    repeat (apply and_then_ok in Hc as (? & _ & Hc));
    injection Hc as Hc;
    (eapply packed_rectangular; [|exact Hc]);
    intros ?;
    unfold App.bracket_row, App.secant_row, App.newton_row, App.fixed_row,
      App.modsec_row in *;
    repeat match goal with y : (_ * _)%type |- _ => destruct y end;
    reflexivity.
Qed.

(** Which exceptions leave [index], for every request: only those of the
    three statements before the first try, that is of
    [request.form.get('func').strip()], [int(request.form.get('max_iter'))]
    and [float(request.form.get('tol'))], and only for a POST.  Everything
    after them is caught: a page is rendered, and a page never carries both a
    result and an error. *)
Theorem index_what_escapes (req : Web.request) :
  (forall e,
     Web.index float_of int_of strip str lambdify_with_derivative lambdify req =
       Web.Failed e ->
     Web.req_method req = "POST"%string /\
     (Web.stripped_field strip (Web.req_form req) "func" = Web.Failed e \/
      Web.int_field int_of (Web.req_form req) "max_iter" = Web.Failed e \/
      Web.float_field float_of (Web.req_form req) "tol" = Web.Failed e)) /\
  (forall p,
     Web.index float_of int_of strip str lambdify_with_derivative lambdify req =
       Web.Ok p ->
     Web.p_result p = None \/ Web.p_error p = None).
Proof.
  unfold Web.index.
  destruct (String.eqb (Web.req_method req) "POST") eqn:Hpost.
  2: { split; [discriminate|]. intros p H. injection H as <-. now left. }
  apply String.eqb_eq in Hpost. split.
  - intros e H. split; [exact Hpost|].
    apply and_then_failed in H as [H|(func_expr & _ & H)]; [now left|].
    apply and_then_failed in H as [H|(max_iter & _ & H)]; [now right; left|].
    apply and_then_failed in H as [H|(tol & _ & H)]; [now right; right|].
    destruct (Web.get_function_from_string lambdify_with_derivative func_expr)
      as [[f df]|e0]; [|discriminate].
    destruct (Web.compute _ _ _ _ _ _ _ _ _); discriminate.
  - intros p H.
    apply and_then_ok in H as (func_expr & _ & H).
    apply and_then_ok in H as (max_iter & _ & H).
    apply and_then_ok in H as (tol & _ & H).
    destruct (Web.get_function_from_string lambdify_with_derivative func_expr)
      as [[f df]|e0]; [|injection H as <-; now left].
    destruct (Web.compute _ _ _ _ _ _ _ _ _); injection H as <-; auto.
Qed.

(** Fields that were not sent, in a POST.  Without [func] the handler ends
    with an AttributeError (None has no strip), without [max_iter] or [tol]
    with the TypeError of int(None) or float(None): these leave [index].  A
    failure of the chosen method's branch is caught and rendered as "Error
    during computation: ..." with no result; so is a missing field of the
    method, such as [a] for Bisection, whose float(None) is such a failure. *)
Theorem index_missing_field (req : Web.request) (text : string)
    (f df : num -> num) (max_iter : Z) (tol : num) :
  Web.req_method req = "POST"%string ->
  (Web.req_form req "func" = None ->
   Web.index float_of int_of strip str lambdify_with_derivative lambdify req =
     Web.Failed (Web.AttributeError "strip")) /\
  (Web.req_form req "func" = Some text ->
   Web.req_form req "max_iter" = None ->
   Web.index float_of int_of strip str lambdify_with_derivative lambdify req =
     Web.Failed (Web.TypeError "int")) /\
  (Web.req_form req "func" = Some text ->
   Web.int_field int_of (Web.req_form req) "max_iter" = Web.Ok max_iter ->
   Web.req_form req "tol" = None ->
   Web.index float_of int_of strip str lambdify_with_derivative lambdify req =
     Web.Failed (Web.TypeError "float")) /\
  (Web.req_form req "func" = Some text ->
   Web.int_field int_of (Web.req_form req) "max_iter" = Web.Ok max_iter ->
   Web.float_field float_of (Web.req_form req) "tol" = Web.Ok tol ->
   lambdify_with_derivative (strip text) = inr (f, df) ->
   forall e,
     Web.compute float_of strip lambdify (Web.req_form req "method")
       (Web.req_form req) f df max_iter tol = Web.Failed e ->
     Web.index float_of int_of strip str lambdify_with_derivative lambdify req =
       Web.Ok (Web.Page None (Some ("Error during computation: " ++ str e)%string))) /\
  (Web.req_form req "method" = Some "bisection"%string ->
   Web.req_form req "a" = None ->
   Web.compute float_of strip lambdify (Web.req_form req "method")
     (Web.req_form req) f df max_iter tol = Web.Failed (Web.TypeError "float")).
Proof.
  intros Hpost. unfold Web.index. rewrite Hpost. cbn [String.eqb Ascii.eqb Bool.eqb].
  unfold Web.stripped_field at 1 2 3 4.
  repeat split.
  - intros ->. reflexivity.
  - intros -> Hm. cbn. unfold Web.int_field. now rewrite Hm.
  - intros -> Hm Ht. cbn. rewrite Hm. cbn. unfold Web.float_field. now rewrite Ht.
  - intros -> Hm Ht Hf e Hc. cbn. rewrite Hm. cbn. rewrite Ht. cbn.
    unfold Web.get_function_from_string. rewrite Hf, Hc. reflexivity.
  - intros Hmethod Ha. unfold Web.compute. rewrite Hmethod. cbn.
    unfold Web.float_field. now rewrite Ha.
Qed.

(** A method that is none of the six names is met with silence: for a POST
    whose function, max_iter and tol are accepted, [index] renders the page
    with no result and no error (ZOF_CLI.py, in contrast, says "Invalid method
    choice."). *)
Theorem index_unknown_method (req : Web.request) (text : string)
    (f df : num -> num) (max_iter : Z) (tol : num) :
  Web.req_method req = "POST"%string ->
  Web.req_form req "func" = Some text ->
  Web.int_field int_of (Web.req_form req) "max_iter" = Web.Ok max_iter ->
  Web.float_field float_of (Web.req_form req) "tol" = Web.Ok tol ->
  lambdify_with_derivative (strip text) = inr (f, df) ->
  (forall name,
     In name ["bisection"; "regula"; "secant"; "newton"; "fixed";
              "modified_secant"]%string ->
     Web.req_form req "method" <> Some name) ->
  Web.index float_of int_of strip str lambdify_with_derivative lambdify req =
    Web.Ok (Web.Page None None).
Proof.
  intros Hpost Hfunc Hm Ht Hf Hnone.
  assert (Hno : forall name,
            In name ["bisection"; "regula"; "secant"; "newton"; "fixed";
                     "modified_secant"]%string ->
            Web.is_method (Web.req_form req "method") name = false).
  { intros name Hin. specialize (Hnone name Hin). unfold Web.is_method.
    destruct (Web.req_form req "method") as [m0|]; [|reflexivity].
    apply String.eqb_neq. congruence. }
  unfold Web.index. rewrite Hpost. cbn [String.eqb Ascii.eqb Bool.eqb].
  unfold Web.stripped_field. rewrite Hfunc. cbn [Web.and_then].
  rewrite Hm. cbn [Web.and_then]. rewrite Ht. cbn [Web.and_then].
  unfold Web.get_function_from_string. rewrite Hf.
  unfold Web.compute.
  rewrite !Hno by (cbn; tauto). reflexivity.
Qed.

(** What [index] does with max_iter <= 0, which it accepts: for each of
    the six methods whose own fields are accepted (and, for the bracketing
    methods, whose bracket test passes) the page shows "Error during
    computation: ..." with the solver's UnboundLocalError, and no result. *)
Theorem index_without_iterations (req : Web.request) (text : string)
    (f df : num -> num) (max_iter : Z) (tol : num) :
  Web.req_method req = "POST"%string ->
  Web.req_form req "func" = Some text ->
  Web.int_field int_of (Web.req_form req) "max_iter" = Web.Ok max_iter ->
  (max_iter <= 0)%Z ->
  Web.float_field float_of (Web.req_form req) "tol" = Web.Ok tol ->
  lambdify_with_derivative (strip text) = inr (f, df) ->
  let failed := fun var =>
    Web.Ok (Web.Page None
              (Some ("Error during computation: " ++
                     str (Web.SolverError (UnboundLocalError var)))%string)) in
  let answer :=
    Web.index float_of int_of strip str lambdify_with_derivative lambdify req in
  (forall a b,
     Web.float_field float_of (Web.req_form req) "a" = Web.Ok a ->
     Web.float_field float_of (Web.req_form req) "b" = Web.Ok b ->
     ltb zero (mul (f a) (f b)) = false ->
     (Web.req_form req "method" = Some "bisection"%string ->
      answer = failed "c"%string) /\
     (Web.req_form req "method" = Some "regula"%string ->
      answer = failed "c"%string)) /\
  (forall x0,
     Web.float_field float_of (Web.req_form req) "x0" = Web.Ok x0 ->
     (forall x1,
        Web.float_field float_of (Web.req_form req) "x1" = Web.Ok x1 ->
        Web.req_form req "method" = Some "secant"%string ->
        answer = failed "x2"%string) /\
     (Web.req_form req "method" = Some "newton"%string ->
      answer = failed "x1"%string) /\
     (forall g_text g,
        Web.req_form req "gfunc" = Some g_text ->
        lambdify (strip g_text) = inr g ->
        Web.req_form req "method" = Some "fixed"%string ->
        answer = failed "x1"%string) /\
     (forall delta,
        Web.float_field float_of (Web.req_form req) "delta" = Web.Ok delta ->
        Web.req_form req "method" = Some "modified_secant"%string ->
        answer = failed "x1"%string)).
Proof.
  intros Hpost Hfunc Hm Hle Ht Hf. cbv zeta.
  unfold Web.index. rewrite Hpost. cbn [String.eqb Ascii.eqb Bool.eqb].
  unfold Web.stripped_field. rewrite Hfunc. cbn [Web.and_then].
  rewrite Hm. cbn [Web.and_then]. rewrite Ht. cbn [Web.and_then].
  unfold Web.get_function_from_string. rewrite Hf.
  unfold Web.compute.
  split.
  - intros a b Ha Hb Hsign.
    destruct (app_without_passes f df f a b a a a tol Hle) as (Hbracket & _).
    destruct (Hbracket Hsign) as [Hbis Hreg].
    split; intros ->; cbn; rewrite Ha, Hb; cbn; [rewrite Hbis|rewrite Hreg];
      reflexivity.
  - intros x0 Hx0. split; [|split; [|split]].
    + intros x1 Hx1 ->. cbn. rewrite Hx0, Hx1. cbn.
      destruct (app_without_passes f df f x0 x0 x0 x1 x0 tol Hle)
        as (_ & -> & _). reflexivity.
    + intros ->. cbn. rewrite Hx0. cbn.
      destruct (app_without_passes f df f x0 x0 x0 x0 x0 tol Hle)
        as (_ & _ & -> & _). reflexivity.
    + intros g_text g Hg Hlam ->. cbn. unfold Web.stripped_field.
      rewrite Hg. cbn. rewrite Hlam. cbn. rewrite Hx0. cbn.
      destruct (app_without_passes f df g x0 x0 x0 x0 x0 tol Hle)
        as (_ & _ & _ & -> & _). reflexivity.
    + intros delta Hdelta ->. cbn. rewrite Hx0, Hdelta. cbn.
      destruct (app_without_passes f df f x0 x0 x0 x0 delta tol Hle)
        as (_ & _ & _ & _ & ->). reflexivity.
Qed.

End WebFacts.

(** ** A function text that sympy refuses *)

Section InvalidFunction.
Context {A : Arith}.
Variable float_of : string -> option num.
Variable int_of : string -> option Z.
Variable strip : string -> string.
Variable str : Web.failure -> string.
Variable lambdify_with_derivative :
  string -> string + (num -> num) * (num -> num).
Variable lambdify : string -> string + (num -> num).

(** When sympy refuses the function text, [main] ends at once with the
    ValueError of its [get_function_from_string] ("Invalid function
    expression: ..."), before any other prompt: the lines after the first
    stay unread.  [index] looks at the text only after max_iter and tol: when
    these are accepted it renders "Invalid function: ..." with no result,
    whatever the method and the other fields are; when max_iter is missing,
    the TypeError of int(None) leaves the handler first. *)
Theorem invalid_function_text (text msg : string) :
  lambdify_with_derivative (strip text) = inl msg ->
  (forall fuel rest,
     Console.main float_of int_of strip lambdify_with_derivative lambdify
       fuel (text :: rest) =
     Console.End
       (Console.InvalidFunction
          (ValueError ("Invalid function expression: " ++ msg)%string)) rest) /\
  (forall req max_iter tol,
     Web.req_method req = "POST"%string ->
     Web.req_form req "func" = Some text ->
     Web.int_field int_of (Web.req_form req) "max_iter" = Web.Ok max_iter ->
     Web.float_field float_of (Web.req_form req) "tol" = Web.Ok tol ->
     Web.index float_of int_of strip str lambdify_with_derivative lambdify req =
     Web.Ok (Web.Page None
               (Some ("Invalid function: " ++ str (Web.SympyError msg))%string))) /\
  (forall req,
     Web.req_method req = "POST"%string ->
     Web.req_form req "func" = Some text ->
     Web.req_form req "max_iter" = None ->
     Web.index float_of int_of strip str lambdify_with_derivative lambdify req =
     Web.Failed (Web.TypeError "int")).
Proof.
  intros Hbad. split; [|split].
  - intros fuel rest.
    unfold Console.main, Console.get_function_from_string.
    cbn [Console.input]. now rewrite Hbad.
  - intros req max_iter tol Hpost Hfunc Hm Ht.
    unfold Web.index. rewrite Hpost. cbn [String.eqb Ascii.eqb Bool.eqb].
    unfold Web.stripped_field. rewrite Hfunc. cbn [Web.and_then].
    rewrite Hm. cbn [Web.and_then]. rewrite Ht. cbn [Web.and_then].
    unfold Web.get_function_from_string. now rewrite Hbad.
  - intros req Hpost Hfunc Hm.
    unfold Web.index. rewrite Hpost. cbn [String.eqb Ascii.eqb Bool.eqb].
    unfold Web.stripped_field. rewrite Hfunc. cbn [Web.and_then].
    unfold Web.int_field. now rewrite Hm.
Qed.

End InvalidFunction.

(** ** Runs in binary64 *)


(** C4, counterexample. In binary64 the bracket a = 2^1023, b = 1.5 * 2^1023
    of [scaled_line] has f(a)*f(b) <= 0, and Bisection returns infinity, which
    is above max(a,b): the sum a + b of the midpoint overflows. *)
Lemma midpoint_overflow :
  let a := 0x1p1023%float in
  let b := 0x1.8p1023%float in
  (scaled_line a * scaled_line b <=? 0)%float = true /\
  (exists res rows,
     App.bisection (A := IEEE) scaled_line a b 3 0x1p-20%float =
       Return (infinity, res, 3%Z, rows)) /\
  (b <? infinity)%float = true /\
  (a <? b)%float = true.
Proof.
  cbv zeta. split; [reflexivity|]. split; [|split; reflexivity].
  eexists. eexists. vm_compute. reflexivity.
Qed.


(** C10, counterexample. In binary64 delta may be infinite: Modified Secant
    on [cubic] with x0 = 0, delta = infinity and max_iter = 3 raises nothing.
    The perturbed point 0 + infinity*0 is NaN and not x0, the denominator is
    NaN and does not test equal to zero, and the call returns (nan, nan, 3),
    in both files. *)
Lemma infinite_delta_returns :
  (1 <= 3)%Z /\
  App.modified_secant (A := IEEE) cubic 0%float infinity 3 0x1p-20%float =
    Return (nan, nan, 3%Z,
            [(1%Z, 0%float, (-5)%float, nan, nan);
             (2%Z, nan, nan, nan, nan);
             (3%Z, nan, nan, nan, nan)]) /\
  CLI.modified_secant (A := IEEE) cubic 0%float infinity 3 0x1p-20%float =
    Return (nan, nan, 3%Z).
Proof. split; [lia|]. split; vm_compute; reflexivity. Qed.

(** A run of Bisection that stops on the tolerance, with its trace. *)
Example bisection_cubic_run :
  App.bisection (A := IEEE) cubic 2%float 3%float 50 0.25%float =
    Return (2.125%float, 0.345703125%float, 3%Z,
            [(1%Z, 2%float, 3%float, 2.5%float, 5.625%float, None);
             (2%Z, 2%float, 2.5%float, 2.25%float, 1.890625%float,
              Some 0.25%float);
             (3%Z, 2%float, 2.25%float, 2.125%float, 0.345703125%float,
              Some 0.125%float)]).
Proof. vm_compute. reflexivity. Qed.

(** A run of Fixed-Point Iteration that converges in its second pass. *)
Example fixed_point_halve_run :
  App.fixed_point_iteration (A := IEEE) halve 1%float 10 0.375%float =
    Return (0.25%float, 0.25%float, 2%Z,
            [(1%Z, 1%float, 0.5%float, 0.5%float);
             (2%Z, 0.5%float, 0.25%float, 0.25%float)]) /\
  CLI.fixed_point_iteration (A := IEEE) halve 1%float 10 0.375%float =
    Return (0.25%float, 0.25%float, 2%Z).
Proof. split; vm_compute; reflexivity. Qed.

(** Scenario 1 of the specification: Bisection on x^3 - 2x - 5 over [2,3]
    with tol = 1e-6 and max_iter = 50 returns 2.0945520401000977
    (0x1.0c1a48p+1) after 20 passes, with a residual below 1e-4. *)
Example scenario_bisection :
  exists res rows,
    App.bisection (A := IEEE) cubic 2%float 3%float 50 tol_1e6 =
      Return (0x1.0c1a48p+1%float, res, 20%Z, rows) /\
    List.length rows = 20%nat /\
    (res <? bound_1e4)%float = true /\
    CLI.bisection (A := IEEE) cubic 2%float 3%float 50 tol_1e6 =
      Return (0x1.0c1a48p+1%float, res, 20%Z).
Proof. eexists. eexists. vm_compute. repeat split; reflexivity. Qed.

(** Scenario 2: Newton-Raphson on the same function from x0 = 2 with
    tol = 1e-9 returns 2.0945514815423265 (0x1.0c1a4350819e3p+1) after 4
    passes. *)
Example scenario_newton :
  exists res,
    CLI.newton_raphson (A := IEEE) cubic cubic' 2%float 50 tol_1e9 =
      Return (0x1.0c1a4350819e3p+1%float, res, 4%Z) /\
    (res <? tol_1e9)%float = true.
Proof. eexists. vm_compute. split; reflexivity. Qed.

(** Scenario 4: Secant on x^2 - 2 from x0 = 1, x1 = 2 with tol = 1e-9
    returns 1.4142135623730954 (0x1.6a09e667f3bcep+0) after 6 passes. *)
Example scenario_secant :
  exists res,
    CLI.secant (A := IEEE) square_minus_two 1%float 2%float 50 tol_1e9 =
      Return (0x1.6a09e667f3bcep+0%float, res, 6%Z) /\
    (res <? tol_1e9)%float = true.
Proof. eexists. vm_compute. split; reflexivity. Qed.

(** Scenario 5: Bisection on x^2 over [-1,1] is refused, f(a)*f(b) = 1 > 0. *)
Example scenario_no_sign_change :
  App.bisection (A := IEEE) square (-1)%float 1%float 50 tol_1e6 =
    Raise (ValueError "f(a) and f(b) must have opposite signs.") /\
  CLI.bisection (A := IEEE) square (-1)%float 1%float 50 tol_1e6 =
    Raise (ValueError "f(a) and f(b) must have opposite signs for Bisection.").
Proof. split; reflexivity. Qed.

(** ** The theorems at concrete inputs *)


(** [trace_matches_result] on the run [bisection_cubic_run]: three rows, the
    last of which holds the returned root 2.125. *)
Lemma trace_matches_result_witness :
  trace_agrees (A := IEEE) App.bracket_candidate
    (Return (2.125%float, 0.345703125%float, 3%Z,
             [(1%Z, 2%float, 3%float, 2.5%float, 5.625%float, None);
              (2%Z, 2%float, 2.5%float, 2.25%float, 1.890625%float,
               Some 0.25%float);
              (3%Z, 2%float, 2.25%float, 2.125%float, 0.345703125%float,
               Some 0.125%float)])).
Proof.
  exact (proj1 (trace_matches_result (A := IEEE) cubic cubic' halve 2%float
                  3%float 2%float 3%float 0.5%float 50 0.25%float)).
Defined.

(** [fixed_point_reports_step_error] on the run [fixed_point_halve_run]: it
    converged in pass 2 of 10 and reports the step error 0.25. *)
Lemma fixed_point_reports_step_error_witness :
  fixed_point_outcome (A := IEEE) halve 0.375%float 10
    (Return (0.25%float, 0.25%float, 2%Z,
             [(1%Z, 1%float, 0.5%float, 0.5%float);
              (2%Z, 0.5%float, 0.25%float, 0.25%float)])).
Proof.
  exact (proj1 (fixed_point_reports_step_error (A := IEEE) halve 0.375%float 10
                  1%float)).
Defined.

(** [stop_rule] in binary64, for Regula Falsi on [cubic] over [2,3] with
    tol = 0.0625 and max_iter = 50.  Pass 1 has no previous candidate and
    f(c) is not zero: it falls through, and the call reports more than one
    iteration.  Pass 2 returns its candidate, which is within tol of the
    candidate of pass 1. *)
Lemma stop_rule_witness :
  (0 <= 1 < 50)%Z /\
  (0 <? cubic 2 * cubic 3)%float = false /\
  returns_later 1 50
    (App.regula_falsi (A := IEEE) cubic 2%float 3%float 50 0x1p-4%float) /\
  App.regula_falsi (A := IEEE) cubic 2%float 3%float 50 0x1p-4%float =
    Return (0x1.0a66d8fcb19e3p+1%float, 0x1.2d79526cf982p-3%float, 2%Z,
            [(1%Z, 2%float, 3%float, 0x1.0787878787878p+1%float,
              (-0x1.902dda96613ep-2)%float, None);
             (2%Z, 0x1.0787878787878p+1%float, 3%float,
              0x1.0a66d8fcb19e3p+1%float, (-0x1.2d79526cf982p-3)%float,
              Some 0x1.6fa8ba950b58p-6%float)]).
Proof.
  assert (H0 : (0 <= 0 < 50)%Z) by lia.
  assert (H1 : (0 <= 1 < 50)%Z) by lia.
  assert (Hvalid : (0 <? cubic 2 * cubic 3)%float = false) by reflexivity.
  split; [exact H1|]. split; [exact Hvalid|]. split.
  - exact (proj2 (proj2 (proj2 (@stop_rule IEEE AbsZero_IEEE cubic 2%float
                                  3%float 0x1p-4%float 50 0 H0 Hvalid)
                           _ eq_refl eq_refl))).
  - exact (proj2 (proj2 (@stop_rule IEEE AbsZero_IEEE cubic 2%float 3%float
                           0x1p-4%float 50 1 H1 Hvalid)
                    _ eq_refl eq_refl)).
Defined.

(** [returned_root_in_bracket] for f(x) = x on the bracket (-1, 1): Bisection
    returns the midpoint in its first pass, and it lies in the bracket. *)
Lemma returned_root_in_bracket_witness :
  ((fun x : R => x) (-1) * (fun x : R => x) 1 <= 0)%R /\
  exists root res rows,
    App.bisection (A := Exact) (fun x : R => x) (-1)%R 1%R 5 0%R =
      Return (root, res, 1%Z, rows) /\
    (Rmin (-1) 1 <= root <= Rmax (-1) 1)%R.
Proof.
  assert (H : ((fun x : R => x) (-1) * (fun x : R => x) 1 <= 0)%R) by (cbv beta; lra).
  assert (Hrun :
    App.bisection (A := Exact) (fun x : R => x) (-1)%R 1%R 5 0%R =
      Return ((1 / 2 * (-1 + 1))%R, Rabs (1 / 2 * (-1 + 1)), 1%Z,
              [(1%Z, (-1)%R, 1%R, (1 / 2 * (-1 + 1))%R, (1 / 2 * (-1 + 1))%R,
                None)])).
  { unfold App.bisection. change (range 1 (5 + 1)) with [1; 2; 3; 4; 5]%Z.
    cbn [for_each]. unfold App.bisection_body.
    cbn [absn eqb ltb mul add sub half zero two quot Exact App.v_a App.v_b
         App.v_fa App.v_fb App.v_c_old App.v_c App.v_rows].
    r_tests. cbn. reflexivity. }
  pose proof (proj1 (returned_root_in_bracket (fun x : R => x) (-1)%R 1%R 5 0%R H))
    as Hin.
  rewrite Hrun in Hin.
  split; [exact H|]. do 3 eexists. split; [exact Hrun|exact Hin].
Defined.


(** [zero_denominator_raises] at the first pass (k = 0) of a constant
    function, whose differences are all zero. *)
Lemma zero_denominator_raises_witness :
  (0 <= 0 < 5)%Z /\
  App.secant (A := IEEE) (fun _ => 1%float) 0%float 1%float 5 0x1p-20%float =
    Raise (ValueError "Zero denominator in Secant.") /\
  CLI.modified_secant (A := IEEE) (fun _ => 1%float) 2%float 0.5%float 5
    0x1p-20%float = Raise (ZeroDivisionError None).
Proof.
  assert (H : (0 <= 0 < 5)%Z) by lia.
  destruct (zero_denominator_raises (A := IEEE) (fun _ => 1%float)
              (fun _ => 0%float) 0%float 1%float 0.5%float 0x1p-20%float H)
    as (Hs & _).
  destruct (zero_denominator_raises (A := IEEE) (fun _ => 1%float)
              (fun _ => 0%float) 2%float 1%float 0.5%float 0x1p-20%float H)
    as (_ & _ & _ & _ & _ & Hm).
  split; [exact H|]. split.
  - exact (Hs _ eq_refl eq_refl).
  - exact (Hm _ eq_refl eq_refl).
Defined.

(** [app_cli_agree] for [cubic] with max_iter = 50. *)
Lemma app_cli_agree_witness :
  (1 <= 50)%Z /\
  same_result (App.bisection (A := IEEE) cubic 2%float 3%float 50 0x1p-20%float)
              (CLI.bisection (A := IEEE) cubic 2%float 3%float 50 0x1p-20%float) /\
  same_result
    (App.regula_falsi (A := IEEE) cubic 2%float 3%float 50 0x1p-20%float)
    (CLI.regula_falsi (A := IEEE) cubic 2%float 3%float 50 0x1p-20%float) /\
  same_result
    (App.newton_raphson (A := IEEE) cubic cubic' 2%float 50 0x1p-20%float)
    (CLI.newton_raphson (A := IEEE) cubic cubic' 2%float 50 0x1p-20%float).
Proof.
  assert (H : (1 <= 50)%Z) by lia.
  destruct (app_cli_agree (A := IEEE) cubic cubic' halve 2%float 3%float
              2%float 3%float 0.5%float 0x1p-20%float H)
    as (Hb & Hr & _ & Hn & _).
  split; [exact H|]. split; [exact Hb|]. split; [exact Hr|exact Hn].
Defined.

(** [modified_secant_zero_guess] for [cubic], delta = 0.5, max_iter = 3. *)
Lemma modified_secant_zero_guess_witness :
  (1 <= 3)%Z /\
  App.modified_secant (A := IEEE) cubic 0%float 0.5%float 3 0x1p-20%float =
    Raise (ValueError "Denominator zero in Modified Secant.") /\
  CLI.modified_secant (A := IEEE) cubic 0%float 0.5%float 3 0x1p-20%float =
    Raise (ZeroDivisionError None).
Proof.
  assert (H : (1 <= 3)%Z) by lia.
  split; [exact H|].
  exact (proj2 (modified_secant_zero_guess H) cubic 0.5%float 0x1p-20%float
           eq_refl eq_refl).
Defined.

(** [regula_falsi_zero_passes] for [cubic] over [2,3] with max_iter = 0. *)
Lemma regula_falsi_zero_passes_witness :
  CLI.regula_falsi (A := IEEE) cubic 2%float 3%float 0 0.25%float =
    Return (2%float, 1%float, 0%Z) /\
  App.regula_falsi (A := IEEE) cubic 2%float 3%float 0 0.25%float =
    Raise (UnboundLocalError "c").
Proof.
  assert (H : (0 <= 0)%Z) by lia.
  exact (regula_falsi_zero_passes (A := IEEE) cubic 2%float 3%float 0.25%float
           H eq_refl).
Defined.

(** [negative_tol_exhausts] for [halve] with tol = -1 and max_iter = 2. *)
Lemma negative_tol_exhausts_witness :
  exists root res rows,
    App.fixed_point_iteration (A := IEEE) halve 1%float 2 (-1)%float =
      Return (root, res, 2%Z, rows).
Proof.
  assert (H : (1 <= 2)%Z) by lia.
  exact (proj2 (negative_tol_exhausts H) halve 1%float (-1)%float eq_refl).
Defined.






(** [regula_falsi_division] in binary64 for x^2 - 5x + 6 over [2,3], whose
    ends are its two zeros, with max_iter = 5. *)
Lemma regula_falsi_division_witness :
  (1 <= 5)%Z /\
  (two_roots 2 =? 0)%float = true /\
  (two_roots 3 =? 0)%float = true /\
  App.regula_falsi (A := IEEE) two_roots 2%float 3%float 5 0x1p-20%float =
    Raise (ZeroDivisionError None) /\
  CLI.regula_falsi (A := IEEE) two_roots 2%float 3%float 5 0x1p-20%float =
    Raise (ZeroDivisionError None).
Proof.
  assert (H : (1 <= 5)%Z) by lia.
  split; [exact H|]. split; [reflexivity|]. split; [reflexivity|].
  exact (proj2 (regula_falsi_division H) two_roots 2%float 3%float 0x1p-20%float
           eq_refl eq_refl).
Defined.

(** [secant_equal_guesses] for [cubic] with x0 = x1 = 2 and max_iter = 3. *)
Lemma secant_equal_guesses_witness :
  (1 <= 3)%Z /\
  App.secant (A := IEEE) cubic 2%float 2%float 3 0x1p-20%float =
    Raise (ValueError "Zero denominator in Secant.") /\
  CLI.secant (A := IEEE) cubic 2%float 2%float 3 0x1p-20%float =
    Raise (ZeroDivisionError
             (Some "Division by zero in Secant denominator."%string)).
Proof.
  assert (H : (1 <= 3)%Z) by lia.
  split; [exact H|].
  exact (proj2 (secant_equal_guesses H) cubic 2%float 0x1p-20%float eq_refl).
Defined.

(** [modified_secant_zero_delta] for [cubic] with x0 = 2 and max_iter = 3. *)
Lemma modified_secant_zero_delta_witness :
  (1 <= 3)%Z /\
  App.modified_secant (A := IEEE) cubic 2%float 0%float 3 0x1p-20%float =
    Raise (ValueError "Denominator zero in Modified Secant.") /\
  CLI.modified_secant (A := IEEE) cubic 2%float 0%float 3 0x1p-20%float =
    Raise (ZeroDivisionError None).
Proof.
  assert (H : (1 <= 3)%Z) by lia.
  split; [exact H|].
  exact (proj2 (modified_secant_zero_delta H) cubic 2%float 0x1p-20%float
           eq_refl eq_refl).
Defined.


(** [safe_readers_skip_invalid]: the line "abc" is skipped, the next line is
    returned and the third is left unread. *)
Lemma safe_readers_skip_invalid_witness :
  (List.length ["abc"%string] < 2)%nat /\
  Console.safe_float (A := IEEE) sample_float 2 ["abc"; "0.5"; "3"]%string =
    Console.Got 0.5%float ["3"%string] /\
  Console.safe_int (A := IEEE) sample_int 2 ["abc"; "50"; "3"]%string =
    Console.Got 50%Z ["3"%string].
Proof.
  assert (H : (List.length ["abc"%string] < 2)%nat) by (cbn; lia).
  destruct (@safe_readers_skip_invalid IEEE sample_float sample_int
              ["abc"%string] "0.5"%string ["3"%string] 2%nat H) as [Hf _].
  destruct (@safe_readers_skip_invalid IEEE sample_float sample_int
              ["abc"%string] "50"%string ["3"%string] 2%nat H) as [_ Hi].
  assert (Hbadf : Forall (fun text => sample_float text = None) ["abc"%string])
    by (constructor; [reflexivity|constructor]).
  assert (Hbadi : Forall (fun text => sample_int text = None) ["abc"%string])
    by (constructor; [reflexivity|constructor]).
  split; [exact H|]. split.
  - exact (Hf 0.5%float Hbadf eq_refl).
  - exact (Hi 50%Z Hbadi eq_refl).
Defined.

(** [main_invalid_choice] for the method number 7: refused after max_iter
    and tol were read, the fifth line is left. *)
Lemma main_invalid_choice_witness :
  (7 < 1 \/ 6 < 7)%Z /\
  sample_main 1 ["x**3 - 2*x - 5"; "7"; "50"; "0.25"; "2"]%string =
    Console.End Console.InvalidChoice ["2"%string].
Proof.
  assert (H : (7 < 1 \/ 6 < 7)%Z) by lia.
  split; [exact H|].
  exact (proj1 (@main_invalid_choice IEEE sample_float sample_int sample_strip
                  sample_function sample_g
                  "x**3 - 2*x - 5"%string "7"%string "50"%string "0.25"%string
                  ["2"%string] cubic cubic' 7%Z eq_refl eq_refl H)
           0%nat 50%Z 0.25%float eq_refl eq_refl).
Defined.


(** [index_table_is_rectangular] on the form for Bisection on [cubic] over
    [2,3] with tol = 0.25: three rows of six fields under six headers. *)
Lemma index_table_is_rectangular_witness :
  exists p r,
    sample_index (Web.Request "POST" (sample_form "bisection" "50")) = Web.Ok p /\
    Web.p_result p = Some r /\
    List.length (Web.r_rows r) = 3%nat /\
    Forall (fun cells => List.length cells = List.length (Web.r_headers r))
      (Web.r_rows r).
Proof.
  pose (r := @Web.ResultDict IEEE "Bisection" 2.125%float 0.345703125%float 3%Z
    [[@Web.PyInt IEEE 1; @Web.PyFloat IEEE 2%float; @Web.PyFloat IEEE 3%float;
      @Web.PyFloat IEEE 2.5%float; @Web.PyFloat IEEE 5.625%float; @Web.PyNone IEEE];
     [@Web.PyInt IEEE 2; @Web.PyFloat IEEE 2%float; @Web.PyFloat IEEE 2.5%float;
      @Web.PyFloat IEEE 2.25%float; @Web.PyFloat IEEE 1.890625%float;
      @Web.PyFloat IEEE 0.25%float];
     [@Web.PyInt IEEE 3; @Web.PyFloat IEEE 2%float; @Web.PyFloat IEEE 2.25%float;
      @Web.PyFloat IEEE 2.125%float; @Web.PyFloat IEEE 0.345703125%float;
      @Web.PyFloat IEEE 0.125%float]]
    ["Iter"; "a"; "b"; "c"; "f(c)"; "Error"]%string).
  assert (Hrun : sample_index (Web.Request "POST" (sample_form "bisection" "50")) =
                 Web.Ok (Web.Page (Some r) None))
    by (vm_compute; reflexivity).
  exists (Web.Page (Some r) None), r.
  split; [exact Hrun|]. split; [reflexivity|]. split; [reflexivity|].
  exact (@index_table_is_rectangular IEEE sample_float sample_int sample_strip
           sample_str sample_function sample_g
           (Web.Request "POST" (sample_form "bisection" "50"))
           (Web.Page (Some r) None) r Hrun eq_refl).
Defined.

(** [index_missing_field] on a POST without any field: the AttributeError
    of the missing [func] leaves the handler. *)
Lemma index_missing_field_witness :
  Web.req_method (Web.Request "POST" empty_form) = "POST"%string /\
  sample_index (Web.Request "POST" empty_form) =
    Web.Failed (Web.AttributeError "strip").
Proof.
  split; [reflexivity|].
  exact (proj1 (@index_missing_field IEEE sample_float sample_int sample_strip
                  sample_str sample_function sample_g
                  (Web.Request "POST" empty_form) ""%string cubic cubic' 0%Z
                  0.25%float eq_refl) eq_refl).
Defined.

(** [index_unknown_method] on the method name "halley": an empty page. *)
Lemma index_unknown_method_witness :
  Web.req_method (Web.Request "POST" (sample_form "halley" "50")) = "POST"%string /\
  sample_index (Web.Request "POST" (sample_form "halley" "50")) =
    Web.Ok (Web.Page None None).
Proof.
  split; [reflexivity|].
  assert (Hnone : forall name,
            In name ["bisection"; "regula"; "secant"; "newton"; "fixed";
                     "modified_secant"]%string ->
            Web.req_form (Web.Request "POST" (sample_form "halley" "50"))
              "method" <> Some name).
  { intros name Hin. cbn in Hin.
    destruct Hin as [<-|[<-|[<-|[<-|[<-|[<-|[]]]]]]]; discriminate. }
  exact (@index_unknown_method IEEE sample_float sample_int sample_strip
           sample_str sample_function sample_g
           (Web.Request "POST" (sample_form "halley" "50"))
           "x**3 - 2*x - 5"%string cubic cubic' 50%Z 0.25%float
           eq_refl eq_refl eq_refl eq_refl eq_refl Hnone).
Defined.

(** [index_without_iterations] on the form for Newton-Raphson with
    max_iter = 0: an error page. *)
Lemma index_without_iterations_witness :
  (0 <= 0)%Z /\
  sample_index (Web.Request "POST" (sample_form "newton" "0")) =
    Web.Ok (Web.Page None (Some "Error during computation: exception"%string)).
Proof.
  assert (H : (0 <= 0)%Z) by lia.
  split; [exact H|].
  destruct (@index_without_iterations IEEE sample_float sample_int sample_strip
              sample_str sample_function sample_g
              (Web.Request "POST" (sample_form "newton" "0"))
              "x**3 - 2*x - 5"%string cubic cubic' 0%Z 0.25%float
              eq_refl eq_refl eq_refl H eq_refl eq_refl) as (_ & Hpoint).
  exact (proj1 (proj2 (Hpoint 2%float eq_refl)) eq_refl).
Defined.


(** [invalid_function_text] for the text "x +": [main] ends on it and leaves
    the two lines after it. *)
Lemma invalid_function_text_witness :
  sample_function (sample_strip "x +") = inl "SympifyError"%string /\
  sample_main 3 ["x +"; "1"; "50"]%string =
    Console.End
      (Console.InvalidFunction
         (ValueError "Invalid function expression: SympifyError")) ["1"; "50"]%string.
Proof.
  split; [reflexivity|].
  exact (proj1 (@invalid_function_text IEEE sample_float sample_int sample_strip
                  sample_str sample_function sample_g "x +"%string
                  "SympifyError"%string eq_refl) 3%nat ["1"; "50"]%string).
Defined.
